(** * droplet: retrieval provider, voucher selection, piece storage server

    A shallow embedding of five Go files of the droplet market node:

    - [paychmgr.BestSpendableByLane] (voucher selector),
    - [retrievalprovider.RetrievalDealHandler] (UnsealData, CancelDeal,
      CleanupDeal, Error),
    - [retrievalprovider.ProviderRequestValidator] (validatePull, acceptDeal,
      runDealDecisionLogic),
    - [dagstore.marketAPI] (IsUnsealed),
    - [rpc.PieceStorageServer] (ServeHTTP, handleGet, handlePut,
      logErrorAndResonse).

    Collaborators that the Go code reaches through interfaces (deal
    repositories, the gateway's unseal service, the piece storage manager,
    the data-transfer environment, the HTTP response writer) are modelled as
    records of reply functions and a trace of the calls made, or, where one
    call site is reached several times with replies that may differ, as
    reply scripts held in the [World]. *)

From stdpp Require Import gmap strings list pretty.
From Stdlib Require Import ZArith.
From Stdlib.Strings Require Import Byte.

Local Open Scope Z_scope.

(** ** Go errors *)

(** An [error] value.  Sentinels are package-level variables compared by
    identity; [errors_New] is a fresh error with a text; [fmt_Errorf] is
    [fmt.Errorf(prefix + "%w", err)] and keeps the wrapped error, and
    [fmt_Errorf_nil] is the same call with a nil operand. *)
Inductive error : Type :=
| ErrTerminated                  (* statemachine.ErrTerminated *)
| ErrNotFound                    (* repo.ErrNotFound *)
| ErrPause                       (* datatransfer.ErrPause *)
| Canceled                       (* context.Canceled *)
| DeadlineExceeded               (* context.DeadlineExceeded *)
| errors_New (text : string)
| fmt_Errorf (prefix : string) (wrapped : error)
| fmt_Errorf_nil (prefix : string).

#[global] Instance error_eq_dec : EqDecision error.
Proof. solve_decision. Defined.

(** [err.Error()]. *)
Fixpoint Error_text (e : error) : string :=
  match e with
  | ErrTerminated => "normal shutdown of state machine"
  | ErrNotFound => "record not found"
  | ErrPause => "pause channel"
  | Canceled => "context canceled"
  | DeadlineExceeded => "context deadline exceeded"
  | errors_New text => text
  | fmt_Errorf prefix wrapped => prefix +:+ Error_text wrapped
  | fmt_Errorf_nil prefix => prefix +:+ "%!w(<nil>)"
  end.

(** [errors.Is(e, target)]: identity along the chain of wrapped errors. *)
Fixpoint errors_Is (e target : error) : bool :=
  if bool_decide (e = target) then true
  else match e with
       | fmt_Errorf _ wrapped => errors_Is wrapped target
       | _ => false
       end.

(** [fmt.Errorf(prefix + "%w", err)] for an [err] that may be nil. *)
Definition Errorf (prefix : string) (err : option error) : error :=
  match err with
  | Some e => fmt_Errorf prefix e
  | None => fmt_Errorf_nil prefix
  end.

Definition Address := string.
Definition Cid := string.

(** * Voucher selector *)
Module paychmgr.

(** [types.SignedVoucher]: the fields that identify a voucher.  [Lane] and
    [Nonce] are uint64, [Amount] is a big integer. *)
Record SignedVoucher : Type := mkVoucher {
  ChannelAddr : Address;
  Lane : N;
  Nonce : N;
  Amount : Z;
  Signature : string
}.

#[global] Instance SignedVoucher_eq_dec : EqDecision SignedVoucher.
Proof. solve_decision. Defined.

(** The interface [BestSpendableAPI].  Both methods return [(value, error)];
    the caller returns at once when the error is not nil and never reads
    the value in that case, so a reply is a sum. *)
Class BestSpendableAPI (API : Type) : Type := {
  PaychVoucherList : API -> Address -> list SignedVoucher + error;
  PaychVoucherCheckSpendable :
    API -> Address -> SignedVoucher -> bool + error
}.

Section BestSpendable.
Context {API : Type} `{BestSpendableAPI API}.
Variable api : API.
Variable ch : Address.

(** The body of the [if spendable] block: the lane's entry is replaced when
    it is nil or when the voucher's amount is strictly greater. *)
Definition keepBest (bestByLane : gmap N SignedVoucher) (voucher : SignedVoucher)
  : gmap N SignedVoucher :=
  match bestByLane !! Lane voucher with
  | None => <[Lane voucher := voucher]> bestByLane
  | Some best =>
      if Amount voucher >? Amount best
      then <[Lane voucher := voucher]> bestByLane
      else bestByLane
  end.

(** [for _, voucher := range vouchers { ... }] *)
Fixpoint rangeVouchers (vouchers : list SignedVoucher)
    (bestByLane : gmap N SignedVoucher) : gmap N SignedVoucher + error :=
  match vouchers with
  | [] => inl bestByLane
  | voucher :: rest =>
      match PaychVoucherCheckSpendable api ch voucher with
      | inr err => inr err
      | inl spendable =>
          rangeVouchers rest
            (if spendable then keepBest bestByLane voucher else bestByLane)
      end
  end.

Definition BestSpendableByLane : gmap N SignedVoucher + error :=
  match PaychVoucherList api ch with
  | inr err => inr err
  | inl vouchers => rangeVouchers vouchers ∅
  end.

(** *** Specification vocabulary *)

Definition checkedSpendable (v : SignedVoucher) : bool :=
  match PaychVoucherCheckSpendable api ch v with
  | inl true => true
  | _ => false
  end.

Definition checkFails (v : SignedVoucher) : Prop :=
  exists e, PaychVoucherCheckSpendable api ch v = inr e.

(** The spendable vouchers of a lane, in list order. *)
Definition spendableOfLane (lane : N) (vs : list SignedVoucher)
  : list SignedVoucher :=
  List.filter (fun v => (Lane v =? lane)%N && checkedSpendable v) vs.

(** [v] is the first voucher of maximal amount in [l]: strictly smaller
    amounts before it, no greater amount after it. *)
Definition firstMaximum (l : list SignedVoucher) (v : SignedVoucher) : Prop :=
  exists before after,
    l = before ++ v :: after /\
    Forall (fun u => Amount u < Amount v) before /\
    Forall (fun u => Amount u <= Amount v) after.

(** What the map must hold for one lane. *)
Definition laneEntryOK (vs : list SignedVoucher)
    (m : gmap N SignedVoucher) (lane : N) : Prop :=
  match m !! lane with
  | None => spendableOfLane lane vs = []
  | Some v => firstMaximum (spendableOfLane lane vs) v
  end.

End BestSpendable.
(** ** A sample payment channel API *)

(** An API given by a table: the voucher list of the channel and, for each
    voucher, the answer of the spendability check. *)
Record TableAPI : Type := mkTable {
  tableVouchers : list SignedVoucher + error;
  tableSpendable : SignedVoucher -> bool + error
}.

#[global] Instance TableAPI_BestSpendableAPI : BestSpendableAPI TableAPI := {
  PaychVoucherList api _ := tableVouchers api;
  PaychVoucherCheckSpendable api _ v := tableSpendable api v
}.

Definition sampleVoucher (lane nonce : N) (amount : Z) : SignedVoucher :=
  mkVoucher "f0channel" lane nonce amount "sig".

(** Lane 1 holds vouchers of 5, 9 and 9 again, lane 2 one of 3, lane 4
    one of 7. *)
Definition sampleVouchers : list SignedVoucher :=
  [sampleVoucher 1 1 5; sampleVoucher 1 2 9; sampleVoucher 2 1 3;
   sampleVoucher 1 3 9; sampleVoucher 4 1 7].

(** Every voucher is spendable but those of lane 2. *)
Definition sampleAPI : TableAPI :=
  mkTable (inl sampleVouchers) (fun v => inl (negb (Lane v =? 2)%N)).

(** The check of the lane 4 voucher fails. *)
Definition failingAPI : TableAPI :=
  mkTable (inl sampleVouchers)
    (fun v => if (Lane v =? 4)%N then inr (errors_New "lane state unavailable")
              else inl true).

(** The sample channel with its vouchers listed in the opposite order. *)
Definition reversedAPI : TableAPI :=
  mkTable (inl (reverse sampleVouchers)) (tableSpendable sampleAPI).

End paychmgr.

(** * Retrieval provider *)
Module retrievalprovider.

Definition Bytes := list byte.
Definition PeerID := string.
Definition DealID := N.

#[global] Instance byte_eq_decision : EqDecision byte := byte_eq_dec.

(** [bytes.Equal]: a nil slice and an empty slice are equal. *)
Definition bytes_Equal (a b : Bytes) : bool := bool_decide (a = b).

(** [cbg.CborNull], the one-byte CBOR encoding of null. *)
Definition CborNull : Bytes := [xf6].

(** ** Data model *)

(** [datatransfer.ChannelID]. *)
Module ChannelID.
Record t : Type := mk { Initiator : PeerID; Responder : PeerID; ID : N }.
End ChannelID.
Abbreviation ChannelID := ChannelID.t.

(** [retrievalmarket.DealStatus], the constants the provider code names.
    [DealStatusNew] is the zero value of the type. *)
Inductive DealStatus : Type :=
| DealStatusNew
| DealStatusUnsealing
| DealStatusUnsealed
| DealStatusAccepted
| DealStatusFundsNeededUnseal
| DealStatusRejected
| DealStatusDealNotFound
| DealStatusErrored
| DealStatusCancelled
| DealStatusCompleted.

#[global] Instance DealStatus_eq_dec : EqDecision DealStatus.
Proof. solve_decision. Defined.

(** [retrievalmarket.Params].  [Selector] is a pointer to deferred CBOR
    ([None] is nil, [Some raw] carries [Selector.Raw]); token amounts of a
    decoded proposal are never nil and are plain integers. *)
Module Params.
Record t : Type := mk {
  Selector : option Bytes;
  PieceCID : option Cid;
  PricePerByte : Z;
  PaymentInterval : N;
  PaymentIntervalIncrease : N;
  UnsealPrice : Z
}.
(** [Params.SelectorSpecified]. *)
Definition SelectorSpecified (p : t) : bool :=
  match Selector p with
  | None => false
  | Some raw => negb (bytes_Equal raw CborNull)
  end.
(** [p.Selector.Raw]; read only where [SelectorSpecified] holds, which
    excludes the nil pointer. *)
Definition SelectorRaw (p : t) : Bytes :=
  match Selector p with
  | None => []
  | Some raw => raw
  end.
End Params.
Abbreviation Params := Params.t.

(** [retrievalmarket.DealProposal]; [Params] is an embedded struct. *)
Module DealProposal.
Record t : Type := mk { PayloadCID : Cid; ID : DealID; Params : Params }.
End DealProposal.
Abbreviation DealProposal := DealProposal.t.

(** [types.ProviderDealState]; [DealProposal] is an embedded struct.
    [FundsReceived] is a token amount that a freshly built record leaves at
    its zero value, a nil big integer: [None]. *)
Module ProviderDealState.
Record t : Type := mk {
  DealProposal : DealProposal;
  StoreID : N;
  SelStorageProposalCid : Cid;
  ChannelID : option ChannelID;
  Status : DealStatus;
  Receiver : PeerID;
  TotalSent : N;
  FundsReceived : option Z;
  Message : string;
  CurrentInterval : N;
  LegacyProtocol : bool
}.
(* promoted fields of the embedded structs *)
Definition ID (d : t) : DealID := DealProposal.ID (DealProposal d).
Definition PayloadCID (d : t) : Cid := DealProposal.PayloadCID (DealProposal d).
Definition Params (d : t) : Params := DealProposal.Params (DealProposal d).
Definition UnsealPrice (d : t) : Z := Params.UnsealPrice (Params d).
(* field assignments *)
Definition set_Status (s : DealStatus) (d : t) : t :=
  mk (DealProposal d) (StoreID d) (SelStorageProposalCid d) (ChannelID d) s
     (Receiver d) (TotalSent d) (FundsReceived d) (Message d)
     (CurrentInterval d) (LegacyProtocol d).
Definition set_Message (m : string) (d : t) : t :=
  mk (DealProposal d) (StoreID d) (SelStorageProposalCid d) (ChannelID d)
     (Status d) (Receiver d) (TotalSent d) (FundsReceived d) m
     (CurrentInterval d) (LegacyProtocol d).
Definition set_SelStorageProposalCid (c : Cid) (d : t) : t :=
  mk (DealProposal d) (StoreID d) c (ChannelID d)
     (Status d) (Receiver d) (TotalSent d) (FundsReceived d) (Message d)
     (CurrentInterval d) (LegacyProtocol d).
Definition set_TotalSent (n : N) (d : t) : t :=
  mk (DealProposal d) (StoreID d) (SelStorageProposalCid d) (ChannelID d)
     (Status d) (Receiver d) n (FundsReceived d) (Message d)
     (CurrentInterval d) (LegacyProtocol d).
Definition set_FundsReceived (a : option Z) (d : t) : t :=
  mk (DealProposal d) (StoreID d) (SelStorageProposalCid d) (ChannelID d)
     (Status d) (Receiver d) (TotalSent d) a (Message d)
     (CurrentInterval d) (LegacyProtocol d).
End ProviderDealState.
Abbreviation ProviderDealState := ProviderDealState.t.

(** [retrievalmarket.DealResponse].  [PaymentOwed] is [None] while the
    field keeps its zero value. *)
Module DealResponse.
Record t : Type := mk {
  Status : DealStatus;
  ID : DealID;
  PaymentOwed : option Z;
  Message : string
}.
Definition set_PaymentOwed (a : option Z) (r : t) : t :=
  mk (Status r) (ID r) a (Message r).
Definition set_Message (m : string) (r : t) : t :=
  mk (Status r) (ID r) (PaymentOwed r) m.
End DealResponse.
Abbreviation DealResponse := DealResponse.t.

(** The storage deal behind a piece: [types.MinerDeal] and the fields of its
    [Proposal] that the provider reads.  [PieceSize] and [Offset] are padded
    piece sizes (uint64). *)
Module StorageProposal.
Record t : Type := mk { PieceCID : Cid; PieceSize : N; Provider : Address }.
End StorageProposal.

Module MinerDeal.
Record t : Type := mk {
  Proposal : StorageProposal.t;
  ProposalCid : Cid;
  SectorNumber : N;
  Offset : N
}.
End MinerDeal.
Abbreviation MinerDeal := MinerDeal.t.

(** [abi.PaddedPieceSize.Unpadded]: [s - (s >> 7)]. *)
Definition Unpadded (s : N) : N := (s - N.shiftr s 7)%N.

(** The conversion [int64(x)] of a uint64. *)
Definition int64 (x : N) : Z :=
  if (Z.of_N x <? 2 ^ 63) then Z.of_N x else Z.of_N x - 2 ^ 64.

(** [types.RetrievalAsk]. *)
Module RetrievalAsk.
Record t : Type := mk {
  Miner : Address;
  PricePerByte : Z;
  UnsealPrice : Z;
  PaymentInterval : N;
  PaymentIntervalIncrease : N
}.
End RetrievalAsk.
Abbreviation RetrievalAsk := RetrievalAsk.t.

(** Modelled from the spec: [gtypes.UnsealState] belongs to the gateway
    types, whose declaration is not part of this package; the remote unseal
    service answers Failed, InProgress or Finished.  The handler compares a
    state with Failed and Finished only, so [UnsealStateInProgress] stands
    for every other value, the zero value that accompanies a failed call
    included. *)
Inductive UnsealState : Type :=
| UnsealStateFailed
| UnsealStateInProgress
| UnsealStateFinished.

(** What the [select] at the end of a polling round receives.  The timeout
    context is derived from the caller's context with a deadline of its
    own: it is done when that deadline passes, which leaves the caller's
    context alive, or when the caller's context is done. *)
Inductive SelectOutcome : Type :=
| TickerFired                      (* case <-ticker.C *)
| DeadlineExpired                  (* case <-timeOutCtx.Done(), own deadline *)
| ParentDone (reason : error).     (* case <-timeOutCtx.Done(), ctx is done *)

(** [ctx.Err()] of the caller's context at that moment. *)
Definition ctx_Err (s : SelectOutcome) : option error :=
  match s with
  | ParentDone reason => Some reason
  | TickerFired | DeadlineExpired => None
  end.

(** [timeOutCtx.Err()] at that moment. *)
Definition timeOutCtx_Err (s : SelectOutcome) : option error :=
  match s with
  | ParentDone reason => Some reason
  | DeadlineExpired => Some DeadlineExceeded
  | TickerFired => None
  end.

(** The levels of the logger; [LogError] is [log.Errorf]. *)
Inductive LogLevel : Type := Debug | Info | Warn | LogError.

(** ** The world outside the provider *)

(** Calls that leave the provider, in the order they are made. *)
Inductive Event : Type :=
| EvSaveDeal (deal : ProviderDealState) (reply : option error)
| EvGetDeal (proposalCid : Cid)
| EvFindStorageForRead (piece : string)
| EvFindStorageForWrite (size : Z)
| EvGetPieceTransfer (piece : string)
| EvSectorsUnsealPiece (provider : Address) (piece : Cid) (sector : N)
    (offset size : N) (pieceTransfer : string)
| EvSelect (outcome : SelectOutcome)
| EvPrepareBlockstore (deal : DealID) (piece : Cid)
| EvResumeDataTransfer (channel : ChannelID)
| EvDeleteStore (deal : DealID)
| EvCloseDataTransfer (channel : ChannelID)
| EvGetPieceInfoFromCid (payload : Cid) (piece : option Cid)
| EvMinerProviderConfig (provider : Address)
| EvGetAsk (provider : Address)
| EvDealDecision (deal : ProviderDealState)
| EvLog (level : LogLevel) (format : string).

(** The state of everything the provider talks to.  The replies of the
    deal repository's [SaveDeal], of the gateway's [SectorsUnsealPiece] and
    of the polling [select] are scripts, consumed one reply per call.
    [SaveDeal] succeeds once its script is used up; the two polling scripts
    have no default, a call past their end stays unanswered. *)
Record World : Type := mkWorld {
  saveDealReplies : list (option error);
  unsealReplies : list (UnsealState * option error);
  selectOutcomes : list SelectOutcome;
  trace : list Event
}.

Definition M (A : Type) : Type := World -> A * World.
Definition ret {A : Type} (x : A) : M A := fun w => (x, w).
Definition bind {A B : Type} (m : M A) (k : A -> M B) : M B :=
  fun w => let '(x, w') := m w in k x w'.

Notation "'call' x <- m ; k" := (bind m (fun x => k))
  (at level 10, x name, m at level 100, k at level 200).
Notation "'call' ' p <- m ; k" :=
  (bind m (fun x => match x with p => k end))
  (at level 10, p pattern, m at level 100, k at level 200).
Notation "'exec' m ; k" := (bind m (fun _ => k))
  (at level 10, m at level 100, k at level 200).

(** The world after further calls have been recorded. *)
Definition after (w : World) (events : list Event) : World :=
  mkWorld (saveDealReplies w) (unsealReplies w) (selectOutcomes w)
          (trace w ++ events).

Definition emit (e : Event) : M unit := fun w => (tt, after w [e]).

Definition log (level : LogLevel) (format : string) : M unit :=
  emit (EvLog level format).

(** Emit the event of a call to a collaborator whose reply is a function of
    the arguments, and hand the reply back. *)
Definition calling {A : Type} (e : Event) (reply : A) : M A :=
  exec emit e; ret reply.

(** The reply that the next call of [SaveDeal] gets. *)
Definition nextSaveReply (w : World) : option error :=
  match saveDealReplies w with
  | [] => None
  | reply :: _ => reply
  end.

(** The world after [SaveDeal] has been called with [deal]. *)
Definition afterSave (w : World) (deal : ProviderDealState) : World :=
  mkWorld (tail (saveDealReplies w)) (unsealReplies w) (selectOutcomes w)
          (trace w ++ [EvSaveDeal deal (nextSaveReply w)]).

(** [retrievalDealStore.SaveDeal(ctx, deal)]. *)
Definition SaveDeal (deal : ProviderDealState) : M (option error) :=
  fun w => (nextSaveReply w, afterSave w deal).

(** [gatewayMarketClient.SectorsUnsealPiece(...)]; [None] when the script
    holds no further reply. *)
Definition SectorsUnsealPiece (provider : Address) (piece : Cid) (sector : N)
    (offset size : N) (pieceTransfer : string)
  : M (option (UnsealState * option error)) :=
  fun w =>
    match unsealReplies w with
    | [] => (None, w)
    | r :: rest =>
        (Some r,
         mkWorld (saveDealReplies w) rest (selectOutcomes w)
           (trace w ++ [EvSectorsUnsealPiece provider piece sector
                          offset size pieceTransfer]))
    end.

(** The [select] over the ticker and the timeout context. *)
Definition select : M (option SelectOutcome) :=
  fun w =>
    match selectOutcomes w with
    | [] => (None, w)
    | s :: rest =>
        (Some s, mkWorld (saveDealReplies w) (unsealReplies w) rest
                         (trace w ++ [EvSelect s]))
    end.

(** ** Collaborators of the deal handler *)

(** [piecestorage.IPieceStorage], as far as the handler uses it. *)
Module IPieceStorage.
Record t : Type := mk {
  Name : string;
  GetPieceTransfer : string -> string + error
}.
End IPieceStorage.
Abbreviation IPieceStorage := IPieceStorage.t.

(** [piecestorage.PieceStorageManager].  [FindStorageForRead] returns a
    pair whose two components the handler tests one after the other. *)
Module PieceStorageManager.
Record t : Type := mk {
  FindStorageForRead : string -> option IPieceStorage * option error;
  FindStorageForWrite : Z -> IPieceStorage + error
}.
End PieceStorageManager.
Abbreviation PieceStorageManager := PieceStorageManager.t.

(** [ProviderDealEnvironment]: blockstore preparation and transfer control. *)
Module ProviderDealEnvironment.
Record t : Type := mk {
  PrepareBlockstore : DealID -> Cid -> option error;
  DeleteStore : DealID -> option error;
  ResumeDataTransfer : ChannelID -> option error;
  CloseDataTransfer : ChannelID -> option error
}.
End ProviderDealEnvironment.
Abbreviation ProviderDealEnvironment := ProviderDealEnvironment.t.

(** [repo.StorageDealRepo]. *)
Module StorageDealRepo.
Record t : Type := mk { GetDeal : Cid -> MinerDeal + error }.
End StorageDealRepo.
Abbreviation StorageDealRepo := StorageDealRepo.t.

(** [RetrievalDealHandler].  The fields [retrievalDealStore] and
    [gatewayMarketClient] of the Go struct are the scripts of the [World]. *)
Module RetrievalDealHandler.
Record t : Type := mk {
  env : ProviderDealEnvironment;
  storageDealRepo : StorageDealRepo;
  pieceStorageMgr : PieceStorageManager
}.
End RetrievalDealHandler.
Abbreviation RetrievalDealHandler := RetrievalDealHandler.t.

(** How a call of the handler ends: it returns [err], or it is still
    polling when the scripts of the [World] end. *)
Inductive Outcome : Type :=
| Returned (err : option error)
| Pending.

(** How control leaves the block that unseals the piece. *)
Inductive LoopExit : Type :=
| LoopBreak                         (* falls through to the code after it *)
| LoopReturn (err : option error)   (* [return] with this value of [err] *)
| LoopPending.                      (* a call stays unanswered *)

(** ** RetrievalDealHandler *)
Section Handler.
Variable p : RetrievalDealHandler.

(** [func (p *RetrievalDealHandler) Error(ctx, deal, err) error] *)
Definition Error (deal : ProviderDealState) (err : option error)
  : M (option error * ProviderDealState) :=
  let deal := ProviderDealState.set_Status DealStatusErrored deal in
  let deal := match err with
              | Some e => ProviderDealState.set_Message (Error_text e) deal
              | None => deal
              end in
  call r <- SaveDeal deal;
  ret (r, deal).

(** [func (p *RetrievalDealHandler) CancelDeal(ctx, deal) error] *)
Definition CancelDeal (deal : ProviderDealState)
  : M (option error * ProviderDealState) :=
  call err <- calling (EvDeleteStore (ProviderDealState.ID deal))
    (ProviderDealEnvironment.DeleteStore (RetrievalDealHandler.env p)
       (ProviderDealState.ID deal));
  match err with
  | Some _ => Error deal None
  | None =>
      let finish :=
        (let deal := ProviderDealState.set_Status DealStatusCancelled deal in
         call r <- SaveDeal deal;
         ret (r, deal)) in
      match ProviderDealState.ChannelID deal with
      | Some channel =>
          call err <- calling (EvCloseDataTransfer channel)
            (ProviderDealEnvironment.CloseDataTransfer
               (RetrievalDealHandler.env p) channel);
          match err with
          | Some e =>
              if negb (errors_Is e ErrTerminated)
              then Error deal None
              else finish
          | None => finish
          end
      | None => finish
      end
  end.

(** [func (p *RetrievalDealHandler) CleanupDeal(ctx, deal) error] *)
Definition CleanupDeal (deal : ProviderDealState)
  : M (option error * ProviderDealState) :=
  call err <- calling (EvDeleteStore (ProviderDealState.ID deal))
    (ProviderDealEnvironment.DeleteStore (RetrievalDealHandler.env p)
       (ProviderDealState.ID deal));
  match err with
  | Some _ => Error deal None
  | None =>
      let deal := ProviderDealState.set_Status DealStatusCompleted deal in
      call r <- SaveDeal deal;
      ret (r, deal)
  end.

(** [errRetry] of [UnsealData]. *)
Definition errRetry : Z := 5.

(** The loop labelled [CheckLoop].  One round calls the unseal service,
    counts a failed call, returns when the count exceeds [errRetry] or the
    state is Failed, breaks when the state is Finished, and otherwise waits
    in the [select].  [rounds] bounds the number of rounds by the number of
    replies the world holds when the loop is entered. *)
Fixpoint CheckLoop (deal : MinerDeal) (pieceCid : Cid) (pieceTransfer : string)
    (rounds : nat) (errRetryCount : Z) : M LoopExit :=
  match rounds with
  | O => ret LoopPending
  | S rounds =>
      call reply <- SectorsUnsealPiece
        (StorageProposal.Provider (MinerDeal.Proposal deal)) pieceCid
        (MinerDeal.SectorNumber deal)
        (Unpadded (MinerDeal.Offset deal))
        (Unpadded (StorageProposal.PieceSize (MinerDeal.Proposal deal)))
        pieceTransfer;
      match reply with
      | None => ret LoopPending
      | Some (state, err) =>
          let wrapped :=
            match err with
            | Some e =>
                Some (fmt_Errorf ("unseal piece " +:+ pieceCid +:+ ": ") e)
            | None => None
            end in
          let errRetryCount :=
            match err with
            | Some _ => errRetryCount + 1
            | None => errRetryCount
            end in
          exec (match err with
                | Some _ => log Warn "unseal piece %s fail, retry (%d/%d): %w"
                | None => ret tt
                end);
          if bool_decide (err <> None) && (errRetryCount >? errRetry)
          then ret (LoopReturn wrapped)
          else
            exec log Debug "unseal piece %s: %s";
            match state with
            | UnsealStateFailed =>
                ret (LoopReturn
                       (Some (Errorf ("unseal piece " +:+ pieceCid +:+ " fail: ")
                                wrapped)))
            | UnsealStateFinished => ret LoopBreak
            | UnsealStateInProgress =>
                call s <- select;
                match s with
                | None => ret LoopPending
                | Some TickerFired =>
                    CheckLoop deal pieceCid pieceTransfer rounds errRetryCount
                | Some done => ret (LoopReturn (ctx_Err done))
                end
            end
      end
  end.

(** The [else] block of [UnsealData]: choose a backend to write to, get its
    transfer endpoint, and poll the unseal service. *)
Definition tryUnseal (deal : MinerDeal) (pieceCid : Cid) : M LoopExit :=
  let size := int64 (StorageProposal.PieceSize (MinerDeal.Proposal deal)) in
  call found <- calling (EvFindStorageForWrite size)
    (PieceStorageManager.FindStorageForWrite
       (RetrievalDealHandler.pieceStorageMgr p) size);
  match found with
  | inr err =>
      ret (LoopReturn
             (Some (fmt_Errorf
                      ("failed to find storage to write " +:+
                       StorageProposal.PieceCID (MinerDeal.Proposal deal) +:+ ": ")
                      err)))
  | inl wps =>
      call transfer <- calling (EvGetPieceTransfer pieceCid)
        (IPieceStorage.GetPieceTransfer wps pieceCid);
      match transfer with
      | inr err =>
          ret (LoopReturn
                 (Some (fmt_Errorf
                          ("get piece transfer for " +:+ pieceCid +:+ ": ") err)))
      | inl pieceTransfer =>
          exec log Info "try to unseal";
          call exit <-
            (fun w => CheckLoop deal pieceCid pieceTransfer
                        (length (unsealReplies w)) 0 w);
          match exit with
          | LoopBreak => exec log Info "unseal piece success"; ret LoopBreak
          | _ => ret exit
          end
      end
  end.

(** [UnsealData] from the call of [PrepareBlockstore] on. *)
Definition finishUnseal (deal : MinerDeal) (providerDeal : ProviderDealState)
  : M (Outcome * ProviderDealState) :=
  call err <- calling
    (EvPrepareBlockstore (ProviderDealState.ID providerDeal)
       (StorageProposal.PieceCID (MinerDeal.Proposal deal)))
    (ProviderDealEnvironment.PrepareBlockstore (RetrievalDealHandler.env p)
       (ProviderDealState.ID providerDeal)
       (StorageProposal.PieceCID (MinerDeal.Proposal deal)));
  match err with
  | Some _ =>
      exec log LogError "unable to load shard %s  %s";
      call '(err, providerDeal) <- CancelDeal providerDeal;
      ret (Returned err, providerDeal)
  | None =>
      exec log Debug
        "blockstore prepared successfully, firing unseal complete for deal %d";
      let providerDeal :=
        ProviderDealState.set_Status DealStatusUnsealed providerDeal in
      call err <- SaveDeal providerDeal;
      match err with
      | Some _ => ret (Returned err, providerDeal)
      | None =>
          exec log Debug "unpausing data transfer for deal %d";
          call providerDeal <-
            match ProviderDealState.ChannelID providerDeal with
            | Some channel =>
                exec log Debug "resuming data transfer for deal %d";
                call err <- calling (EvResumeDataTransfer channel)
                  (ProviderDealEnvironment.ResumeDataTransfer
                     (RetrievalDealHandler.env p) channel);
                ret (match err with
                     | Some _ =>
                         ProviderDealState.set_Status DealStatusErrored
                           providerDeal
                     | None => providerDeal
                     end)
            | None => ret providerDeal
            end;
          call err <- SaveDeal providerDeal;
          ret (Returned err, providerDeal)
      end
  end.

(** [func (p *RetrievalDealHandler) UnsealData(ctx, providerDeal) (err error)].
    The deal is passed by pointer: the second component of the result is
    the record as the call leaves it. *)
Definition UnsealData (providerDeal : ProviderDealState)
  : M (Outcome * ProviderDealState) :=
  let providerDeal :=
    ProviderDealState.set_Status DealStatusUnsealing providerDeal in
  call err <- SaveDeal providerDeal;
  match err with
  | Some _ => ret (Returned err, providerDeal)
  | None =>
      call got <- calling
        (EvGetDeal (ProviderDealState.SelStorageProposalCid providerDeal))
        (StorageDealRepo.GetDeal (RetrievalDealHandler.storageDealRepo p)
           (ProviderDealState.SelStorageProposalCid providerDeal));
      match got with
      | inr err => ret (Returned (Some err), providerDeal)
      | inl deal =>
          let pieceCid := StorageProposal.PieceCID (MinerDeal.Proposal deal) in
          call '(st, err) <- calling (EvFindStorageForRead pieceCid)
            (PieceStorageManager.FindStorageForRead
               (RetrievalDealHandler.pieceStorageMgr p) pieceCid);
          exec (match err with
                | Some _ => log Info "try to find piece  fail: %w"
                | None => ret tt
                end);
          call exit <-
            match st with
            | Some _ =>
                exec log Info "piece already exist, no need to unseal";
                ret LoopBreak
            | None => tryUnseal deal pieceCid
            end;
          match exit with
          | LoopReturn err => ret (Returned err, providerDeal)
          | LoopPending => ret (Pending, providerDeal)
          | LoopBreak => finishUnseal deal providerDeal
          end
      end
  end.

End Handler.

(** ** Specification vocabulary for the handler *)

Definition isUnsealCall (e : Event) : bool :=
  match e with
  | EvSectorsUnsealPiece _ _ _ _ _ _ => true
  | _ => false
  end.

(** How often the remote unseal service is called in a run of events. *)
Definition unsealCalls (events : list Event) : nat :=
  length (List.filter isUnsealCall events).

(** The statuses with which the deal repository's [SaveDeal] is called. *)
Definition savedStatuses (events : list Event) : list DealStatus :=
  flat_map (fun e => match e with
                     | EvSaveDeal deal _ => [ProviderDealState.Status deal]
                     | _ => []
                     end) events.

(** A transient failure of the unseal service: the call returns an error
    and no terminal state. *)
Definition transient (reply : UnsealState * option error) : Prop :=
  reply.1 = UnsealStateInProgress /\ reply.2 <> None.

(** The calls of one polling round that meets a transient failure and then
    receives the ticker. *)
Definition transientRound (deal : MinerDeal) (pieceCid : Cid)
    (pieceTransfer : string) : list Event :=
  [EvSectorsUnsealPiece
     (StorageProposal.Provider (MinerDeal.Proposal deal)) pieceCid
     (MinerDeal.SectorNumber deal)
     (Unpadded (MinerDeal.Offset deal))
     (Unpadded (StorageProposal.PieceSize (MinerDeal.Proposal deal)))
     pieceTransfer;
   EvLog Warn "unseal piece %s fail, retry (%d/%d): %w";
   EvLog Debug "unseal piece %s: %s";
   EvSelect TickerFired].

(** The calls of [UnsealData] up to the probe of the piece storage manager,
    after the first [SaveDeal]. *)
Definition probeEvents (providerDeal : ProviderDealState) (pieceCid : Cid)
    (probeErr : option error) : list Event :=
  [EvGetDeal (ProviderDealState.SelStorageProposalCid providerDeal);
   EvFindStorageForRead pieceCid] ++
  match probeErr with
  | Some _ => [EvLog Info "try to find piece  fail: %w"]
  | None => []
  end.

(** Teardown in [CancelDeal] fails: the store cannot be deleted, or the
    transfer channel cannot be closed for a reason other than
    [ErrTerminated]. *)
Definition teardownFails (p : RetrievalDealHandler)
    (deal : ProviderDealState) : bool :=
  let env := RetrievalDealHandler.env p in
  match ProviderDealEnvironment.DeleteStore env (ProviderDealState.ID deal) with
  | Some _ => true
  | None =>
      match ProviderDealState.ChannelID deal with
      | None => false
      | Some channel =>
          match ProviderDealEnvironment.CloseDataTransfer env channel with
          | Some e => negb (errors_Is e ErrTerminated)
          | None => false
          end
      end
  end.

(** The calls of [CancelDeal] before its [SaveDeal]. *)
Definition teardownEvents (p : RetrievalDealHandler)
    (deal : ProviderDealState) : list Event :=
  let env := RetrievalDealHandler.env p in
  EvDeleteStore (ProviderDealState.ID deal) ::
  match ProviderDealEnvironment.DeleteStore env (ProviderDealState.ID deal),
        ProviderDealState.ChannelID deal with
  | None, Some channel => [EvCloseDataTransfer channel]
  | _, _ => []
  end.

(** No scripted failure of [SaveDeal] lies ahead. *)
Definition savesSucceed (w : World) : Prop :=
  Forall (fun reply => reply = None) (saveDealReplies w).

(** Resuming the transfer of the deal does not fail: the deal has no
    channel, or [ResumeDataTransfer] returns nil for it. *)
Definition resumeSucceeds (p : RetrievalDealHandler)
    (deal : ProviderDealState) : Prop :=
  match ProviderDealState.ChannelID deal with
  | None => True
  | Some channel =>
      ProviderDealEnvironment.ResumeDataTransfer
        (RetrievalDealHandler.env p) channel = None
  end.

(** ** Sample collaborators for the handler *)

Definition sampleStorage : IPieceStorage :=
  IPieceStorage.mk "fs0" (fun piece => inl ("http://fs0/" +:+ piece)).

Definition sampleMinerDeal : MinerDeal :=
  MinerDeal.mk (StorageProposal.mk "bafk-piece" 2048%N "f01000")
    "bafy-storage-proposal" 7%N 4096%N.

Definition sampleChannel : ChannelID := ChannelID.mk "client" "provider" 3%N.

(** An environment whose four operations return the given errors. *)
Definition sampleEnv (prepare delete resume close : option error)
  : ProviderDealEnvironment :=
  ProviderDealEnvironment.mk (fun _ _ => prepare) (fun _ => delete)
    (fun _ => resume) (fun _ => close).

(** A handler whose storage-deal repository knows [sampleMinerDeal] under
    its proposal CID and whose piece storage manager answers the read
    probe with [probe]. *)
Definition sampleHandler (env : ProviderDealEnvironment)
    (probe : option IPieceStorage * option error) : RetrievalDealHandler :=
  RetrievalDealHandler.mk env
    (StorageDealRepo.mk
       (fun c => if bool_decide (c = "bafy-storage-proposal")
                 then inl sampleMinerDeal else inr ErrNotFound))
    (PieceStorageManager.mk (fun _ => probe) (fun _ => inl sampleStorage)).

Definition sampleProviderDeal (channel : option ChannelID) : ProviderDealState :=
  ProviderDealState.mk
    (DealProposal.mk "bafy-payload" 11%N
       (Params.mk None None 2 1000%N 100%N 0))
    0%N "bafy-storage-proposal" channel DealStatusNew "client" 0%N None ""
    1000%N false.

(** A world with the given replies of the unseal service and outcomes of
    the polling [select], no scripted save failure and an empty trace. *)
Definition sampleWorld (replies : list (UnsealState * option error))
    (outcomes : list SelectOutcome) : World :=
  mkWorld [] replies outcomes [].

Definition absent : option IPieceStorage * option error :=
  (None, Some (errors_New "unable to find piece in storage")).

Definition timeout : error := errors_New "gateway: request timed out".

(** An environment in which nothing fails. *)
Definition quietEnv : ProviderDealEnvironment := sampleEnv None None None None.

Definition present : option IPieceStorage * option error :=
  (Some sampleStorage, None).

Definition prepareError : error := errors_New "shard registration failed".

Definition fiveTimeouts : list (UnsealState * option error) :=
  replicate 5 (UnsealStateInProgress, Some timeout).

(** How many of the replies of the unseal service carry an error. *)
Definition failedCalls (replies : list (UnsealState * option error)) : nat :=
  length (List.filter (fun reply => bool_decide (reply.2 <> None)) replies).

(** The statuses [UnsealData] can leave a deal with. *)
Definition unsealDataStatus (status : DealStatus) : Prop :=
  status = DealStatusUnsealing \/ status = DealStatusUnsealed \/
  status = DealStatusErrored \/ status = DealStatusCancelled.

(** A handler like [sampleHandler] whose piece storage manager answers the
    choice of a backend to write to with [write]. *)
Definition sampleHandlerWriting (env : ProviderDealEnvironment)
    (probe : option IPieceStorage * option error)
    (write : IPieceStorage + error) : RetrievalDealHandler :=
  RetrievalDealHandler.mk env
    (RetrievalDealHandler.storageDealRepo (sampleHandler env probe))
    (PieceStorageManager.mk (fun _ => probe) (fun _ => write)).

Definition noRoom : error := errors_New "no storage has enough space".

(** A backend that cannot name a transfer endpoint. *)
Definition brokenStorage : IPieceStorage :=
  IPieceStorage.mk "fs1" (fun _ => inr timeout).

(** ** Collaborators of the request validator *)

(** Package-level names that the validator uses and whose declarations lie
    elsewhere: the IPLD node type with its DAG-CBOR encoder (the bytes
    written to the buffer and the error), the explore-all selector, and
    [CheckDealParams], which is declared in another file of the package. *)
Class Imports : Type := {
  ipld_Node : Type;
  dagcbor_Encode : ipld_Node -> Bytes * option error;
  CommonSelector_ExploreAllRecursively : ipld_Node;
  CheckDealParams : RetrievalAsk -> Z -> N -> N -> Z -> option error
}.

(** The miner configuration, as far as [acceptDeal] reads it. *)
Module MinerConfig.
Record t : Type := mk { RetrievalPaymentAddress : Address }.
End MinerConfig.

(** [config.MarketConfig]. *)
Module MarketConfig.
Record t : Type := mk {
  MinerProviderConfig : Address -> bool -> MinerConfig.t + error
}.
End MarketConfig.

(** [PieceInfo]. *)
Module PieceInfo.
Record t : Type := mk {
  GetPieceInfoFromCid : Cid -> option Cid -> list MinerDeal + error
}.
End PieceInfo.

(** [repo.IRetrievalAskRepo].  [GetAsk] returns a pair: the loop of
    [acceptDeal] keeps the ask of a failed call in its variable. *)
Module IRetrievalAskRepo.
Record t : Type := mk {
  GetAsk : Address -> option RetrievalAsk * option error
}.
End IRetrievalAskRepo.

(** [config.RetrievalDealFilter]. *)
Definition RetrievalDealFilter : Type :=
  ProviderDealState -> bool * string * option error.

(** [ProviderRequestValidator].  The field [retrievalDeal] of the Go struct
    is the [SaveDeal] script of the [World]; [storageDeals] is not read. *)
Module ProviderRequestValidator.
Record t : Type := mk {
  cfg : MarketConfig.t;
  pieceInfo : PieceInfo.t;
  retrievalAsk : IRetrievalAskRepo.t;
  rdf : option RetrievalDealFilter
}.
End ProviderRequestValidator.
Abbreviation ProviderRequestValidator := ProviderRequestValidator.t.

(** [address.Address.Empty]: the address is [address.Undef]. *)
Definition Address_Empty (a : Address) : bool := bool_decide (a = "").

(** ** ProviderRequestValidator *)
Section Validator.
Context `{Imports}.
Variable rv : ProviderRequestValidator.

(** [allSelectorBytes], filled by [init]; the encoder's error is dropped. *)
Definition allSelectorBytes : Bytes :=
  fst (dagcbor_Encode CommonSelector_ExploreAllRecursively).

(** [func (rv *ProviderRequestValidator) runDealDecisionLogic(ctx, deal)] *)
Definition runDealDecisionLogic (deal : ProviderDealState)
  : M (bool * string * option error) :=
  match ProviderRequestValidator.rdf rv with
  | None => ret (true, "", None)
  | Some filter => calling (EvDealDecision deal) (filter deal)
  end.

(** The loop [for _, minerDeal := range minerDeals] of [acceptDeal].  [ask]
    is the variable declared before the loop; the [err] assigned in the
    body is declared by the body's own [:=] and does not outlive it. *)
Fixpoint rangeMinerDeals (minerDeals : list MinerDeal)
    (deal : ProviderDealState) (ask : option RetrievalAsk)
  : M (option RetrievalAsk * ProviderDealState) :=
  match minerDeals with
  | [] => ret (ask, deal)
  | minerDeal :: rest =>
      let provider := StorageProposal.Provider (MinerDeal.Proposal minerDeal) in
      call minerCfg <- calling (EvMinerProviderConfig provider)
        (MarketConfig.MinerProviderConfig (ProviderRequestValidator.cfg rv)
           provider true);
      match minerCfg with
      | inr _ => rangeMinerDeals rest deal ask
      | inl minerCfg =>
          if Address_Empty (MinerConfig.RetrievalPaymentAddress minerCfg)
          then rangeMinerDeals rest deal ask
          else
            let deal :=
              ProviderDealState.set_SelStorageProposalCid
                (MinerDeal.ProposalCid minerDeal) deal in
            call '(ask, err) <- calling (EvGetAsk provider)
              (IRetrievalAskRepo.GetAsk
                 (ProviderRequestValidator.retrievalAsk rv) provider);
            match err with
            | Some _ =>
                exec log Warn "got %s ask failed: %v";
                rangeMinerDeals rest deal ask
            | None => ret (ask, deal)
            end
      end
  end.

(** [func (rv *ProviderRequestValidator) acceptDeal(ctx, deal)].  The deal
    is passed by pointer: the third component is the record afterwards. *)
Definition acceptDeal (deal : ProviderDealState)
  : M (DealStatus * option error * ProviderDealState) :=
  call minerDeals <- calling
    (EvGetPieceInfoFromCid (ProviderDealState.PayloadCID deal)
       (Params.PieceCID (ProviderDealState.Params deal)))
    (PieceInfo.GetPieceInfoFromCid (ProviderRequestValidator.pieceInfo rv)
       (ProviderDealState.PayloadCID deal)
       (Params.PieceCID (ProviderDealState.Params deal)));
  match minerDeals with
  | inr err =>
      if errors_Is err ErrNotFound
      then ret (DealStatusDealNotFound, Some err, deal)
      else ret (DealStatusErrored, Some err, deal)
  | inl minerDeals =>
      call '(ask, deal) <- rangeMinerDeals minerDeals deal None;
      match ask with
      | None =>
          (* [err] is still the nil error of [GetPieceInfoFromCid] *)
          ret (DealStatusErrored, None, deal)
      | Some ask =>
          let params := ProviderDealState.Params deal in
          match CheckDealParams ask (Params.PricePerByte params)
                  (Params.PaymentInterval params)
                  (Params.PaymentIntervalIncrease params)
                  (Params.UnsealPrice params) with
          | Some err => ret (DealStatusRejected, Some err, deal)
          | None =>
              call '(accepted, reason, err) <- runDealDecisionLogic deal;
              match err with
              | Some _ => ret (DealStatusErrored, err, deal)
              | None =>
                  if negb accepted
                  then ret (DealStatusRejected, Some (errors_New reason), deal)
                  else if ProviderDealState.UnsealPrice deal >? 0
                  then ret (DealStatusFundsNeededUnseal, None, deal)
                  else ret (DealStatusAccepted, None, deal)
              end
          end
      end
  end.

(** The deal record that [validatePull] builds for a new request; the
    fields it does not name keep their zero values. *)
Definition newProviderDealState (proposal : DealProposal) (receiver : PeerID)
    (legacyProtocol : bool) : ProviderDealState :=
  ProviderDealState.mk proposal 0%N "" None DealStatusNew receiver 0%N None ""
    (Params.PaymentInterval (DealProposal.Params proposal)) legacyProtocol.

(** [func (rv *ProviderRequestValidator) validatePull(ctx, isRestart,
    receiver, proposal, legacyProtocol, baseCid, selector)] *)
Definition validatePull (isRestart : bool) (receiver : PeerID)
    (proposal : DealProposal) (legacyProtocol : bool) (baseCid : Cid)
    (selector : ipld_Node) : M (option DealResponse * option error) :=
  if negb (bool_decide (DealProposal.PayloadCID proposal = baseCid))
  then ret (None, Some (errors_New "incorrect CID for this proposal"))
  else
    let '(buf, err) := dagcbor_Encode selector in
    match err with
    | Some _ => ret (None, err)
    | None =>
        let bytesCompare :=
          if Params.SelectorSpecified (DealProposal.Params proposal)
          then Params.SelectorRaw (DealProposal.Params proposal)
          else allSelectorBytes in
        if negb (bytes_Equal buf bytesCompare)
        then ret (None, Some (errors_New "incorrect selector for this proposal"))
        else if isRestart
        then ret (None, None)
        else
          let pds := newProviderDealState proposal receiver legacyProtocol in
          call '(status, err, pds) <- acceptDeal pds;
          let response := DealResponse.mk status (DealProposal.ID proposal) None "" in
          let response :=
            if bool_decide (status = DealStatusFundsNeededUnseal)
            then DealResponse.set_PaymentOwed
                   (Some (ProviderDealState.UnsealPrice pds)) response
            else response in
          match err with
          | Some e =>
              ret (Some (DealResponse.set_Message (Error_text e) response), err)
          | None =>
              let pds :=
                if ProviderDealState.UnsealPrice pds >? 0
                then ProviderDealState.set_TotalSent 0%N
                       (ProviderDealState.set_Status
                          DealStatusFundsNeededUnseal pds)
                else ProviderDealState.set_FundsReceived (Some 0)
                       (ProviderDealState.set_TotalSent 0%N pds) in
              call err <- SaveDeal pds;
              match err with
              | Some e =>
                  ret (Some (DealResponse.set_Message (Error_text e) response),
                       err)
              | None => ret (Some response, Some ErrPause)
              end
          end
    end.

End Validator.

(** ** Specification vocabulary for the validator *)
Section ValidatorVocabulary.
Context `{Imports}.

(** The bytes the selector of a request must encode to. *)
Definition expectedSelectorBytes (proposal : DealProposal) : Bytes :=
  if Params.SelectorSpecified (DealProposal.Params proposal)
  then Params.SelectorRaw (DealProposal.Params proposal)
  else allSelectorBytes.

(** The request passes the CID check and the selector check. *)
Definition requestMatches (proposal : DealProposal) (baseCid : Cid)
    (selector : ipld_Node) : Prop :=
  DealProposal.PayloadCID proposal = baseCid /\
  (dagcbor_Encode selector).2 = None /\
  (dagcbor_Encode selector).1 = expectedSelectorBytes proposal.

(** The record that [validatePull] hands to [SaveDeal] once [acceptDeal]
    has returned [pds] without error. *)
Definition recordToSave (pds : ProviderDealState) : ProviderDealState :=
  if ProviderDealState.UnsealPrice pds >? 0
  then ProviderDealState.set_TotalSent 0%N
         (ProviderDealState.set_Status DealStatusFundsNeededUnseal pds)
  else ProviderDealState.set_FundsReceived (Some 0)
         (ProviderDealState.set_TotalSent 0%N pds).

End ValidatorVocabulary.

(** ** Further vocabulary for the validator *)

(** The provider has a configuration with a payment address. *)
Definition configured (rv : ProviderRequestValidator) (provider : Address)
  : bool :=
  match MarketConfig.MinerProviderConfig (ProviderRequestValidator.cfg rv)
          provider true with
  | inl minerCfg =>
      negb (Address_Empty (MinerConfig.RetrievalPaymentAddress minerCfg))
  | inr _ => false
  end.

(** The candidate cannot give an ask: its provider is not configured, or
    the ask repository fails for it and returns no ask. *)
Definition yieldsNoAsk (rv : ProviderRequestValidator) (minerDeal : MinerDeal)
  : Prop :=
  let provider := StorageProposal.Provider (MinerDeal.Proposal minerDeal) in
  configured rv provider = false \/
  exists e,
    IRetrievalAskRepo.GetAsk (ProviderRequestValidator.retrievalAsk rv) provider
    = (None, Some e).

(** Every fetch of an ask among the events is for a configured provider. *)
Definition asksConfiguredOnly (rv : ProviderRequestValidator)
    (events : list Event) : Prop :=
  Forall (fun e => match e with
                   | EvGetAsk provider => configured rv provider = true
                   | _ => True
                   end) events.

(** The deal filter is not consulted among the events. *)
Definition filterNotConsulted (events : list Event) : Prop :=
  Forall (fun e => match e with
                   | EvDealDecision _ => False
                   | _ => True
                   end) events.

(** ** Sample collaborators for the validator *)

(** Modelled from the spec: [CheckDealParams] is declared in another file
    of the package.  A requested term less favourable than the published
    one is refused: a lower price per byte, a longer payment interval, a
    larger interval increase, a lower unseal price. *)
Definition CheckDealParams_spec (ask : RetrievalAsk) (pricePerByte : Z)
    (paymentInterval paymentIntervalIncrease : N) (unsealPrice : Z)
  : option error :=
  if pricePerByte <? RetrievalAsk.PricePerByte ask
  then Some (errors_New "price per byte too low")
  else if (RetrievalAsk.PaymentInterval ask <? paymentInterval)%N
  then Some (errors_New "payment interval too large")
  else if (RetrievalAsk.PaymentIntervalIncrease ask <? paymentIntervalIncrease)%N
  then Some (errors_New "payment interval increase too large")
  else if unsealPrice <? RetrievalAsk.UnsealPrice ask
  then Some (errors_New "unseal price too small")
  else None.

(** Sample imports: a node is the bytes it encodes to, or fails to encode. *)
Definition sampleImports : Imports :=
  Build_Imports (option Bytes)
    (fun node => match node with
                 | Some raw => (raw, None)
                 | None => ([], Some (errors_New "cannot encode node"))
                 end)
    (Some [xa1; x61; x52]) CheckDealParams_spec.

(** A provider that asks [unsealPrice] for unsealing. *)
Definition sampleAsk (unsealPrice : Z) : RetrievalAsk :=
  RetrievalAsk.mk "f01000" 1 unsealPrice 1000%N 100%N.

(** A validator that knows [sampleMinerDeal] for the payload
    "bafy-payload", has a payment address configured for its provider and
    publishes [sampleAsk unsealPrice]; no deal filter is configured. *)
Definition sampleValidator (unsealPrice : Z) : ProviderRequestValidator :=
  ProviderRequestValidator.mk
    (MarketConfig.mk (fun _ _ => inl (MinerConfig.mk "f3wallet")))
    (PieceInfo.mk
       (fun payload _ => if bool_decide (payload = "bafy-payload")
                         then inl [sampleMinerDeal] else inr ErrNotFound))
    (IRetrievalAskRepo.mk (fun _ => (Some (sampleAsk unsealPrice), None)))
    None.

(** A proposal for "bafy-payload" that offers [unsealPrice] for unsealing
    and names no selector. *)
Definition sampleProposal (unsealPrice : Z) : DealProposal :=
  DealProposal.mk "bafy-payload" 11%N
    (Params.mk None None 2 1000%N 100%N unsealPrice).

(** The selector node that encodes to the explore-all bytes. *)
Definition allSelector : option Bytes := Some [xa1; x61; x52].

(** A new request for "bafy-payload" with the explore-all selector, to a
    provider whose ask names [askPrice] for unsealing, from a client whose
    proposal offers [offered]. *)
Definition newRequest (askPrice offered : Z)
  : option DealResponse * option error * World :=
  @validatePull sampleImports (sampleValidator askPrice) false "client"
    (sampleProposal offered) false "bafy-payload" allSelector
    (sampleWorld [] []).

(** A second storage deal for the same piece, with another provider. *)
Definition secondMinerDeal : MinerDeal :=
  MinerDeal.mk (StorageProposal.mk "bafk-piece" 2048%N "f02000")
    "bafy-second-proposal" 9%N 0%N.

(** A validator given by its tables: the candidates of every payload (or
    the failure of the lookup), the configured payment address of each
    provider (empty when there is none), the ask of each provider, and the
    deal filter. *)
Definition tableValidator (pieces : list MinerDeal + error)
    (wallet : Address -> Address)
    (asks : Address -> option RetrievalAsk * option error)
    (filter : option RetrievalDealFilter) : ProviderRequestValidator :=
  ProviderRequestValidator.mk
    (MarketConfig.mk (fun provider _ => inl (MinerConfig.mk (wallet provider))))
    (PieceInfo.mk (fun _ _ => pieces))
    (IRetrievalAskRepo.mk asks)
    filter.

(** Only "f02000" has a payment address. *)
Definition secondOnly (provider : Address) : Address :=
  if bool_decide (provider = "f02000") then "f3wallet" else "".

(** A filter that refuses every deal. *)
Definition refuseAll : RetrievalDealFilter :=
  fun _ => (false, "provider is in maintenance", None).

End retrievalprovider.

(** * DAG store: the market API *)
Module dagstore.
Import retrievalprovider.

(** [marketAPI], as far as [IsUnsealed] uses it. *)
Module marketAPI.
Record t : Type := mk { pieceStorageMgr : PieceStorageManager }.
End marketAPI.
Abbreviation marketAPI := marketAPI.t.

Section MarketAPI.
(** [piecestorage.ErrorNotFoundForRead], the sentinel of the piece storage
    package for a piece that no backend holds. *)
Variable ErrorNotFoundForRead : error.
Variable m : marketAPI.

(** [func (m *marketAPI) IsUnsealed(ctx, pieceCid) (bool, error)] *)
Definition IsUnsealed (pieceCid : Cid) : M (bool * option error) :=
  call '(_, err) <- calling (EvFindStorageForRead pieceCid)
    (PieceStorageManager.FindStorageForRead (marketAPI.pieceStorageMgr m)
       pieceCid);
  match err with
  | Some e =>
      exec log Warn "unable to find storage for piece %s: %s";
      if errors_Is e ErrorNotFoundForRead then ret (false, None)
      else ret (false, Some e)
  | None => ret (true, None)
  end.

End MarketAPI.

(** The sentinel in the samples. *)
Definition sampleNotFoundForRead : error :=
  errors_New "unable to find piece storage for read".

End dagstore.

(** * Piece storage server *)
Module rpc.

(** [io.ReadCloser], as the server uses it: the bytes [io.Copy] reads from
    it, and the reply of [Close]. *)
Module ReadCloser.
Record t : Type := mk { Content : list byte; Close : option error }.
End ReadCloser.
Abbreviation ReadCloser := ReadCloser.t.

(** [piecestorage.IPieceStorage], as far as the server uses it.  Every
    method but [GetName] returns a value and an error; [SaveTo] also
    returns a byte count that the server drops. *)
Module IPieceStorage.
Record t : Type := mk {
  GetName : string;
  GetRedirectUrl : string -> string * option error;
  Len : string -> Z * option error;
  GetReaderCloser : string -> option ReadCloser * option error;
  SaveTo : string -> list byte -> option error
}.
End IPieceStorage.
Abbreviation IPieceStorage := IPieceStorage.t.

(** [piecestorage.PieceStorageManager].  Each method returns an interface
    value, which may be nil, and an error. *)
Module PieceStorageManager.
Record t : Type := mk {
  FindStorageForRead : string -> option IPieceStorage * option error;
  GetPieceStorageByName : string -> option IPieceStorage * option error;
  FindStorageForWrite : Z -> option IPieceStorage * option error
}.
End PieceStorageManager.
Abbreviation PieceStorageManager := PieceStorageManager.t.

Module PieceStorageServer.
Record t : Type := mk { pieceStorageMgr : PieceStorageManager }.
End PieceStorageServer.
Abbreviation PieceStorageServer := PieceStorageServer.t.

(** [url.Values], a [map[string][]string]. *)
Definition Values := gmap string (list string).

(** [Values.Get]: the first value of the key, or the empty string. *)
Definition Values_Get (v : Values) (key : string) : string :=
  match v !! key with
  | Some (value :: _) => value
  | _ => ""
  end.

(** [Values.Has]: the key is set. *)
Definition Values_Has (v : Values) (key : string) : bool :=
  bool_decide (is_Some (v !! key)).

(** [http.Request]: the method, [req.URL.Query()] and the body, nil or a
    reader of these bytes. *)
Record Request : Type := mkRequest {
  Method : string;
  Query : Values;
  Body : option (list byte)
}.

Definition MethodGet : string := "GET".
Definition MethodPut : string := "PUT".

Definition StatusOK : Z := 200.
Definition StatusFound : Z := 302.
Definition StatusBadRequest : Z := 400.
Definition StatusNotFound : Z := 404.
Definition StatusMethodNotAllowed : Z := 405.
Definition StatusInternalServerError : Z := 500.

(** [http.StatusText], on the one code the server passes to it. *)
Definition StatusText (code : Z) : string :=
  if code =? StatusMethodNotAllowed then "Method Not Allowed" else "".

(** What the server does to the world, in order: calls of the piece
    storage manager and of a storage (named by [GetName]), calls on the
    [http.ResponseWriter], and log lines. *)
Inductive Event : Type :=
| EvFindStorageForRead (resourceID : string)
| EvGetPieceStorageByName (storeName : string)
| EvFindStorageForWrite (size : Z)
| EvGetRedirectUrl (store resourceID : string)
| EvLen (store resourceID : string)
| EvGetReaderCloser (store resourceID : string)
| EvSaveTo (store resourceID : string) (body : list byte)
| EvClose
| EvHeaderSet (key value : string)     (* res.Header().Set(key, value) *)
| EvWriteHeader (code : Z)             (* res.WriteHeader(code) *)
| EvCopy (content : list byte)         (* io.Copy(res, r) *)
| EvHttpError (message : string) (code : Z)   (* http.Error(res, message, code) *)
| EvResourceLogErrorf (code : Z) (message : string)
| EvLogErrorf (format : string).

(** How control leaves a statement: on to the next one with a value, by
    [return], or by the panic of a method call on a nil interface. *)
Inductive Flow (A : Type) : Type :=
| Next (a : A)
| Return
| Panic.
Arguments Next {A} a.
Arguments Return {A}.
Arguments Panic {A}.

Definition H (A : Type) : Type := list Event * Flow A.

Definition ret {A : Type} (a : A) : H A := ([], Next a).
Definition bind {A B : Type} (m : H A) (k : A -> H B) : H B :=
  match m with
  | (evs, Next a) => let '(evs', flow) := k a in (evs ++ evs', flow)
  | (evs, Return) => (evs, Return)
  | (evs, Panic) => (evs, Panic)
  end.

Notation "'call' x <- m ; k" := (bind m (fun x => k))
  (at level 10, x name, m at level 100, k at level 200).
Notation "'call' ' p <- m ; k" :=
  (bind m (fun x => match x with p => k end))
  (at level 10, p pattern, m at level 100, k at level 200).
Notation "'exec' m ; k" := (bind m (fun _ => k))
  (at level 10, m at level 100, k at level 200).

Definition emit (e : Event) : H unit := ([e], Next tt).
Definition return_ {A : Type} : H A := ([], Return).
Definition panic {A : Type} : H A := ([], Panic).

(** A call whose reply is a function of the arguments. *)
Definition calling {A : Type} (e : Event) (reply : A) : H A :=
  exec emit e; ret reply.

(** A method call on a storage that may be nil. *)
Definition deref (store : option IPieceStorage) : H IPieceStorage :=
  match store with
  | Some st => ret st
  | None => panic
  end.

(** [func logErrorAndResonse(res, err string, code int)] *)
Definition logErrorAndResonse (err : string) (code : Z) : H unit :=
  exec emit (EvResourceLogErrorf code err);
  emit (EvHttpError err code).

Section Server.
(** [piecestorage.ErrUnsupportRedirect] and [strconv.ParseInt(s, 10, 64)]. *)
Variable ErrUnsupportRedirect : error.
Variable ParseInt : string -> Z + error.
Variable p : PieceStorageServer.

(** [func (p *PieceStorageServer) handleGet(res, req)] *)
Definition handleGet (req : Request) : H unit :=
  let resourceID := Values_Get (Query req) "resource-id" in
  exec (if (String.length resourceID =? 0)%nat then
          exec logErrorAndResonse "resource is empty" StatusBadRequest;
          return_
        else ret tt);
  call '(pieceStorage, err) <- calling (EvFindStorageForRead resourceID)
    (PieceStorageManager.FindStorageForRead
       (PieceStorageServer.pieceStorageMgr p) resourceID);
  exec (match err with
        | Some _ =>
            exec logErrorAndResonse
              ("resource " +:+ resourceID +:+ " not found") StatusNotFound;
            return_
        | None => ret tt
        end);
  call pieceStorage <- deref pieceStorage;
  call '(redirectUrl, err) <- calling
    (EvGetRedirectUrl (IPieceStorage.GetName pieceStorage) resourceID)
    (IPieceStorage.GetRedirectUrl pieceStorage resourceID);
  exec (match err with
        | Some e =>
            if bool_decide (e <> ErrUnsupportRedirect) then
              exec logErrorAndResonse
                ("fail to get redirect url of piece  " +:+ resourceID +:+
                 ": " +:+ Error_text e)
                StatusInternalServerError;
              return_
            else ret tt
        | None => ret tt
        end);
  exec (match err with
        | None =>
            exec emit (EvHeaderSet "Location" redirectUrl);
            exec emit (EvWriteHeader StatusFound);
            return_
        | Some _ => ret tt
        end);
  call '(flen, err) <- calling
    (EvLen (IPieceStorage.GetName pieceStorage) resourceID)
    (IPieceStorage.Len pieceStorage resourceID);
  exec (match err with
        | Some e =>
            exec logErrorAndResonse
              ("call piecestore.Len for " +:+ resourceID +:+ ": " +:+
               Error_text e)
              StatusInternalServerError;
            return_
        | None => ret tt
        end);
  exec emit (EvHeaderSet "Content-Length" (pretty flen));
  call '(r, err) <- calling
    (EvGetReaderCloser (IPieceStorage.GetName pieceStorage) resourceID)
    (IPieceStorage.GetReaderCloser pieceStorage resourceID);
  exec (match err with
        | Some e =>
            exec logErrorAndResonse
              ("failed to open reader for " +:+ resourceID +:+ ": " +:+
               Error_text e)
              StatusInternalServerError;
            return_
        | None => ret tt
        end);
  call r <- match r with Some r => ret r | None => panic end;
  exec emit (EvCopy (ReadCloser.Content r));
  (* the deferred function *)
  call err <- calling EvClose (ReadCloser.Close r);
  match err with
  | Some _ => emit (EvLogErrorf "unable to close http %v")
  | None => ret tt
  end.

(** [func (p *PieceStorageServer) handlePut(res, req)] *)
Definition handlePut (req : Request) : H unit :=
  let resourceID := Values_Get (Query req) "resource-id" in
  exec (if (String.length resourceID =? 0)%nat then
          exec logErrorAndResonse "resource is empty" StatusBadRequest;
          return_
        else ret tt);
  call body <-
    match Body req with
    | None =>
        exec logErrorAndResonse "body is empty" StatusBadRequest;
        return_
    | Some body => ret body
    end;
  exec (if negb (Values_Has (Query req) "store") &&
           negb (Values_Has (Query req) "size")
        then
          exec logErrorAndResonse "both store and size is empty"
            StatusBadRequest;
          return_
        else ret tt);
  call store <-
    (if Values_Has (Query req) "store" then
       let storeName := Values_Get (Query req) "store" in
       call '(store, err) <- calling (EvGetPieceStorageByName storeName)
         (PieceStorageManager.GetPieceStorageByName
            (PieceStorageServer.pieceStorageMgr p) storeName);
       match err with
       | Some e =>
           exec logErrorAndResonse
             ("fail to get store " +:+ storeName +:+ ": " +:+ Error_text e)
             StatusInternalServerError;
           return_
       | None => ret store
       end
     else ret None);
  call store <-
    (if bool_decide (store = None :> option IPieceStorage) &&
        Values_Has (Query req) "size"
     then
       let sizeStr := Values_Get (Query req) "size" in
       match ParseInt sizeStr with
       | inr _ =>
           exec logErrorAndResonse
             ("size " +:+ sizeStr +:+ " is invalid") StatusBadRequest;
           return_
       | inl size =>
           call '(store, err) <- calling (EvFindStorageForWrite size)
             (PieceStorageManager.FindStorageForWrite
                (PieceStorageServer.pieceStorageMgr p) size);
           match err with
           | Some e =>
               exec logErrorAndResonse
                 ("fail to find store for write: " +:+ Error_text e)
                 StatusInternalServerError;
               return_
           | None => ret store
           end
       end
     else ret store);
  call store <- deref store;
  call err <- calling
    (EvSaveTo (IPieceStorage.GetName store) resourceID body)
    (IPieceStorage.SaveTo store resourceID body);
  exec (match err with
        | Some e =>
            exec logErrorAndResonse
              ("fail to save resource " +:+ resourceID +:+ " to store " +:+
               IPieceStorage.GetName store +:+ ": " +:+ Error_text e)
              StatusInternalServerError;
            return_
        | None => ret tt
        end);
  emit (EvWriteHeader StatusOK).

(** [func (p *PieceStorageServer) ServeHTTP(res, req)] *)
Definition ServeHTTP (req : Request) : H unit :=
  if bool_decide (Method req = MethodGet) then handleGet req
  else if bool_decide (Method req = MethodPut) then handlePut req
  else
    exec logErrorAndResonse (StatusText StatusMethodNotAllowed)
      StatusMethodNotAllowed;
    return_.

End Server.
(** ** Specification vocabulary for the server *)

(** The events that send the status line: [http.Error], [WriteHeader], and
    [io.Copy], whose first write sends the status 200. *)
Definition answers (e : Event) : bool :=
  match e with
  | EvHttpError _ _ | EvWriteHeader _ | EvCopy _ => true
  | _ => false
  end.

(** The events that read a piece from a storage. *)
Definition streams (e : Event) : bool :=
  match e with
  | EvLen _ _ | EvGetReaderCloser _ _ | EvCopy _ | EvClose => true
  | _ => false
  end.

Definition isSaveTo (e : Event) : bool :=
  match e with
  | EvSaveTo _ _ _ => true
  | _ => false
  end.

Definition panicked {A : Type} (run : H A) : bool :=
  match run.2 with
  | Panic => true
  | _ => false
  end.

(** How many status lines a run has sent. *)
Definition answered {A : Type} (run : H A) : nat :=
  length (List.filter answers run.1).


(** A whole handler answers once unless it panics. *)
Definition answersOnce {A : Type} (run : H A) : Prop :=
  answered run = if panicked run then 0%nat else 1%nat.

(** The manager never returns a nil storage together with a nil error, and
    no storage returns a nil reader together with a nil error. *)
Definition neverNilNil (mgr : PieceStorageManager) : Prop :=
  (forall resourceID,
     PieceStorageManager.FindStorageForRead mgr resourceID <> (None, None)) /\
  (forall storeName,
     PieceStorageManager.GetPieceStorageByName mgr storeName <> (None, None)) /\
  (forall size,
     PieceStorageManager.FindStorageForWrite mgr size <> (None, None)) /\
  (forall resourceID st err,
     PieceStorageManager.FindStorageForRead mgr resourceID = (Some st, err) ->
     forall piece, IPieceStorage.GetReaderCloser st piece <> (None, None)).

(** The request with the parameter [size] taken out of its query. *)
Definition withoutSize (req : Request) : Request :=
  mkRequest (Method req) (delete "size" (Query req)) (Body req).

(** ** Sample server *)

Definition sampleUnsupported : error := errors_New "this storage has no redirect url".

(** Parses the two sizes of the samples. *)
Definition sampleParseInt (s : string) : Z + error :=
  if bool_decide (s = "2048") then inl 2048
  else if bool_decide (s = "0") then inl 0
  else inr (errors_New "strconv.ParseInt: invalid syntax").

Definition samplePiece : list byte := [x01; x02; x03].

(** A storage on disk: no redirect, pieces "bafk-piece" of three bytes. *)
Definition diskStorage (redirect : option error) (close : option error)
  : IPieceStorage :=
  IPieceStorage.mk "disk"
    (fun _ => ("", redirect))
    (fun piece => if bool_decide (piece = "bafk-piece") then (3, None)
                  else (0, Some ErrNotFound))
    (fun piece => if bool_decide (piece = "bafk-piece")
                  then (Some (ReadCloser.mk samplePiece close), None)
                  else (None, Some ErrNotFound))
    (fun _ _ => None).

(** An object storage that redirects and refuses to be written. *)
Definition objectStorage : IPieceStorage :=
  IPieceStorage.mk "s3"
    (fun piece => ("https://bucket.example/" +:+ piece, None))
    (fun _ => (0, None))
    (fun _ => (None, Some (errors_New "not supported")))
    (fun _ _ => Some (errors_New "bucket is read only")).

(** A manager that reads every piece from [reading], knows the stores
    "disk" and "s3" by name and writes to the disk. *)
Definition sampleMgr (reading : IPieceStorage) : PieceStorageManager :=
  PieceStorageManager.mk
    (fun piece => if bool_decide (piece = "bafk-piece")
                  then (Some reading, None)
                  else (None, Some (errors_New "unable to find piece")))
    (fun name => if bool_decide (name = "disk")
                 then (Some (diskStorage (Some sampleUnsupported) None), None)
                 else if bool_decide (name = "s3")
                 then (Some objectStorage, None)
                 else (None, Some (errors_New "unable to find storage")))
    (fun _ => (Some (diskStorage (Some sampleUnsupported) None), None)).

Definition sampleServer (reading : IPieceStorage) : PieceStorageServer :=
  PieceStorageServer.mk (sampleMgr reading).

Definition getPiece : Request :=
  mkRequest "GET" {["resource-id" := ["bafk-piece"]]} None.

(** A PUT that names the store "disk" and gives a size that does not
    parse. *)
Definition putPiece : Request :=
  mkRequest "PUT"
    {["resource-id" := ["bafk-piece"]; "store" := ["disk"];
      "size" := ["2 KiB"]]}
    (Some samplePiece).

(** The disk of the samples: it has no redirect url and closes cleanly. *)
Definition sampleDisk : IPieceStorage :=
  diskStorage (Some sampleUnsupported) None.

(** A manager that finds nothing and reports no error. *)
Definition nilMgr : PieceStorageManager :=
  PieceStorageManager.mk (fun _ => (None, None)) (fun _ => (None, None))
    (fun _ => (None, None)).

End rpc.

(** * Theorems *)

(** ** Voucher selector *)
Section BestSpendableFacts.
Import paychmgr.
Context {API : Type} `{BestSpendableAPI API}.
Variable api : API.
Variable ch : Address.

Lemma spendableOfLane_snoc lane done v :
  spendableOfLane api ch lane (done ++ [v]) =
  spendableOfLane api ch lane done ++
    (if (Lane v =? lane)%N && checkedSpendable api ch v then [v] else []).
Proof.
  unfold spendableOfLane. rewrite List.filter_app. simpl.
  by destruct ((Lane v =? lane)%N && checkedSpendable api ch v).
Qed.

Lemma firstMaximum_single v : firstMaximum [v] v.
Proof. exists [], []. repeat split; constructor. Qed.

Lemma firstMaximum_le l best u :
  firstMaximum l best -> u ∈ l -> Amount u <= Amount best.
Proof.
  intros (before & after & -> & Hb & Ha) Hu.
  rewrite elem_of_app, elem_of_cons in Hu.
  destruct Hu as [Hu | [-> | Hu]].
  - rewrite Forall_forall in Hb. specialize (Hb _ Hu). lia.
  - lia.
  - rewrite Forall_forall in Ha. by apply Ha.
Qed.

(** A new voucher of strictly greater amount becomes the first maximum. *)
Lemma firstMaximum_snoc_greater l best v :
  firstMaximum l best -> Amount best < Amount v -> firstMaximum (l ++ [v]) v.
Proof.
  intros Hfm Hlt. exists l, []. repeat split; [| constructor].
  apply Forall_forall. intros u Hu.
  pose proof (firstMaximum_le _ _ _ Hfm Hu). lia.
Qed.

(** A new voucher that is not greater leaves the first maximum in place. *)
Lemma firstMaximum_snoc_keep l best v :
  firstMaximum l best -> Amount v <= Amount best -> firstMaximum (l ++ [v]) best.
Proof.
  intros (before & after & -> & Hb & Ha) Hle.
  exists before, (after ++ [v]). repeat split; [| done |].
  - by rewrite <- app_assoc.
  - apply Forall_app. split; [done |]. by constructor.
Qed.

Lemma keepBest_other m v lane :
  Lane v <> lane -> keepBest m v !! lane = m !! lane.
Proof.
  intros Hne. unfold keepBest.
  destruct (m !! Lane v) as [best |]; [destruct (Amount v >? Amount best) |];
    by rewrite ?lookup_insert_ne.
Qed.

(** One iteration of the loop keeps every lane's entry right. *)
Lemma laneEntryOK_step done m v b :
  PaychVoucherCheckSpendable api ch v = inl b ->
  (forall lane, laneEntryOK api ch done m lane) ->
  forall lane,
    laneEntryOK api ch (done ++ [v]) (if b then keepBest m v else m) lane.
Proof.
  intros Hchk Hinv lane. specialize (Hinv lane). unfold laneEntryOK in *.
  rewrite spendableOfLane_snoc. unfold checkedSpendable. rewrite Hchk.
  destruct b; simpl.
  2: { rewrite andb_false_r, app_nil_r. exact Hinv. }
  rewrite andb_true_r.
  destruct (N.eqb_spec (Lane v) lane) as [Heq | Hne].
  2: { rewrite keepBest_other by done. by rewrite app_nil_r. }
  subst lane. unfold keepBest.
  destruct (m !! Lane v) as [best |] eqn:Hlk.
  - destruct (Z.gtb_spec (Amount v) (Amount best)) as [Hgt | Hle].
    + rewrite lookup_insert_eq. by eapply firstMaximum_snoc_greater.
    + rewrite Hlk. by apply firstMaximum_snoc_keep.
  - rewrite lookup_insert_eq, Hinv. apply firstMaximum_single.
Qed.

Lemma rangeVouchers_inv rest : forall done m,
  Forall (fun u => ~ checkFails api ch u) done ->
  (forall lane, laneEntryOK api ch done m lane) ->
  match rangeVouchers api ch rest m with
  | inl m' =>
      Forall (fun u => ~ checkFails api ch u) (done ++ rest) /\
      forall lane, laneEntryOK api ch (done ++ rest) m' lane
  | inr e =>
      exists before v after,
        done ++ rest = before ++ v :: after /\
        PaychVoucherCheckSpendable api ch v = inr e /\
        Forall (fun u => ~ checkFails api ch u) before
  end.
Proof.
  induction rest as [| v rest IH]; intros done m Hdone Hinv; simpl.
  - by rewrite app_nil_r.
  - destruct (PaychVoucherCheckSpendable api ch v) as [b | e] eqn:Hchk.
    + specialize (IH (done ++ [v])
                     (if b then keepBest m v else m)).
      rewrite <- app_assoc in IH. simpl in IH. apply IH.
      * apply Forall_app. split; [done |]. constructor; [| constructor].
        intros [e He]. congruence.
      * by apply laneEntryOK_step.
    + exists done, v, rest. done.
Qed.

Lemma firstMaximum_elem l v : firstMaximum l v -> v ∈ l.
Proof. intros (before & after & -> & _). set_solver. Qed.

(** C9. [BestSpendableByLane] fails exactly when the voucher list call fails
    (with that error) or a spendability check fails (with the error of the
    first failing check); otherwise every check succeeded and, for each
    lane, the map holds the first voucher of maximal amount among the
    lane's spendable vouchers, and nothing when the lane has no spendable
    voucher.  Every voucher in the map is one of the listed vouchers,
    unchanged, filed under its own lane. *)
Theorem BestSpendableByLane_selects :
  match PaychVoucherList api ch with
  | inr e => BestSpendableByLane api ch = inr e
  | inl vs =>
      match BestSpendableByLane api ch with
      | inr e =>
          exists before v after,
            vs = before ++ v :: after /\
            PaychVoucherCheckSpendable api ch v = inr e /\
            Forall (fun u => ~ checkFails api ch u) before
      | inl m =>
          Forall (fun u => ~ checkFails api ch u) vs /\
          (forall lane, laneEntryOK api ch vs m lane) /\
          (forall lane v, m !! lane = Some v -> v ∈ vs /\ Lane v = lane)
      end
  end.
Proof.
  unfold BestSpendableByLane.
  destruct (PaychVoucherList api ch) as [vs | e]; [| done].
  pose proof (rangeVouchers_inv vs [] ∅) as Hinv. simpl in Hinv.
  assert (Hempty : forall lane, laneEntryOK api ch [] ∅ lane).
  { intros lane. unfold laneEntryOK. by rewrite lookup_empty. }
  specialize (Hinv (List.Forall_nil _) Hempty).
  destruct (rangeVouchers api ch vs ∅) as [m | e]; [| exact Hinv].
  destruct Hinv as [Hall Hlanes].
  split; [exact Hall |]. split; [exact Hlanes |].
  intros lane v Hlookup.
  specialize (Hlanes lane). unfold laneEntryOK in Hlanes.
  rewrite Hlookup in Hlanes. apply firstMaximum_elem in Hlanes.
  unfold spendableOfLane in Hlanes.
  apply list_elem_of_In, List.filter_In in Hlanes.
  destruct Hlanes as [Hin Hkeep]. apply andb_prop in Hkeep as [Hlane _].
  split; [by apply list_elem_of_In | by apply N.eqb_eq].
Qed.

End BestSpendableFacts.

Section BestSpendableSamples.
Import paychmgr.

(** The selection on the sample channel: the first voucher of amount 9 in
    lane 1, nothing in lane 2, the voucher of lane 4. *)
Example BestSpendableByLane_sample :
  exists m,
    BestSpendableByLane sampleAPI "f0channel" = inl m /\
    m !! 1%N = Some (sampleVoucher 1 2 9) /\
    m !! 2%N = None /\
    m !! 4%N = Some (sampleVoucher 4 1 7).
Proof. eexists. split; [reflexivity |]. repeat split; vm_compute; reflexivity. Qed.

Example BestSpendableByLane_check_fails :
  BestSpendableByLane failingAPI "f0channel" =
  inr (errors_New "lane state unavailable").
Proof. reflexivity. Qed.

End BestSpendableSamples.

(** ** Deal handler *)
Section HandlerFacts.
Import retrievalprovider.
Variable p : RetrievalDealHandler.

Lemma after_nil w : after w [] = w.
Proof. destruct w. unfold after. simpl. by rewrite app_nil_r. Qed.

Lemma after_after w evs evs' : after (after w evs) evs' = after w (evs ++ evs').
Proof. unfold after. simpl. by rewrite app_assoc. Qed.

(** C6. When store deletion succeeds and closing the transfer channel
    reports an error that is [ErrTerminated], [CancelDeal] sets the status
    Cancelled, saves the deal and returns the reply of that save: the close
    error is not returned.  When store deletion fails, or closing the
    channel fails with any other error, [CancelDeal] goes through [Error]:
    the status is Errored, the deal is saved with it, and the reply of that
    save is returned. *)
Theorem CancelDeal_teardown deal w :
  let env := RetrievalDealHandler.env p in
  let id := ProviderDealState.ID deal in
  let cancelled := ProviderDealState.set_Status DealStatusCancelled deal in
  let errored := ProviderDealState.set_Status DealStatusErrored deal in
  (forall channel e,
      ProviderDealEnvironment.DeleteStore env id = None ->
      ProviderDealState.ChannelID deal = Some channel ->
      ProviderDealEnvironment.CloseDataTransfer env channel = Some e ->
      errors_Is e ErrTerminated = true ->
      CancelDeal p deal w =
      (nextSaveReply w, cancelled,
       afterSave (after w [EvDeleteStore id; EvCloseDataTransfer channel])
         cancelled)) /\
  (forall e,
      ProviderDealEnvironment.DeleteStore env id = Some e ->
      CancelDeal p deal w =
      (nextSaveReply w, errored, afterSave (after w [EvDeleteStore id]) errored)) /\
  (forall channel e,
      ProviderDealEnvironment.DeleteStore env id = None ->
      ProviderDealState.ChannelID deal = Some channel ->
      ProviderDealEnvironment.CloseDataTransfer env channel = Some e ->
      errors_Is e ErrTerminated = false ->
      CancelDeal p deal w =
      (nextSaveReply w, errored,
       afterSave (after w [EvDeleteStore id; EvCloseDataTransfer channel])
         errored)).
Proof.
  cbv zeta. repeat split.
  - intros channel e Hdel Hch Hclose Hterm.
    unfold CancelDeal, bind, calling, ret, emit. simpl.
    rewrite Hdel, Hch. simpl. rewrite Hclose, Hterm. simpl.
    by rewrite after_after.
  - intros e Hdel.
    unfold CancelDeal, bind, calling, ret, emit. simpl.
    rewrite Hdel. reflexivity.
  - intros channel e Hdel Hch Hclose Hterm.
    unfold CancelDeal, bind, calling, ret, emit. simpl.
    rewrite Hdel, Hch. simpl. rewrite Hclose, Hterm. simpl.
    by rewrite after_after.
Qed.

(** *** The polling loop, one round at a time *)

Lemma SectorsUnsealPiece_reply provider piece sector offset size transfer w r rest :
  unsealReplies w = r :: rest ->
  SectorsUnsealPiece provider piece sector offset size transfer w =
  (Some r, mkWorld (saveDealReplies w) rest (selectOutcomes w)
             (trace w ++ [EvSectorsUnsealPiece provider piece sector offset
                            size transfer])).
Proof. intros Hr. unfold SectorsUnsealPiece. by rewrite Hr. Qed.

Lemma select_outcome w s rest :
  selectOutcomes w = s :: rest ->
  select w = (Some s, mkWorld (saveDealReplies w) (unsealReplies w) rest
                        (trace w ++ [EvSelect s])).
Proof. intros Hs. unfold select. by rewrite Hs. Qed.

(** A round that meets a transient failure within the bound and then the
    ticker starts the next round with the count raised by one. *)
Lemma CheckLoop_transient_round deal piece transfer rounds count w e rest waits :
  unsealReplies w = (UnsealStateInProgress, Some e) :: rest ->
  selectOutcomes w = TickerFired :: waits ->
  count + 1 <= errRetry ->
  CheckLoop deal piece transfer (S rounds) count w =
  CheckLoop deal piece transfer rounds (count + 1)
    (mkWorld (saveDealReplies w) rest waits
       (trace w ++ transientRound deal piece transfer)).
Proof.
  intros Hr Hs Hle. simpl. unfold bind at 1.
  erewrite SectorsUnsealPiece_reply by exact Hr.
  unfold bind at 1, log, emit. simpl.
  destruct (Z.gtb_spec (count + 1) errRetry) as [Hgt | _]; [lia |].
  simpl. unfold bind at 1. simpl. unfold bind at 1.
  erewrite select_outcome by exact Hs.
  unfold after, transientRound. simpl.
  by rewrite <- !app_assoc.
Qed.

(** A round whose call succeeds with the state Finished breaks the loop. *)
Lemma CheckLoop_finished_round deal piece transfer rounds count w rest :
  unsealReplies w = (UnsealStateFinished, None) :: rest ->
  CheckLoop deal piece transfer (S rounds) count w =
  (LoopBreak,
   mkWorld (saveDealReplies w) rest (selectOutcomes w)
     (trace w ++
      [EvSectorsUnsealPiece
         (StorageProposal.Provider (MinerDeal.Proposal deal)) piece
         (MinerDeal.SectorNumber deal) (Unpadded (MinerDeal.Offset deal))
         (Unpadded (StorageProposal.PieceSize (MinerDeal.Proposal deal)))
         transfer;
       EvLog Debug "unseal piece %s: %s"])).
Proof.
  intros Hr. simpl. unfold bind at 1.
  erewrite SectorsUnsealPiece_reply by exact Hr.
  unfold bind, log, emit, ret, after. simpl.
  by rewrite <- !app_assoc.
Qed.

(** A round whose call fails once the bound is used up returns the wrapped
    error of that call, whatever state came with it. *)
Lemma CheckLoop_exhausted_round deal piece transfer rounds count w state e rest :
  unsealReplies w = (state, Some e) :: rest ->
  errRetry < count + 1 ->
  CheckLoop deal piece transfer (S rounds) count w =
  (LoopReturn (Some (fmt_Errorf ("unseal piece " +:+ piece +:+ ": ") e)),
   mkWorld (saveDealReplies w) rest (selectOutcomes w)
     (trace w ++
      [EvSectorsUnsealPiece
         (StorageProposal.Provider (MinerDeal.Proposal deal)) piece
         (MinerDeal.SectorNumber deal) (Unpadded (MinerDeal.Offset deal))
         (Unpadded (StorageProposal.PieceSize (MinerDeal.Proposal deal)))
         transfer;
       EvLog Warn "unseal piece %s fail, retry (%d/%d): %w"])).
Proof.
  intros Hr Hgt. simpl. unfold bind at 1.
  erewrite SectorsUnsealPiece_reply by exact Hr.
  unfold bind at 1, log, emit. simpl.
  destruct (Z.gtb_spec (count + 1) errRetry) as [_ | Hle]; [| lia].
  unfold ret, after. simpl. by rewrite <- !app_assoc.
Qed.

(** A round whose call reports progress without error and whose [select]
    finds the timeout context done returns [ctx.Err()] of the caller's
    context. *)
Lemma CheckLoop_done_round deal piece transfer rounds count w done rest waits :
  unsealReplies w = (UnsealStateInProgress, None) :: rest ->
  selectOutcomes w = done :: waits ->
  done <> TickerFired ->
  (CheckLoop deal piece transfer (S rounds) count w).1 =
  LoopReturn (ctx_Err done).
Proof.
  intros Hr Hs Hdone. simpl. unfold bind at 1.
  erewrite SectorsUnsealPiece_reply by exact Hr.
  unfold bind, log, emit, ret, after, select. simpl. rewrite Hs.
  by destruct done.
Qed.

(** Transient failures within the bound, each followed by the ticker, are
    polled through one after the other. *)
Lemma CheckLoop_transient_rounds deal piece transfer fails :
  forall rounds count w rest waits,
    Forall transient fails ->
    count + Z.of_nat (length fails) <= errRetry ->
    unsealReplies w = fails ++ rest ->
    selectOutcomes w = replicate (length fails) TickerFired ++ waits ->
    CheckLoop deal piece transfer (length fails + rounds) count w =
    CheckLoop deal piece transfer rounds (count + Z.of_nat (length fails))
      (mkWorld (saveDealReplies w) rest waits
         (trace w ++
          concat (replicate (length fails) (transientRound deal piece transfer)))).
Proof.
  induction fails as [| [state err] fails IH];
    intros rounds count w rest waits Hall Hle Hr Hs.
  - simpl in *. rewrite Z.add_0_r, app_nil_r. destruct w. simpl in *. by subst.
  - apply Forall_cons in Hall as [[Hst Herr] Hall]. simpl in Hst, Herr.
    subst state. destruct err as [e |]; [| done].
    cbn [length] in *. rewrite Nat2Z.inj_succ in *.
    cbn [plus]. erewrite CheckLoop_transient_round; [| exact Hr | exact Hs | lia].
    rewrite (IH rounds (count + 1) _ rest waits); [| done | lia | done | done].
    simpl. f_equal; [lia |]. f_equal. by rewrite <- app_assoc.
Qed.

(** *** The way to the loop and past it *)

(** With the piece absent and a backend and transfer endpoint at hand,
    [UnsealData] enters the polling loop; how the loop is left decides
    where it goes on. *)
Lemma UnsealData_enters_loop providerDeal w deal wps pieceTransfer probeErr :
  let unsealing :=
    ProviderDealState.set_Status DealStatusUnsealing providerDeal in
  let pieceCid := StorageProposal.PieceCID (MinerDeal.Proposal deal) in
  let size := int64 (StorageProposal.PieceSize (MinerDeal.Proposal deal)) in
  let mgr := RetrievalDealHandler.pieceStorageMgr p in
  nextSaveReply w = None ->
  StorageDealRepo.GetDeal (RetrievalDealHandler.storageDealRepo p)
    (ProviderDealState.SelStorageProposalCid providerDeal) = inl deal ->
  PieceStorageManager.FindStorageForRead mgr pieceCid = (None, probeErr) ->
  PieceStorageManager.FindStorageForWrite mgr size = inl wps ->
  IPieceStorage.GetPieceTransfer wps pieceCid = inl pieceTransfer ->
  UnsealData p providerDeal w =
  let '(exit, w') :=
    CheckLoop deal pieceCid pieceTransfer (length (unsealReplies w)) 0
      (after (afterSave w unsealing)
         (probeEvents providerDeal pieceCid probeErr ++
          [EvFindStorageForWrite size; EvGetPieceTransfer pieceCid;
           EvLog Info "try to unseal"])) in
  match exit with
  | LoopBreak =>
      finishUnseal p deal unsealing
        (after w' [EvLog Info "unseal piece success"])
  | LoopReturn err => (Returned err, unsealing, w')
  | LoopPending => (Pending, unsealing, w')
  end.
Proof.
  intros unsealing pieceCid size mgr Hsave Hdeal Hread Hwrite Htransfer.
  unfold UnsealData. fold unsealing. unfold bind at 1, SaveDeal.
  rewrite Hsave. unfold bind at 1, calling at 1, bind at 1, emit, ret.
  change (ProviderDealState.SelStorageProposalCid unsealing)
    with (ProviderDealState.SelStorageProposalCid providerDeal).
  rewrite Hdeal.
  fold pieceCid. unfold bind at 1, calling at 1, bind at 1, emit, ret.
  fold mgr. rewrite Hread.
  unfold tryUnseal. fold size mgr.
  unfold bind at 1.
  assert (Hlog :
    (match probeErr with
     | Some _ => log Info "try to find piece  fail: %w"
     | None => ret tt
     end) (after (after (afterSave w unsealing)
                    [EvGetDeal (ProviderDealState.SelStorageProposalCid providerDeal)])
             [EvFindStorageForRead pieceCid]) =
    (tt, after (afterSave w unsealing)
           (probeEvents providerDeal pieceCid probeErr))).
  { unfold probeEvents. destruct probeErr; unfold log, emit, ret;
      rewrite !after_after; simpl; by rewrite ?app_nil_r. }
  unfold ret in Hlog. rewrite Hlog. clear Hlog.
  unfold bind at 1, bind at 1, calling at 1, bind at 1, emit, ret.
  rewrite Hwrite.
  unfold bind at 1, calling at 1, bind at 1, emit, ret.
  rewrite Htransfer.
  unfold bind at 1, log, emit. unfold bind at 1.
  rewrite !after_after. cbn [app unsealReplies after afterSave].
  destruct (CheckLoop deal pieceCid pieceTransfer (length (unsealReplies w)) 0 _)
    as [exit w'].
  destruct exit; unfold bind, ret, emit; reflexivity.
Qed.

(** With the piece found by the probe, [UnsealData] goes straight on to
    the preparation of the blockstore. *)
Lemma UnsealData_fast_path providerDeal w deal st probeErr :
  let unsealing :=
    ProviderDealState.set_Status DealStatusUnsealing providerDeal in
  let pieceCid := StorageProposal.PieceCID (MinerDeal.Proposal deal) in
  nextSaveReply w = None ->
  StorageDealRepo.GetDeal (RetrievalDealHandler.storageDealRepo p)
    (ProviderDealState.SelStorageProposalCid providerDeal) = inl deal ->
  PieceStorageManager.FindStorageForRead
    (RetrievalDealHandler.pieceStorageMgr p) pieceCid = (Some st, probeErr) ->
  UnsealData p providerDeal w =
  finishUnseal p deal unsealing
    (after (afterSave w unsealing)
       (probeEvents providerDeal pieceCid probeErr ++
        [EvLog Info "piece already exist, no need to unseal"])).
Proof.
  intros unsealing pieceCid Hsave Hdeal Hread.
  unfold UnsealData. fold unsealing. unfold bind at 1, SaveDeal.
  rewrite Hsave. unfold bind at 1, calling at 1, bind at 1, emit, ret.
  change (ProviderDealState.SelStorageProposalCid unsealing)
    with (ProviderDealState.SelStorageProposalCid providerDeal).
  rewrite Hdeal.
  fold pieceCid. unfold bind at 1, calling at 1, bind at 1, emit, ret.
  rewrite Hread. unfold bind at 1. unfold probeEvents.
  destruct probeErr; unfold log, emit, ret, bind; rewrite !after_after;
    simpl; reflexivity.
Qed.

Lemma unsealCalls_app evs evs' :
  unsealCalls (evs ++ evs') = (unsealCalls evs + unsealCalls evs')%nat.
Proof. unfold unsealCalls. by rewrite List.filter_app, length_app. Qed.

Lemma unsealCalls_cons e evs :
  unsealCalls (e :: evs) =
  ((if isUnsealCall e then 1 else 0) + unsealCalls evs)%nat.
Proof. unfold unsealCalls. simpl. by destruct (isUnsealCall e). Qed.

Lemma unsealCalls_nil : unsealCalls [] = 0%nat.
Proof. reflexivity. Qed.

Ltac count_unseal_calls :=
  repeat first [rewrite unsealCalls_app | rewrite unsealCalls_cons
               | rewrite unsealCalls_nil];
  cbn [isUnsealCall].

Lemma unsealCalls_transientRounds deal piece transfer n :
  unsealCalls (concat (replicate n (transientRound deal piece transfer))) = n.
Proof.
  induction n as [| n IH]; [done |].
  cbn [replicate concat]. rewrite unsealCalls_app, IH. reflexivity.
Qed.

(** C1. Let [UnsealData] reach its polling loop (the first save succeeds,
    the storage deal is found, the probe finds no backend holding the
    piece, a backend to write to and its transfer endpoint are at hand).
    If the unseal service fails transiently five times, the ticker firing
    after each failure, and then answers Finished, the loop is left
    through its break and [UnsealData] goes on to prepare the blockstore,
    having called the service six times.  If the service fails a sixth
    time instead, [UnsealData] returns the wrapped error of that call; it
    has called the service six times and the reply that a seventh call
    would get is still unread. *)
Theorem UnsealData_retry_bound providerDeal w deal wps pieceTransfer probeErr :
  let unsealing :=
    ProviderDealState.set_Status DealStatusUnsealing providerDeal in
  let pieceCid := StorageProposal.PieceCID (MinerDeal.Proposal deal) in
  let size := int64 (StorageProposal.PieceSize (MinerDeal.Proposal deal)) in
  let mgr := RetrievalDealHandler.pieceStorageMgr p in
  nextSaveReply w = None ->
  StorageDealRepo.GetDeal (RetrievalDealHandler.storageDealRepo p)
    (ProviderDealState.SelStorageProposalCid providerDeal) = inl deal ->
  PieceStorageManager.FindStorageForRead mgr pieceCid = (None, probeErr) ->
  PieceStorageManager.FindStorageForWrite mgr size = inl wps ->
  IPieceStorage.GetPieceTransfer wps pieceCid = inl pieceTransfer ->
  (forall fails rest waits,
      length fails = 5%nat -> Forall transient fails ->
      unsealReplies w = fails ++ (UnsealStateFinished, None) :: rest ->
      selectOutcomes w = replicate 5 TickerFired ++ waits ->
      exists w1 evs,
        UnsealData p providerDeal w = finishUnseal p deal unsealing w1 /\
        unsealReplies w1 = rest /\ selectOutcomes w1 = waits /\
        trace w1 = trace w ++ evs /\ unsealCalls evs = 6%nat) /\
  (forall fails state e rest waits,
      length fails = 5%nat -> Forall transient fails ->
      unsealReplies w = fails ++ (state, Some e) :: rest ->
      selectOutcomes w = replicate 5 TickerFired ++ waits ->
      exists w1 evs,
        UnsealData p providerDeal w =
        (Returned (Some (fmt_Errorf ("unseal piece " +:+ pieceCid +:+ ": ") e)),
         unsealing, w1) /\
        unsealReplies w1 = rest /\
        trace w1 = trace w ++ evs /\ unsealCalls evs = 6%nat).
Proof.
  intros unsealing pieceCid size mgr Hsave Hdeal Hread Hwrite Htransfer.
  pose proof (UnsealData_enters_loop providerDeal w deal wps pieceTransfer
                probeErr Hsave Hdeal Hread Hwrite Htransfer) as Hloop.
  cbv zeta in Hloop. fold unsealing pieceCid size in Hloop.
  split.
  - intros fails rest waits Hlen Hall Hr Hs.
    rewrite Hr, length_app in Hloop. cbn [length] in Hloop.
    erewrite (CheckLoop_transient_rounds deal pieceCid pieceTransfer fails
                (S (length rest)) 0 _ ((UnsealStateFinished, None) :: rest) waits)
      in Hloop; [| done | unfold errRetry; lia | exact Hr | by rewrite Hlen].
    erewrite CheckLoop_finished_round in Hloop by reflexivity.
    eexists _, _. split; [exact Hloop |].
    cbn [unsealReplies selectOutcomes trace after afterSave].
    repeat split; [rewrite <- !app_assoc; reflexivity |].
    rewrite !unsealCalls_app, unsealCalls_transientRounds, Hlen.
    destruct probeErr; reflexivity.
  - intros fails state e rest waits Hlen Hall Hr Hs.
    rewrite Hr, length_app in Hloop. cbn [length] in Hloop.
    erewrite (CheckLoop_transient_rounds deal pieceCid pieceTransfer fails
                (S (length rest)) 0 _ ((state, Some e) :: rest) waits)
      in Hloop; [| done | unfold errRetry; lia | exact Hr | by rewrite Hlen].
    erewrite CheckLoop_exhausted_round in Hloop;
      [| reflexivity | rewrite Hlen; unfold errRetry; lia].
    eexists _, _. split; [exact Hloop |].
    cbn [unsealReplies selectOutcomes trace after afterSave].
    repeat split; [rewrite <- !app_assoc; reflexivity |].
    rewrite !unsealCalls_app, unsealCalls_transientRounds, Hlen.
    destruct probeErr; reflexivity.
Qed.

(** *** Cancellation and the steps after unsealing *)

(** [CancelDeal] always ends in one [SaveDeal], of the deal marked Errored
    when teardown fails and Cancelled otherwise, and returns its reply. *)
Lemma CancelDeal_result deal w :
  let status :=
    if teardownFails p deal then DealStatusErrored else DealStatusCancelled in
  CancelDeal p deal w =
  (nextSaveReply w, ProviderDealState.set_Status status deal,
   afterSave (after w (teardownEvents p deal))
     (ProviderDealState.set_Status status deal)).
Proof.
  unfold CancelDeal, teardownFails, teardownEvents, Error, calling, bind,
    emit, ret, SaveDeal.
  cbv zeta.
  destruct (ProviderDealEnvironment.DeleteStore _ _); [reflexivity |].
  destruct (ProviderDealState.ChannelID deal) as [channel |]; [| reflexivity].
  destruct (ProviderDealEnvironment.CloseDataTransfer _ _) as [e |];
    [destruct (errors_Is e ErrTerminated) |];
    cbn beta iota; rewrite after_after; reflexivity.
Qed.

Lemma unsealCalls_teardownEvents deal : unsealCalls (teardownEvents p deal) = 0%nat.
Proof.
  unfold teardownEvents. cbv zeta.
  destruct (ProviderDealEnvironment.DeleteStore _ _);
    destruct (ProviderDealState.ChannelID deal); reflexivity.
Qed.

(** When the preparation of the blockstore fails, what is left of
    [UnsealData] is a log line and [CancelDeal]. *)
Lemma finishUnseal_prepare_fails deal providerDeal w e :
  ProviderDealEnvironment.PrepareBlockstore (RetrievalDealHandler.env p)
    (ProviderDealState.ID providerDeal)
    (StorageProposal.PieceCID (MinerDeal.Proposal deal)) = Some e ->
  finishUnseal p deal providerDeal w =
  let '(err, cancelled, w') :=
    CancelDeal p providerDeal
      (after w [EvPrepareBlockstore (ProviderDealState.ID providerDeal)
                  (StorageProposal.PieceCID (MinerDeal.Proposal deal));
                EvLog LogError "unable to load shard %s  %s"]) in
  (Returned err, cancelled, w').
Proof.
  intros Hprep. unfold finishUnseal.
  unfold bind at 1, calling at 1, bind at 1, emit, ret. rewrite Hprep.
  unfold bind at 1, log, emit. rewrite after_after. cbn [app].
  unfold bind at 1.
  destruct (CancelDeal p providerDeal _) as [[err cancelled] w']. reflexivity.
Qed.

(** When the preparation succeeds, the next call of the deal repository
    saves the deal as Unsealed, and the unseal service is not called. *)
Lemma finishUnseal_prepared deal providerDeal w :
  ProviderDealEnvironment.PrepareBlockstore (RetrievalDealHandler.env p)
    (ProviderDealState.ID providerDeal)
    (StorageProposal.PieceCID (MinerDeal.Proposal deal)) = None ->
  exists evs,
    trace (finishUnseal p deal providerDeal w).2 = trace w ++ evs /\
    unsealReplies (finishUnseal p deal providerDeal w).2 = unsealReplies w /\
    unsealCalls evs = 0%nat /\
    take 1 (savedStatuses evs) = [DealStatusUnsealed].
Proof.
  intros Hprep. unfold finishUnseal, calling, log, SaveDeal, bind, emit, ret.
  rewrite Hprep. cbn beta iota.
  destruct (nextSaveReply _) as [e |].
  { eexists. cbn [snd trace unsealReplies afterSave after].
    rewrite <- !app_assoc. repeat split. }
  destruct (ProviderDealState.ChannelID _) as [channel |].
  - eexists. cbn [snd trace unsealReplies afterSave after].
    rewrite <- !app_assoc. repeat split.
  - eexists. cbn [snd trace unsealReplies afterSave after].
    rewrite <- !app_assoc. repeat split.
Qed.

Lemma savesSucceed_next w : savesSucceed w -> nextSaveReply w = None.
Proof.
  unfold savesSucceed, nextSaveReply.
  destruct (saveDealReplies w); [done |]. by inversion 1.
Qed.

Lemma savesSucceed_afterSave w d : savesSucceed w -> savesSucceed (afterSave w d).
Proof.
  unfold savesSucceed, afterSave. simpl.
  destruct (saveDealReplies w); [done |]. by inversion 1.
Qed.

Lemma savesSucceed_after w evs : savesSucceed w -> savesSucceed (after w evs).
Proof. done. Qed.

(** With the blockstore prepared, every save succeeding and the transfer
    resumed without error, [UnsealData] ends with nil and the deal
    Unsealed. *)
Lemma finishUnseal_success deal providerDeal w :
  ProviderDealEnvironment.PrepareBlockstore (RetrievalDealHandler.env p)
    (ProviderDealState.ID providerDeal)
    (StorageProposal.PieceCID (MinerDeal.Proposal deal)) = None ->
  savesSucceed w ->
  resumeSucceeds p providerDeal ->
  (finishUnseal p deal providerDeal w).1 =
  (Returned None, ProviderDealState.set_Status DealStatusUnsealed providerDeal).
Proof.
  intros Hprep Hsaves Hresume.
  unfold finishUnseal, calling, log, SaveDeal, bind, emit, ret.
  rewrite Hprep. cbn beta iota.
  rewrite savesSucceed_next by auto using savesSucceed_after.
  unfold resumeSucceeds in Hresume.
  change (ProviderDealState.ChannelID
            (ProviderDealState.set_Status DealStatusUnsealed providerDeal))
    with (ProviderDealState.ChannelID providerDeal).
  destruct (ProviderDealState.ChannelID providerDeal) as [channel |];
    [rewrite Hresume |]; cbn beta iota; cbn [fst];
    rewrite savesSucceed_next
      by auto using savesSucceed_after, savesSucceed_afterSave;
    reflexivity.
Qed.

(** C7. When the first save succeeds, the storage deal is found and the
    probe of the piece storage manager returns a backend that holds the
    piece, [UnsealData] does not call the remote unseal service: no such
    call is among its events and no reply of the service is consumed.  If
    the preparation of the blockstore succeeds, the deal repository is
    called with the status Unsealing and next with the status Unsealed;
    if moreover every save succeeds and resuming the transfer does not
    fail, [UnsealData] returns nil and leaves the deal Unsealed. *)
Theorem UnsealData_piece_present providerDeal w deal st probeErr :
  let pieceCid := StorageProposal.PieceCID (MinerDeal.Proposal deal) in
  let prepared :=
    ProviderDealEnvironment.PrepareBlockstore (RetrievalDealHandler.env p)
      (ProviderDealState.ID providerDeal) pieceCid = None in
  nextSaveReply w = None ->
  StorageDealRepo.GetDeal (RetrievalDealHandler.storageDealRepo p)
    (ProviderDealState.SelStorageProposalCid providerDeal) = inl deal ->
  PieceStorageManager.FindStorageForRead
    (RetrievalDealHandler.pieceStorageMgr p) pieceCid = (Some st, probeErr) ->
  (exists evs,
      trace (UnsealData p providerDeal w).2 = trace w ++ evs /\
      unsealCalls evs = 0%nat /\
      (prepared ->
       take 2 (savedStatuses evs) = [DealStatusUnsealing; DealStatusUnsealed])) /\
  unsealReplies (UnsealData p providerDeal w).2 = unsealReplies w /\
  (prepared -> savesSucceed w -> resumeSucceeds p providerDeal ->
   (UnsealData p providerDeal w).1 =
   (Returned None,
    ProviderDealState.set_Status DealStatusUnsealed providerDeal)).
Proof.
  intros pieceCid prepared Hsave Hdeal Hread.
  rewrite (UnsealData_fast_path providerDeal w deal st probeErr Hsave Hdeal Hread).
  cbv zeta. fold pieceCid.
  set (unsealing := ProviderDealState.set_Status DealStatusUnsealing providerDeal).
  set (w1 := after (afterSave w unsealing) _).
  assert (Htr1 : exists evs1,
             trace w1 = trace w ++ EvSaveDeal unsealing None :: evs1 /\
             unsealCalls evs1 = 0%nat /\ savedStatuses evs1 = []).
  { subst w1. cbn [trace after afterSave]. rewrite Hsave, <- app_assoc.
    eexists. split; [reflexivity |]. unfold probeEvents.
    destruct probeErr; split; reflexivity. }
  destruct Htr1 as (evs1 & Htr1 & Hcalls1 & Hsaved1).
  destruct (ProviderDealEnvironment.PrepareBlockstore (RetrievalDealHandler.env p)
              (ProviderDealState.ID providerDeal) pieceCid) as [e |] eqn:Hprep.
  - rewrite (finishUnseal_prepare_fails deal unsealing w1 e Hprep).
    rewrite CancelDeal_result. cbv zeta.
    cbn [snd fst trace unsealReplies afterSave after].
    split; [| split; [reflexivity | by intros [=]]].
    eexists. rewrite Htr1, <- !app_assoc. cbn [app].
    split; [reflexivity |]. split; [| by intros [=]].
    count_unseal_calls. rewrite Hcalls1, unsealCalls_teardownEvents.
    reflexivity.
  - destruct (finishUnseal_prepared deal unsealing w1 Hprep)
      as (evs2 & Htr2 & Hrep2 & Hcalls2 & Hsaved2).
    split; [| split].
    + exists (EvSaveDeal unsealing None :: evs1 ++ evs2).
      rewrite Htr2, Htr1, <- app_assoc. split; [reflexivity |].
      split.
      * count_unseal_calls. rewrite Hcalls1, Hcalls2. reflexivity.
      * intros _. unfold savedStatuses in *. cbn [flat_map].
        rewrite flat_map_app, Hsaved1. cbn [app].
        change (take 2 (?a :: ?l)) with (a :: take 1 l).
        by rewrite Hsaved2.
    + by rewrite Hrep2.
    + intros _ Hsaves Hresume.
      apply (finishUnseal_success deal unsealing w1 Hprep).
      * subst w1. by apply savesSucceed_after, savesSucceed_afterSave.
      * exact Hresume.
Qed.

(** C4 (amended). Let a run of [UnsealData] reach the preparation of the
    blockstore, in the world [w1].  When the preparation fails, the run
    logs the failure, goes through [CancelDeal] and returns what
    [CancelDeal] returns: the reply of the one [SaveDeal] that the
    cancellation makes, nil when that save succeeds, and not the error of
    the preparation.  The deal is saved and left with the status
    Cancelled when teardown succeeds and Errored when it fails. *)
Theorem UnsealData_prepare_failure providerDeal w deal w1 e :
  let unsealing :=
    ProviderDealState.set_Status DealStatusUnsealing providerDeal in
  let pieceCid := StorageProposal.PieceCID (MinerDeal.Proposal deal) in
  let status :=
    if teardownFails p unsealing then DealStatusErrored
    else DealStatusCancelled in
  UnsealData p providerDeal w = finishUnseal p deal unsealing w1 ->
  ProviderDealEnvironment.PrepareBlockstore (RetrievalDealHandler.env p)
    (ProviderDealState.ID providerDeal) pieceCid = Some e ->
  UnsealData p providerDeal w =
  (Returned (nextSaveReply w1),
   ProviderDealState.set_Status status unsealing,
   afterSave
     (after w1
        ([EvPrepareBlockstore (ProviderDealState.ID providerDeal) pieceCid;
          EvLog LogError "unable to load shard %s  %s"] ++
         teardownEvents p unsealing))
     (ProviderDealState.set_Status status unsealing)).
Proof.
  intros unsealing pieceCid status Hreach Hprep.
  rewrite Hreach.
  rewrite (finishUnseal_prepare_fails deal unsealing w1 e Hprep).
  rewrite CancelDeal_result. cbv zeta. fold status.
  by rewrite after_after.
Qed.

(** *** The trace only grows *)

Lemma CheckLoop_trace deal piece transfer rounds :
  forall count w,
    exists evs,
      trace (CheckLoop deal piece transfer rounds count w).2 = trace w ++ evs.
Proof.
  induction rounds as [| rounds IH]; intros count w.
  { exists []. simpl. by rewrite app_nil_r. }
  cbn [CheckLoop]. unfold bind at 1, SectorsUnsealPiece.
  destruct (unsealReplies w) as [| [state err] rest].
  { exists []. simpl. by rewrite app_nil_r. }
  set (count' := match err with Some _ => count + 1 | None => count end).
  set (w1 := mkWorld _ _ _ _).
  assert (Hlog : exists evs1 w2,
             (match err with
              | Some _ => log Warn "unseal piece %s fail, retry (%d/%d): %w"
              | None => ret ()
              end) w1 = ((), w2) /\ trace w2 = trace w ++ evs1 /\
             selectOutcomes w2 = selectOutcomes w).
  { destruct err; eexists _, _; (split; [reflexivity |]); subst w1;
      cbn [trace after selectOutcomes]; rewrite <- ?app_assoc;
      split; reflexivity. }
  destruct Hlog as (evs1 & w2 & Hlog & Htr2 & Hsel2).
  unfold bind at 1. rewrite Hlog.
  destruct (bool_decide (err <> None) && (count' >? errRetry)).
  { eexists. exact Htr2. }
  unfold bind at 1, log, emit.
  destruct state.
  - eexists. cbn [snd ret trace after]. rewrite Htr2, <- app_assoc. reflexivity.
  - unfold bind at 1, select. cbn [selectOutcomes after].
    destruct (selectOutcomes w2) as [| outcome waits].
    { eexists. cbn [snd ret trace after]. rewrite Htr2, <- app_assoc.
      reflexivity. }
    destruct outcome.
    + destruct (IH count' (mkWorld (saveDealReplies (after w2 [EvLog Debug "unseal piece %s: %s"]))
                             (unsealReplies (after w2 [EvLog Debug "unseal piece %s: %s"])) waits
                             (trace (after w2 [EvLog Debug "unseal piece %s: %s"]) ++ [EvSelect TickerFired])))
        as [evs Hevs].
      eexists. rewrite Hevs. cbn [trace after]. rewrite Htr2, <- !app_assoc.
      reflexivity.
    + eexists. cbn [snd ret trace after]. rewrite Htr2, <- !app_assoc.
      reflexivity.
    + eexists. cbn [snd ret trace after]. rewrite Htr2, <- !app_assoc.
      reflexivity.
  - eexists. cbn [snd ret trace after]. rewrite Htr2, <- app_assoc. reflexivity.
Qed.

Lemma finishUnseal_trace deal providerDeal w :
  exists evs, trace (finishUnseal p deal providerDeal w).2 = trace w ++ evs.
Proof.
  destruct (ProviderDealEnvironment.PrepareBlockstore (RetrievalDealHandler.env p)
              (ProviderDealState.ID providerDeal)
              (StorageProposal.PieceCID (MinerDeal.Proposal deal)))
    as [e |] eqn:Hprep.
  - rewrite (finishUnseal_prepare_fails deal providerDeal w e Hprep).
    rewrite CancelDeal_result. cbv zeta.
    eexists. cbn [snd trace afterSave after]. rewrite <- !app_assoc.
    reflexivity.
  - destruct (finishUnseal_prepared deal providerDeal w Hprep) as (evs & H & _).
    eauto.
Qed.

(** The first call of the unsealing block chooses a backend to write to. *)
Lemma tryUnseal_trace deal piece w :
  exists evs,
    trace (tryUnseal p deal piece w).2 =
    trace w ++
    EvFindStorageForWrite
      (int64 (StorageProposal.PieceSize (MinerDeal.Proposal deal))) :: evs.
Proof.
  unfold tryUnseal. unfold bind at 1, calling at 1, bind at 1, emit, ret.
  destruct (PieceStorageManager.FindStorageForWrite _ _) as [wps | e].
  2: { exists []. reflexivity. }
  unfold bind at 1, calling at 1, bind at 1, emit, ret.
  destruct (IPieceStorage.GetPieceTransfer wps piece) as [transfer | e].
  2: { eexists. cbn [snd trace after]. rewrite <- app_assoc. reflexivity. }
  unfold bind at 1, log, emit. unfold bind at 1.
  rewrite !after_after. cbn [app].
  match goal with
  | |- context [CheckLoop ?d ?c ?t ?r ?n ?w0] =>
      destruct (CheckLoop_trace d c t r n w0) as [evs Hevs];
      destruct (CheckLoop d c t r n w0) as [exit w']
  end.
  cbn [snd] in Hevs.
  destruct exit; unfold bind, ret, emit; eexists; cbn [snd trace after];
    rewrite Hevs; cbn [trace after]; rewrite <- !app_assoc; reflexivity.
Qed.

(** With the piece absent, a backend and transfer endpoint at hand, the
    unseal service answering in-progress without error and the timeout
    context then done, [UnsealData] returns [ctx.Err()] of the caller's
    context: the reason when that context is done, and nil when only the
    deadline of the timeout context has passed. *)
Lemma UnsealData_timeout_done providerDeal w deal wps pieceTransfer probeErr
    done rest waits :
  let unsealing :=
    ProviderDealState.set_Status DealStatusUnsealing providerDeal in
  let pieceCid := StorageProposal.PieceCID (MinerDeal.Proposal deal) in
  let size := int64 (StorageProposal.PieceSize (MinerDeal.Proposal deal)) in
  let mgr := RetrievalDealHandler.pieceStorageMgr p in
  nextSaveReply w = None ->
  StorageDealRepo.GetDeal (RetrievalDealHandler.storageDealRepo p)
    (ProviderDealState.SelStorageProposalCid providerDeal) = inl deal ->
  PieceStorageManager.FindStorageForRead mgr pieceCid = (None, probeErr) ->
  PieceStorageManager.FindStorageForWrite mgr size = inl wps ->
  IPieceStorage.GetPieceTransfer wps pieceCid = inl pieceTransfer ->
  unsealReplies w = (UnsealStateInProgress, None) :: rest ->
  selectOutcomes w = done :: waits ->
  done <> TickerFired ->
  (UnsealData p providerDeal w).1 = (Returned (ctx_Err done), unsealing).
Proof.
  intros unsealing pieceCid size mgr Hsave Hdeal Hread Hwrite Htransfer
    Hr Hs Hdone.
  rewrite (UnsealData_enters_loop providerDeal w deal wps pieceTransfer
             probeErr Hsave Hdeal Hread Hwrite Htransfer).
  cbv zeta. rewrite Hr. cbn [length].
  match goal with
  | |- context [CheckLoop ?d ?c ?t (S ?r) ?n ?w0] =>
      pose proof (CheckLoop_done_round d c t r n w0 done rest waits Hr Hs Hdone)
        as Hround;
      destruct (CheckLoop d c t (S r) n w0) as [exit w']
  end.
  cbn [fst] in Hround. by subst exit.
Qed.

End HandlerFacts.

(** *** The error of the read probe *)
Section ProbeFacts.
Import retrievalprovider.

(** C10. Take two handlers that differ in nothing but the read probe of
    the piece storage manager.  When the first save succeeds, the storage
    deal is found, and each probe returns no backend together with an
    error, whichever it is, the two runs of [UnsealData] are equal in
    outcome, deal and world: the error of the probe is logged and has no
    part in what is returned.  The events of the run are the save, the
    lookup of the storage deal, the probe, the log line, then the choice
    of a backend to write to, and what follows. *)
Theorem UnsealData_probe_error env repo read read' write providerDeal w deal e e' :
  let p := RetrievalDealHandler.mk env repo (PieceStorageManager.mk read write) in
  let p' := RetrievalDealHandler.mk env repo (PieceStorageManager.mk read' write) in
  let unsealing :=
    ProviderDealState.set_Status
      DealStatusUnsealing providerDeal in
  let pieceCid :=
    StorageProposal.PieceCID
      (MinerDeal.Proposal deal) in
  let size :=
    int64
      (StorageProposal.PieceSize
         (MinerDeal.Proposal deal)) in
  nextSaveReply w = None ->
  StorageDealRepo.GetDeal repo
    (ProviderDealState.SelStorageProposalCid providerDeal)
  = inl deal ->
  read pieceCid = (None, Some e) ->
  read' pieceCid = (None, Some e') ->
  UnsealData p providerDeal w =
  UnsealData p' providerDeal w /\
  exists evs,
    trace (UnsealData p providerDeal w).2 =
    trace w ++
    [EvSaveDeal unsealing None;
     EvGetDeal
       (ProviderDealState.SelStorageProposalCid providerDeal);
     EvFindStorageForRead pieceCid;
     EvLog Info "try to find piece  fail: %w";
     EvFindStorageForWrite size] ++ evs.
Proof.
  intros p p' unsealing pieceCid size Hsave Hdeal Hread Hread'.
  assert (Hrun : forall rd err,
    rd pieceCid = (None, Some err) ->
    UnsealData
      (RetrievalDealHandler.mk env repo
         (PieceStorageManager.mk rd write)) providerDeal w =
    let '(exit, w') :=
      tryUnseal p deal pieceCid
        (after (afterSave w unsealing)
           (probeEvents providerDeal pieceCid (Some err))) in
    match exit with
    | LoopBreak =>
        finishUnseal p deal unsealing w'
    | LoopReturn err' =>
        (Returned err', unsealing, w')
    | LoopPending =>
        (Pending, unsealing, w')
    end).
  { intros rd err Hrd.
    unfold UnsealData. fold unsealing.
    unfold bind at 1, SaveDeal.
    rewrite Hsave.
    unfold bind at 1, calling at 1,
      bind at 1, emit,
      ret.
    cbn [RetrievalDealHandler.storageDealRepo
           RetrievalDealHandler.pieceStorageMgr
           PieceStorageManager.FindStorageForRead].
    change (ProviderDealState.SelStorageProposalCid unsealing)
      with (ProviderDealState.SelStorageProposalCid
              providerDeal).
    rewrite Hdeal. fold pieceCid.
    unfold bind at 1, calling at 1,
      bind at 1, emit,
      ret.
    rewrite Hrd.
    unfold bind at 1, log,
      emit.
    rewrite !after_after. cbn [app].
    unfold bind at 1.
    change (tryUnseal (RetrievalDealHandler.mk env repo
                         (PieceStorageManager.mk rd write)))
      with (tryUnseal p).
    change (finishUnseal (RetrievalDealHandler.mk env repo
                            (PieceStorageManager.mk rd write)))
      with (finishUnseal p).
    unfold probeEvents. cbn [app].
    destruct (tryUnseal p deal pieceCid _) as [exit w'].
    destruct exit; reflexivity. }
  split.
  - unfold p at 1, p'.
    rewrite (Hrun read e Hread), (Hrun read' e' Hread'). reflexivity.
  - unfold p at 1. rewrite (Hrun read e Hread).
    destruct (tryUnseal_trace p deal pieceCid
                (after (afterSave w unsealing)
                   (probeEvents providerDeal pieceCid (Some e))))
      as [evs Hevs].
    destruct (tryUnseal p deal pieceCid _) as [exit w'].
    cbn [snd] in Hevs.
    cbn [trace after
           afterSave probeEvents app]
      in Hevs.
    rewrite Hsave, <- !app_assoc in Hevs. cbn [app] in Hevs.
    destruct exit.
    + destruct (finishUnseal_trace p deal unsealing w') as [evs' Hevs'].
      exists (evs ++ evs'). rewrite Hevs', Hevs, <- !app_assoc. reflexivity.
    + exists evs. exact Hevs.
    + exists evs. exact Hevs.
Qed.

End ProbeFacts.

(** *** The handler on sample worlds *)
Section HandlerSamples.
Import retrievalprovider.

Lemma UnsealData_retry_bound_witness :
  (exists w1 evs,
      UnsealData (sampleHandler quietEnv absent) (sampleProviderDeal None)
        (sampleWorld (fiveTimeouts ++ [(UnsealStateFinished, None)])
           (replicate 5 TickerFired)) =
      finishUnseal (sampleHandler quietEnv absent) sampleMinerDeal
        (ProviderDealState.set_Status DealStatusUnsealing
           (sampleProviderDeal None)) w1 /\
      unsealReplies w1 = [] /\ selectOutcomes w1 = [] /\
      trace w1 = [] ++ evs /\ unsealCalls evs = 6%nat) /\
  (exists w1 evs,
      UnsealData (sampleHandler quietEnv absent) (sampleProviderDeal None)
        (sampleWorld
           (fiveTimeouts ++
            [(UnsealStateInProgress, Some timeout);
             (UnsealStateFinished, None)])
           (replicate 6 TickerFired)) =
      (Returned (Some (fmt_Errorf "unseal piece bafk-piece: " timeout)),
       ProviderDealState.set_Status DealStatusUnsealing
         (sampleProviderDeal None), w1) /\
      unsealReplies w1 = [(UnsealStateFinished, None)] /\
      trace w1 = [] ++ evs /\ unsealCalls evs = 6%nat).
Proof.
  split.
  - apply (proj1 (UnsealData_retry_bound (sampleHandler quietEnv absent)
                    (sampleProviderDeal None)
                    (sampleWorld (fiveTimeouts ++ [(UnsealStateFinished, None)])
                       (replicate 5 TickerFired))
                    sampleMinerDeal sampleStorage "http://fs0/bafk-piece"
                    (Some (errors_New "unable to find piece in storage"))
                    eq_refl eq_refl eq_refl eq_refl eq_refl)
             fiveTimeouts [] []).
    + reflexivity.
    + repeat constructor; discriminate.
    + reflexivity.
    + reflexivity.
  - apply (proj2 (UnsealData_retry_bound (sampleHandler quietEnv absent)
                    (sampleProviderDeal None)
                    (sampleWorld
                       (fiveTimeouts ++
                        [(UnsealStateInProgress, Some timeout);
                         (UnsealStateFinished, None)])
                       (replicate 6 TickerFired))
                    sampleMinerDeal sampleStorage "http://fs0/bafk-piece"
                    (Some (errors_New "unable to find piece in storage"))
                    eq_refl eq_refl eq_refl eq_refl eq_refl)
             fiveTimeouts UnsealStateInProgress timeout
             [(UnsealStateFinished, None)] [TickerFired]).
    + reflexivity.
    + repeat constructor; discriminate.
    + reflexivity.
    + reflexivity.
Defined.

(** C2. The unseal service reports progress and then the twelve-hour
    deadline of the timeout context passes while the caller's context is
    alive: the [select] takes [timeOutCtx.Done()], whose context holds the
    error DeadlineExceeded, and [UnsealData] returns [ctx.Err()] of the
    caller's context, which is nil.  The deal stays Unsealing; the only
    save is the one that marked it so. *)
Theorem UnsealData_deadline_returns_nil :
  timeOutCtx_Err DeadlineExpired = Some DeadlineExceeded /\
  (UnsealData (sampleHandler quietEnv absent) (sampleProviderDeal None)
     (sampleWorld [(UnsealStateInProgress, None)] [DeadlineExpired])).1 =
  (Returned None,
   ProviderDealState.set_Status DealStatusUnsealing (sampleProviderDeal None)) /\
  savedStatuses
    (trace (UnsealData (sampleHandler quietEnv absent) (sampleProviderDeal None)
              (sampleWorld [(UnsealStateInProgress, None)] [DeadlineExpired])).2)
  = [DealStatusUnsealing].
Proof.
  split; [reflexivity |]. split.
  - apply (UnsealData_timeout_done (sampleHandler quietEnv absent)
             (sampleProviderDeal None)
             (sampleWorld [(UnsealStateInProgress, None)] [DeadlineExpired])
             sampleMinerDeal sampleStorage "http://fs0/bafk-piece"
             (Some (errors_New "unable to find piece in storage"))
             DeadlineExpired [] []);
      (reflexivity || discriminate).
  - vm_compute. reflexivity.
Qed.

(** When it is the caller's context that is done, its reason is what
    [UnsealData] returns. *)
Example UnsealData_cancelled_returns_reason :
  (UnsealData (sampleHandler quietEnv absent) (sampleProviderDeal None)
     (sampleWorld [(UnsealStateInProgress, None)] [ParentDone Canceled])).1 =
  (Returned (Some Canceled),
   ProviderDealState.set_Status DealStatusUnsealing (sampleProviderDeal None)).
Proof.
  apply (UnsealData_timeout_done (sampleHandler quietEnv absent)
           (sampleProviderDeal None)
           (sampleWorld [(UnsealStateInProgress, None)] [ParentDone Canceled])
           sampleMinerDeal sampleStorage "http://fs0/bafk-piece"
           (Some (errors_New "unable to find piece in storage"))
           (ParentDone Canceled) [] []);
    (reflexivity || discriminate).
Qed.

(** C4, as stated, fails: the piece is present, the preparation of the
    blockstore fails with [prepareError], teardown and the save succeed.
    [UnsealData] returns nil, not the error of the preparation. *)
Lemma UnsealData_prepare_error_dropped :
  let h := sampleHandler (sampleEnv (Some prepareError) None None None) present in
  ProviderDealEnvironment.PrepareBlockstore (RetrievalDealHandler.env h)
    11%N "bafk-piece" = Some prepareError /\
  (UnsealData h (sampleProviderDeal None) (sampleWorld [] [])).1 =
  (Returned None,
   ProviderDealState.set_Status DealStatusCancelled (sampleProviderDeal None)) /\
  (UnsealData h (sampleProviderDeal None) (sampleWorld [] [])).1.1 <>
  Returned (Some prepareError).
Proof.
  cbv zeta. split; [reflexivity |]. split; [vm_compute; reflexivity |].
  vm_compute. discriminate.
Qed.

Lemma UnsealData_prepare_failure_witness :
  let h := sampleHandler (sampleEnv (Some prepareError) (Some timeout) None None)
             present in
  let unsealing :=
    ProviderDealState.set_Status DealStatusUnsealing (sampleProviderDeal None) in
  let errored := ProviderDealState.set_Status DealStatusErrored unsealing in
  let w1 :=
    after (afterSave (sampleWorld [] []) unsealing)
      (probeEvents (sampleProviderDeal None) "bafk-piece" None ++
       [EvLog Info "piece already exist, no need to unseal"]) in
  UnsealData h (sampleProviderDeal None) (sampleWorld [] []) =
  (Returned None, errored,
   afterSave
     (after w1
        ([EvPrepareBlockstore 11%N "bafk-piece";
          EvLog LogError "unable to load shard %s  %s"] ++
         teardownEvents h unsealing))
     errored).
Proof.
  cbv zeta.
  apply (UnsealData_prepare_failure
           (sampleHandler (sampleEnv (Some prepareError) (Some timeout) None None)
              present)
           (sampleProviderDeal None) (sampleWorld [] []) sampleMinerDeal
           (after (afterSave (sampleWorld [] [])
                     (ProviderDealState.set_Status DealStatusUnsealing
                        (sampleProviderDeal None)))
              (probeEvents (sampleProviderDeal None) "bafk-piece" None ++
               [EvLog Info "piece already exist, no need to unseal"]))
           prepareError).
  - vm_compute. reflexivity.
  - reflexivity.
Defined.

Lemma CancelDeal_teardown_witness :
  CancelDeal (sampleHandler (sampleEnv None None None (Some ErrTerminated)) present)
    (sampleProviderDeal (Some sampleChannel)) (sampleWorld [] []) =
  (None,
   ProviderDealState.set_Status DealStatusCancelled
     (sampleProviderDeal (Some sampleChannel)),
   afterSave
     (after (sampleWorld [] [])
        [EvDeleteStore 11%N; EvCloseDataTransfer sampleChannel])
     (ProviderDealState.set_Status DealStatusCancelled
        (sampleProviderDeal (Some sampleChannel)))) /\
  CancelDeal (sampleHandler (sampleEnv None (Some timeout) None None) present)
    (sampleProviderDeal (Some sampleChannel)) (sampleWorld [] []) =
  (None,
   ProviderDealState.set_Status DealStatusErrored
     (sampleProviderDeal (Some sampleChannel)),
   afterSave (after (sampleWorld [] []) [EvDeleteStore 11%N])
     (ProviderDealState.set_Status DealStatusErrored
        (sampleProviderDeal (Some sampleChannel)))) /\
  CancelDeal (sampleHandler (sampleEnv None None None (Some timeout)) present)
    (sampleProviderDeal (Some sampleChannel)) (sampleWorld [] []) =
  (None,
   ProviderDealState.set_Status DealStatusErrored
     (sampleProviderDeal (Some sampleChannel)),
   afterSave
     (after (sampleWorld [] [])
        [EvDeleteStore 11%N; EvCloseDataTransfer sampleChannel])
     (ProviderDealState.set_Status DealStatusErrored
        (sampleProviderDeal (Some sampleChannel)))).
Proof.
  split; [| split].
  - apply (proj1 (CancelDeal_teardown
                    (sampleHandler (sampleEnv None None None (Some ErrTerminated))
                       present)
                    (sampleProviderDeal (Some sampleChannel)) (sampleWorld [] []))
             sampleChannel ErrTerminated); reflexivity.
  - apply (proj1 (proj2 (CancelDeal_teardown
                    (sampleHandler (sampleEnv None (Some timeout) None None)
                       present)
                    (sampleProviderDeal (Some sampleChannel)) (sampleWorld [] [])))
             timeout); reflexivity.
  - apply (proj2 (proj2 (CancelDeal_teardown
                    (sampleHandler (sampleEnv None None None (Some timeout))
                       present)
                    (sampleProviderDeal (Some sampleChannel)) (sampleWorld [] [])))
             sampleChannel timeout); reflexivity.
Defined.

Lemma UnsealData_piece_present_witness :
  let h := sampleHandler quietEnv present in
  let d := sampleProviderDeal (Some sampleChannel) in
  let w := sampleWorld [(UnsealStateFailed, Some timeout)] [] in
  (exists evs,
      trace (UnsealData h d w).2 = trace w ++ evs /\
      unsealCalls evs = 0%nat /\
      (ProviderDealEnvironment.PrepareBlockstore (RetrievalDealHandler.env h)
         (ProviderDealState.ID d) "bafk-piece" = None ->
       take 2 (savedStatuses evs) = [DealStatusUnsealing; DealStatusUnsealed])) /\
  unsealReplies (UnsealData h d w).2 = [(UnsealStateFailed, Some timeout)] /\
  (UnsealData h d w).1 =
  (Returned None, ProviderDealState.set_Status DealStatusUnsealed d).
Proof.
  cbv zeta.
  destruct (UnsealData_piece_present (sampleHandler quietEnv present)
              (sampleProviderDeal (Some sampleChannel))
              (sampleWorld [(UnsealStateFailed, Some timeout)] [])
              sampleMinerDeal sampleStorage None eq_refl eq_refl eq_refl)
    as (Hevs & Hreplies & Hdone).
  split; [exact Hevs |]. split; [exact Hreplies |].
  apply Hdone; [reflexivity | constructor | reflexivity].
Defined.

Lemma UnsealData_probe_error_witness :
  let p := sampleHandler quietEnv absent in
  let p' := sampleHandler quietEnv (None, Some ErrTerminated) in
  let d := sampleProviderDeal None in
  let w := sampleWorld [(UnsealStateFinished, None)] [] in
  UnsealData p d w = UnsealData p' d w /\
  exists evs,
    trace (UnsealData p d w).2 =
    trace w ++
    [EvSaveDeal (ProviderDealState.set_Status DealStatusUnsealing d) None;
     EvGetDeal "bafy-storage-proposal";
     EvFindStorageForRead "bafk-piece";
     EvLog Info "try to find piece  fail: %w";
     EvFindStorageForWrite 2048] ++ evs.
Proof.
  cbv zeta.
  apply (UnsealData_probe_error quietEnv
           (RetrievalDealHandler.storageDealRepo (sampleHandler quietEnv absent))
           (fun _ => absent) (fun _ => (None, Some ErrTerminated))
           (fun _ => inl sampleStorage)
           (sampleProviderDeal None)
           (sampleWorld [(UnsealStateFinished, None)] []) sampleMinerDeal
           (errors_New "unable to find piece in storage") ErrTerminated);
    reflexivity.
Defined.

End HandlerSamples.

(** ** Request validator *)
Section ValidatorFacts.
Import retrievalprovider.
Context `{Imports}.
Variable rv : ProviderRequestValidator.

Lemma set_SelStorageProposalCid_same deal :
  ProviderDealState.set_SelStorageProposalCid
    (ProviderDealState.SelStorageProposalCid deal) deal = deal.
Proof. by destruct deal. Qed.

Lemma savedStatuses_app evs evs' :
  savedStatuses (evs ++ evs') = savedStatuses evs ++ savedStatuses evs'.
Proof. unfold savedStatuses. apply flat_map_app. Qed.

(** The loop over the candidate storage deals changes nothing in the deal
    record but [SelStorageProposalCid], saves nothing and leaves the
    scripts of the world alone. *)
Lemma rangeMinerDeals_result minerDeals :
  forall deal ask w,
    exists ask' c evs,
      rangeMinerDeals rv minerDeals deal ask w =
      (ask', ProviderDealState.set_SelStorageProposalCid c deal, after w evs) /\
      savedStatuses evs = [].
Proof.
  induction minerDeals as [| minerDeal rest IH]; intros deal ask w.
  { exists ask, (ProviderDealState.SelStorageProposalCid deal), [].
    cbn [rangeMinerDeals]. unfold ret.
    by rewrite set_SelStorageProposalCid_same, after_nil. }
  cbn [rangeMinerDeals]. unfold bind at 1, calling at 1, bind at 1, emit, ret.
  destruct (MarketConfig.MinerProviderConfig _ _ _) as [minerCfg | e].
  2: { destruct (IH deal ask (after w [EvMinerProviderConfig
                   (StorageProposal.Provider (MinerDeal.Proposal minerDeal))]))
         as (ask' & c & evs & Heq & Hsaved).
       eexists ask', c, _. rewrite Heq, after_after.
       split; [reflexivity |]. by rewrite savedStatuses_app, Hsaved. }
  destruct (Address_Empty _).
  { destruct (IH deal ask (after w [EvMinerProviderConfig
                (StorageProposal.Provider (MinerDeal.Proposal minerDeal))]))
      as (ask' & c & evs & Heq & Hsaved).
    eexists ask', c, _. rewrite Heq, after_after.
    split; [reflexivity |]. by rewrite savedStatuses_app, Hsaved. }
  unfold bind at 1, calling at 1, bind at 1, emit, ret.
  destruct (IRetrievalAskRepo.GetAsk _ _) as [ask1 err].
  destruct err as [e |].
  - unfold bind at 1, log, emit.
    match goal with
    | |- context [rangeMinerDeals rv rest ?d ?a ?w0] =>
        destruct (IH d a w0) as (ask' & c & evs & Heq & Hsaved)
    end.
    eexists ask', c, _. rewrite Heq, !after_after.
    split; [by destruct deal |]. by rewrite !savedStatuses_app, Hsaved.
  - eexists ask1, _, _. rewrite after_after. split; reflexivity.
Qed.

(** What [acceptDeal] can return: the deal record is changed in
    [SelStorageProposalCid] at most, nothing is saved, and a status that
    comes without an error and is not Errored is FundsNeededUnseal when the
    proposal's unseal price is positive and Accepted otherwise. *)
Lemma acceptDeal_result deal w :
  exists status err c evs,
    acceptDeal rv deal w =
    (status, err, ProviderDealState.set_SelStorageProposalCid c deal,
     after w evs) /\
    savedStatuses evs = [] /\
    (err = None -> status <> DealStatusErrored ->
     status = if ProviderDealState.UnsealPrice deal >? 0
              then DealStatusFundsNeededUnseal else DealStatusAccepted) /\
    (status = DealStatusFundsNeededUnseal -> err = None).
Proof.
  unfold acceptDeal. unfold bind at 1, calling at 1, bind at 1, emit, ret.
  destruct (PieceInfo.GetPieceInfoFromCid _ _ _) as [minerDeals | e].
  2: { destruct (errors_Is e ErrNotFound);
         eexists _, _, (ProviderDealState.SelStorageProposalCid deal), _;
         rewrite set_SelStorageProposalCid_same;
         (split; [reflexivity |]); repeat split; done. }
  unfold bind at 1.
  destruct (rangeMinerDeals_result minerDeals deal None
              (after w [EvGetPieceInfoFromCid (ProviderDealState.PayloadCID deal)
                          (Params.PieceCID (ProviderDealState.Params deal))]))
    as (ask & c & evs & Heq & Hsaved).
  rewrite Heq. rewrite after_after.
  destruct ask as [ask |].
  2: { eexists _, _, c, _. split; [reflexivity |]. repeat split; done. }
  change (ProviderDealState.Params
            (ProviderDealState.set_SelStorageProposalCid c deal))
    with (ProviderDealState.Params deal).
  destruct (CheckDealParams _ _ _ _ _) as [e |].
  { eexists _, _, c, _. split; [reflexivity |]. repeat split; done. }
  unfold runDealDecisionLogic.
  change (ProviderDealState.UnsealPrice
            (ProviderDealState.set_SelStorageProposalCid c deal))
    with (ProviderDealState.UnsealPrice deal).
  destruct (ProviderRequestValidator.rdf rv) as [filter |].
  - unfold bind at 1, calling at 1, bind at 1, emit, ret.
    destruct (filter _) as [[accepted reason] err].
    rewrite after_after.
    destruct err as [e |].
    { eexists _, _, c, _. split; [reflexivity |].
      rewrite !savedStatuses_app, Hsaved. repeat split; done. }
    destruct accepted; cbn [negb].
    + destruct (ProviderDealState.UnsealPrice deal >? 0);
        eexists _, _, c, _; (split; [reflexivity |]);
        rewrite !savedStatuses_app, Hsaved; repeat split; done.
    + eexists _, _, c, _. split; [reflexivity |].
      rewrite !savedStatuses_app, Hsaved. repeat split; done.
  - unfold bind at 1, ret. cbn [negb].
    destruct (ProviderDealState.UnsealPrice deal >? 0);
      eexists _, _, c, _; (split; [reflexivity |]);
      rewrite !savedStatuses_app, Hsaved; repeat split; done.
Qed.

(** A new request that passes the CID check and the selector check is
    answered from the result of [acceptDeal]; the deal record is saved
    only when [acceptDeal] returns no error. *)
Lemma validatePull_new_request receiver proposal legacy baseCid selector w :
  requestMatches proposal baseCid selector ->
  validatePull rv false receiver proposal legacy baseCid selector w =
  let '(status, err, pds, w1) :=
    acceptDeal rv (newProviderDealState proposal receiver legacy) w in
  let response :=
    DealResponse.mk status (DealProposal.ID proposal)
      (if bool_decide (status = DealStatusFundsNeededUnseal)
       then Some (ProviderDealState.UnsealPrice pds) else None) "" in
  match err with
  | Some e => (Some (DealResponse.set_Message (Error_text e) response), err, w1)
  | None =>
      match nextSaveReply w1 with
      | Some e =>
          (Some (DealResponse.set_Message (Error_text e) response), Some e,
           afterSave w1 (recordToSave pds))
      | None => (Some response, Some ErrPause, afterSave w1 (recordToSave pds))
      end
  end.
Proof.
  intros (Hcid & Herr & Hbuf). unfold validatePull.
  rewrite bool_decide_eq_true_2 by exact Hcid. cbn [negb].
  destruct (dagcbor_Encode selector) as [buf err]. cbn [fst snd] in Herr, Hbuf.
  subst err buf. fold (expectedSelectorBytes proposal).
  unfold bytes_Equal. rewrite bool_decide_eq_true_2 by reflexivity.
  cbn [negb]. unfold bind at 1.
  destruct (acceptDeal rv _ w) as [[[status err] pds] w1].
  destruct err as [e |].
  { unfold ret. by destruct (bool_decide (status = DealStatusFundsNeededUnseal)). }
  unfold bind, SaveDeal, ret. fold (recordToSave pds).
  destruct (nextSaveReply w1);
    by destruct (bool_decide (status = DealStatusFundsNeededUnseal)).
Qed.

(** C3 (amended). A new request that passes the CID and selector checks,
    that [acceptDeal] lets through (no error, a status other than Errored)
    and whose proposal offers an unseal price greater than zero is
    answered with the status FundsNeededUnseal, and the payment owed is
    the unseal price of the proposal. *)
Theorem validatePull_funds_needed receiver proposal legacy baseCid selector w
    status pds w1 :
  requestMatches proposal baseCid selector ->
  acceptDeal rv (newProviderDealState proposal receiver legacy) w =
  (status, None, pds, w1) ->
  status <> DealStatusErrored ->
  0 < Params.UnsealPrice (DealProposal.Params proposal) ->
  exists response err w2,
    validatePull rv false receiver proposal legacy baseCid selector w =
    (Some response, err, w2) /\
    DealResponse.Status response = DealStatusFundsNeededUnseal /\
    DealResponse.PaymentOwed response =
    Some (Params.UnsealPrice (DealProposal.Params proposal)).
Proof.
  intros Hmatch Haccept Hstatus Hprice.
  rewrite (validatePull_new_request _ _ _ _ _ _ Hmatch).
  destruct (acceptDeal_result (newProviderDealState proposal receiver legacy) w)
    as (status' & err' & c & evs & Heq & _ & Hok & _).
  rewrite Haccept in Heq. injection Heq as <- <- -> ->.
  rewrite Haccept. cbv zeta.
  specialize (Hok eq_refl Hstatus).
  change (ProviderDealState.UnsealPrice
            (newProviderDealState proposal receiver legacy))
    with (Params.UnsealPrice (DealProposal.Params proposal)) in Hok.
  destruct (Z.gtb_spec (Params.UnsealPrice (DealProposal.Params proposal)) 0)
    as [_ | Hle]; [| lia].
  subst status. rewrite bool_decide_eq_true_2 by reflexivity.
  destruct (nextSaveReply _); eexists _, _, _; (split; [reflexivity |]);
    split; reflexivity.
Qed.

(** C5 (amended). For a new request that passes the CID and selector
    checks: when [acceptDeal] lets it through (no error, a status other
    than Errored), [validatePull] ends with one [SaveDeal] of the deal
    record, whose [TotalSent] is zero, whose status is FundsNeededUnseal
    when the proposal's unseal price is greater than zero and the initial
    status New otherwise, and whose [FundsReceived] is set to zero exactly
    when the unseal price is not greater than zero and left unset
    otherwise.  When [acceptDeal] returns an error, nothing is saved. *)
Theorem validatePull_persists receiver proposal legacy baseCid selector w
    status err pds w1 :
  let price := Params.UnsealPrice (DealProposal.Params proposal) in
  let run := validatePull rv false receiver proposal legacy baseCid selector w in
  requestMatches proposal baseCid selector ->
  acceptDeal rv (newProviderDealState proposal receiver legacy) w =
  (status, err, pds, w1) ->
  (err = None -> status <> DealStatusErrored ->
   run.2 = afterSave w1 (recordToSave pds) /\
   ProviderDealState.TotalSent (recordToSave pds) = 0%N /\
   ProviderDealState.Status (recordToSave pds) =
   (if price >? 0 then DealStatusFundsNeededUnseal else DealStatusNew) /\
   ProviderDealState.FundsReceived (recordToSave pds) =
   (if price >? 0 then None else Some 0)) /\
  (err <> None ->
   run.2 = w1 /\ exists evs, w1 = after w evs /\ savedStatuses evs = []).
Proof.
  intros price run Hmatch Haccept. subst run.
  rewrite (validatePull_new_request _ _ _ _ _ _ Hmatch).
  destruct (acceptDeal_result (newProviderDealState proposal receiver legacy) w)
    as (status' & err' & c & evs & Heq & Hsaved & _ & _).
  rewrite Haccept in Heq. injection Heq as <- <- -> ->.
  rewrite Haccept. cbv zeta. split.
  - intros -> _. split.
    { by destruct (nextSaveReply _). }
    unfold recordToSave.
    change (ProviderDealState.UnsealPrice
              (ProviderDealState.set_SelStorageProposalCid c
                 (newProviderDealState proposal receiver legacy)))
      with price.
    destruct (price >? 0); repeat split.
  - intros Herr. destruct err as [e |]; [| done].
    split; [reflexivity |]. by exists evs.
Qed.

(** C8 (amended). Validating a restart request runs no acceptance and
    saves nothing: the world is left as it was and no response is
    returned.  The error is nil exactly when the request passes the CID
    check and the selector check; a restart request that fails one of them
    is refused with an error. *)
Theorem validatePull_restart receiver proposal legacy baseCid selector w :
  let run := validatePull rv true receiver proposal legacy baseCid selector w in
  run.2 = w /\ run.1.1 = None /\
  (run.1.2 = None <-> requestMatches proposal baseCid selector).
Proof.
  cbv zeta. unfold validatePull, requestMatches.
  fold (expectedSelectorBytes proposal).
  destruct (decide (DealProposal.PayloadCID proposal = baseCid)) as [Hcid | Hcid].
  2: { rewrite bool_decide_eq_false_2 by exact Hcid. cbn.
       split; [done |]. split; [done |]. split; [done |].
       by intros (? & _). }
  rewrite bool_decide_eq_true_2 by exact Hcid. cbn [negb].
  destruct (dagcbor_Encode selector) as [buf err]. cbn [fst snd].
  destruct err as [e |].
  { cbn. split; [done |]. split; [done |]. split; [done |].
    by intros (_ & ? & _). }
  unfold bytes_Equal.
  destruct (decide (buf = expectedSelectorBytes proposal)) as [Hbuf | Hbuf].
  - rewrite bool_decide_eq_true_2 by exact Hbuf. cbn. repeat split; done.
  - rewrite bool_decide_eq_false_2 by exact Hbuf. cbn.
    split; [done |]. split; [done |]. split; [done |].
    by intros (_ & _ & ?).
Qed.

End ValidatorFacts.

(** *** The validator on sample requests *)
Section ValidatorSamples.
Import retrievalprovider.

(** C3, as stated, fails.  With an ask of 1 and an offer of 2 the response
    owes 2, the proposal's price, not the ask's 1; with an ask of 3 and an
    offer of 2 the request is rejected although the ask's unseal price is
    greater than zero. *)
Lemma validatePull_owes_proposal_price :
  RetrievalAsk.UnsealPrice (sampleAsk 1) = 1 /\
  DealResponse.Status <$> (newRequest 1 2).1.1 = Some DealStatusFundsNeededUnseal /\
  DealResponse.PaymentOwed <$> (newRequest 1 2).1.1 = Some (Some 2) /\
  DealResponse.PaymentOwed <$> (newRequest 1 2).1.1 <>
  Some (Some (RetrievalAsk.UnsealPrice (sampleAsk 1))) /\
  0 < RetrievalAsk.UnsealPrice (sampleAsk 3) /\
  DealResponse.Status <$> (newRequest 3 2).1.1 = Some DealStatusRejected.
Proof.
  split; [reflexivity |]. split; [vm_compute; reflexivity |].
  split; [vm_compute; reflexivity |]. split; [vm_compute; discriminate |].
  split; [reflexivity | vm_compute; reflexivity].
Qed.

Lemma validatePull_funds_needed_witness :
  exists response err w2,
    newRequest 1 2 = (Some response, err, w2) /\
    DealResponse.Status response = DealStatusFundsNeededUnseal /\
    DealResponse.PaymentOwed response = Some 2.
Proof.
  apply (@validatePull_funds_needed sampleImports (sampleValidator 1) "client"
           (sampleProposal 2) false "bafy-payload" allSelector
           (sampleWorld [] []) DealStatusFundsNeededUnseal
           (ProviderDealState.set_SelStorageProposalCid "bafy-storage-proposal"
              (@newProviderDealState (sampleProposal 2) "client" false))
           (after (sampleWorld [] [])
              [EvGetPieceInfoFromCid "bafy-payload" None;
               EvMinerProviderConfig "f01000"; EvGetAsk "f01000"])).
  - repeat split.
  - vm_compute. reflexivity.
  - discriminate.
  - reflexivity.
Defined.

(** C5, as stated, fails.  A request accepted with an unseal price of zero
    is answered with the status Accepted, yet the record that is saved
    carries the status New; a request that is rejected is not saved at
    all. *)
Lemma validatePull_saves_new_or_nothing :
  DealResponse.Status <$> (newRequest 0 0).1.1 = Some DealStatusAccepted /\
  savedStatuses (trace (newRequest 0 0).2) = [DealStatusNew] /\
  DealResponse.Status <$> (newRequest 3 2).1.1 = Some DealStatusRejected /\
  savedStatuses (trace (newRequest 3 2).2) = [].
Proof. repeat split; vm_compute; reflexivity. Qed.

Lemma validatePull_persists_witness :
  let accepted :=
    ProviderDealState.set_SelStorageProposalCid "bafy-storage-proposal"
      (@newProviderDealState (sampleProposal 0) "client" false) in
  let w1 :=
    after (sampleWorld [] [])
      [EvGetPieceInfoFromCid "bafy-payload" None;
       EvMinerProviderConfig "f01000"; EvGetAsk "f01000"] in
  ((newRequest 0 0).2 = afterSave w1 (recordToSave accepted) /\
   ProviderDealState.TotalSent (recordToSave accepted) = 0%N /\
   ProviderDealState.Status (recordToSave accepted) = DealStatusNew /\
   ProviderDealState.FundsReceived (recordToSave accepted) = Some 0) /\
  ((newRequest 3 2).2 = w1 /\
   exists evs, w1 = after (sampleWorld [] []) evs /\ savedStatuses evs = []).
Proof.
  cbv zeta. split.
  - apply (proj1 (@validatePull_persists sampleImports (sampleValidator 0)
                    "client" (sampleProposal 0) false "bafy-payload" allSelector
                    (sampleWorld [] []) DealStatusAccepted None _ _
                    ltac:(repeat split) ltac:(vm_compute; reflexivity)));
      [reflexivity | discriminate].
  - apply (proj2 (@validatePull_persists sampleImports (sampleValidator 3)
                    "client" (sampleProposal 2) false "bafy-payload" allSelector
                    (sampleWorld [] []) DealStatusRejected
                    (Some (errors_New "unseal price too small")) _ _
                    ltac:(repeat split) ltac:(vm_compute; reflexivity))).
    discriminate.
Defined.

(** C8, as stated, fails: a restart request whose base CID is not the
    payload CID of the proposal is answered with an error, not with the
    no-op decision. *)
Lemma validatePull_restart_refused :
  (@validatePull sampleImports (sampleValidator 1) true "client"
     (sampleProposal 2) false "bafy-other" allSelector (sampleWorld [] [])).1 =
  (None, Some (errors_New "incorrect CID for this proposal")) /\
  (@validatePull sampleImports (sampleValidator 1) true "client"
     (sampleProposal 2) false "bafy-other" allSelector (sampleWorld [] [])).1 <>
  (None, None).
Proof. split; [vm_compute; reflexivity | vm_compute; discriminate]. Qed.

End ValidatorSamples.

(** * Further properties *)

(** ** The deal handler on every input *)
Section HandlerInvariants.
Import retrievalprovider.
Variable p : RetrievalDealHandler.

Ltac count_calls :=
  repeat first [rewrite unsealCalls_app | rewrite unsealCalls_cons
               | rewrite unsealCalls_nil];
  cbn [isUnsealCall].

Lemma set_Status_twice s s' deal :
  ProviderDealState.set_Status s (ProviderDealState.set_Status s' deal) =
  ProviderDealState.set_Status s deal.
Proof. reflexivity. Qed.

Lemma failedCalls_cons reply replies :
  failedCalls (reply :: replies) =
  ((if bool_decide (reply.2 <> None) then 1 else 0) + failedCalls replies)%nat.
Proof.
  unfold failedCalls. simpl. by destruct (bool_decide (reply.2 <> None)).
Qed.

(** What a run of the polling loop consumes and records: a prefix of the
    replies of the unseal service, one call per reply, with no more failed
    calls than the bound leaves room for; the save script is not touched. *)
Lemma CheckLoop_consumes deal piece transfer rounds :
  forall count w,
    count <= errRetry ->
    exists exit w' used evs,
      CheckLoop deal piece transfer rounds count w = (exit, w') /\
      unsealReplies w = used ++ unsealReplies w' /\
      trace w' = trace w ++ evs /\
      saveDealReplies w' = saveDealReplies w /\
      unsealCalls evs = length used /\
      savedStatuses evs = [] /\
      count + Z.of_nat (failedCalls used) <= errRetry + 1.
Proof.
  induction rounds as [| rounds IH]; intros count w Hcount.
  { exists LoopPending, w, [], []. cbn. rewrite app_nil_r.
    split_and!; (done || lia). }
  cbn [CheckLoop]. unfold bind at 1, SectorsUnsealPiece.
  destruct (unsealReplies w) as [| [state err] rest] eqn:Hreplies.
  { exists LoopPending, w, [], []. cbn. rewrite app_nil_r, Hreplies.
    split_and!; (done || lia). }
  set (w1 := mkWorld _ _ _ _).
  set (count' := match err with Some _ => count + 1 | None => count end).
  assert (Hlog : exists evs1 w2,
             (match err with
              | Some _ => log Warn "unseal piece %s fail, retry (%d/%d): %w"
              | None => ret ()
              end) w1 = ((), w2) /\
             w2 = mkWorld (saveDealReplies w) rest (selectOutcomes w)
                    (trace w ++ evs1) /\
             unsealCalls evs1 = 1%nat /\ savedStatuses evs1 = []).
  { destruct err; eexists _, _; (split; [reflexivity |]); subst w1;
      unfold after; cbn [trace saveDealReplies unsealReplies selectOutcomes];
      rewrite <- ?app_assoc; split_and!; reflexivity. }
  destruct Hlog as (evs1 & w2 & Hlog & -> & Hcalls1 & Hsaved1).
  unfold bind at 1. rewrite Hlog.
  assert (Hfailed : count + Z.of_nat (failedCalls [(state, err)]) = count').
  { subst count'. unfold failedCalls. cbn.
    destruct err; [rewrite bool_decide_eq_true_2 by done
                  | rewrite bool_decide_eq_false_2 by (intros Hne; by apply Hne)];
      cbn; lia. }
  assert (Hcount' : count' <= errRetry + 1).
  { subst count'. destruct err; lia. }
  destruct (bool_decide (err <> None) && (count' >? errRetry)) eqn:Hover.
  { eexists _, _, [(state, err)], evs1. split; [reflexivity |].
    cbn [unsealReplies trace saveDealReplies app length].
    split_and!; (done || lia). }
  assert (Hle : count' <= errRetry).
  { apply andb_false_iff in Hover as [Hnil | Hgt].
    - apply bool_decide_eq_false in Hnil. subst count'.
      destruct err; [exfalso; by apply Hnil | lia].
    - destruct (Z.gtb_spec count' errRetry); [done | lia]. }
  unfold bind at 1, log, emit.
  assert (Hstop : forall exit w' evs2,
    unsealReplies w' = rest ->
    saveDealReplies w' = saveDealReplies w ->
    trace w' = (trace w ++ evs1) ++ evs2 ->
    unsealCalls evs2 = 0%nat -> savedStatuses evs2 = [] ->
    exists (exit0 : LoopExit) (w'' : World) used evs,
      ret exit w' = (exit0, w'') /\
      (state, err) :: rest = used ++ unsealReplies w'' /\
      trace w'' = trace w ++ evs /\
      saveDealReplies w'' = saveDealReplies w /\
      unsealCalls evs = length used /\
      savedStatuses evs = [] /\
      count + Z.of_nat (failedCalls used) <= errRetry + 1).
  { intros exit w' evs2 Hrest Hsv Htr Hcalls2 Hsaved2.
    exists exit, w', [(state, err)], (evs1 ++ evs2).
    split; [reflexivity |]. rewrite Hrest, Htr, Hsv, <- app_assoc.
    split_and!; try reflexivity.
    - count_calls. rewrite Hcalls1, Hcalls2. reflexivity.
    - by rewrite savedStatuses_app, Hsaved1, Hsaved2.
    - lia. }
  destruct state;
    [eapply Hstop; reflexivity | | eapply Hstop; reflexivity].
  unfold bind at 1, select. cbn [selectOutcomes after].
  destruct (selectOutcomes w) as [| outcome waits] eqn:Hsel;
    [eapply Hstop; reflexivity |].
  destruct outcome;
    [| eapply Hstop;
       [reflexivity | reflexivity
       | cbn [trace after]; rewrite <- app_assoc; reflexivity
       | reflexivity | reflexivity] ..].
  match goal with
  | |- context [CheckLoop deal piece transfer rounds count' ?w0] =>
      destruct (IH count' w0 Hle)
        as (exit & w' & used & evs & Heq & Hused & Htr & Hsv & Hcalls & Hsaved & Hbound)
  end.
  exists exit, w', ((UnsealStateInProgress, err) :: used). eexists.
  split; [exact Heq |].
  cbn [unsealReplies trace saveDealReplies after] in Hused, Htr, Hsv.
  split; [by rewrite Hused at 1 |].
  rewrite Htr, <- !app_assoc. cbn [app].
  split; [reflexivity |]. split; [exact Hsv |]. split.
  { count_calls. rewrite Hcalls1, Hcalls. cbn [length]. lia. }
  split.
  { rewrite savedStatuses_app, Hsaved1. cbn [app].
    unfold savedStatuses in *. cbn [flat_map app]. exact Hsaved. }
  rewrite failedCalls_cons. unfold failedCalls in Hfailed. cbn in Hfailed.
  cbn [snd]. destruct (bool_decide (err <> None)); cbn in Hfailed |- *; lia.
Qed.

(** *** The ways out of [UnsealData] before the polling loop *)

Lemma UnsealData_save_fails providerDeal w e :
  let unsealing :=
    ProviderDealState.set_Status DealStatusUnsealing providerDeal in
  nextSaveReply w = Some e ->
  UnsealData p providerDeal w =
  (Returned (Some e), unsealing, afterSave w unsealing).
Proof.
  intros unsealing Hsave. unfold UnsealData. fold unsealing.
  unfold bind at 1, SaveDeal. rewrite Hsave. reflexivity.
Qed.

Lemma UnsealData_GetDeal_fails providerDeal w e :
  let unsealing :=
    ProviderDealState.set_Status DealStatusUnsealing providerDeal in
  nextSaveReply w = None ->
  StorageDealRepo.GetDeal (RetrievalDealHandler.storageDealRepo p)
    (ProviderDealState.SelStorageProposalCid providerDeal) = inr e ->
  UnsealData p providerDeal w =
  (Returned (Some e), unsealing,
   after (afterSave w unsealing)
     [EvGetDeal (ProviderDealState.SelStorageProposalCid providerDeal)]).
Proof.
  intros unsealing Hsave Hdeal. unfold UnsealData. fold unsealing.
  unfold bind at 1, SaveDeal. rewrite Hsave.
  unfold bind at 1, calling at 1, bind at 1, emit, ret.
  change (ProviderDealState.SelStorageProposalCid unsealing)
    with (ProviderDealState.SelStorageProposalCid providerDeal).
  rewrite Hdeal. reflexivity.
Qed.

(** With the piece absent, [UnsealData] is the unsealing block followed by
    the preparation of the blockstore. *)
Lemma UnsealData_absent providerDeal w deal probeErr :
  let unsealing :=
    ProviderDealState.set_Status DealStatusUnsealing providerDeal in
  let pieceCid := StorageProposal.PieceCID (MinerDeal.Proposal deal) in
  nextSaveReply w = None ->
  StorageDealRepo.GetDeal (RetrievalDealHandler.storageDealRepo p)
    (ProviderDealState.SelStorageProposalCid providerDeal) = inl deal ->
  PieceStorageManager.FindStorageForRead
    (RetrievalDealHandler.pieceStorageMgr p) pieceCid = (None, probeErr) ->
  UnsealData p providerDeal w =
  let '(exit, w') :=
    tryUnseal p deal pieceCid
      (after (afterSave w unsealing)
         (probeEvents providerDeal pieceCid probeErr)) in
  match exit with
  | LoopBreak => finishUnseal p deal unsealing w'
  | LoopReturn err => (Returned err, unsealing, w')
  | LoopPending => (Pending, unsealing, w')
  end.
Proof.
  intros unsealing pieceCid Hsave Hdeal Hread.
  unfold UnsealData. fold unsealing. unfold bind at 1, SaveDeal.
  rewrite Hsave. unfold bind at 1, calling at 1, bind at 1, emit, ret.
  change (ProviderDealState.SelStorageProposalCid unsealing)
    with (ProviderDealState.SelStorageProposalCid providerDeal).
  rewrite Hdeal. fold pieceCid.
  unfold bind at 1, calling at 1, bind at 1, emit, ret.
  rewrite Hread. unfold bind at 1.
  assert (Hlog :
    (match probeErr with
     | Some _ => log Info "try to find piece  fail: %w"
     | None => fun w0 => ((), w0)
     end) (after (after (afterSave w unsealing)
                    [EvGetDeal (ProviderDealState.SelStorageProposalCid providerDeal)])
             [EvFindStorageForRead pieceCid]) =
    (tt, after (afterSave w unsealing)
           (probeEvents providerDeal pieceCid probeErr))).
  { unfold probeEvents. destruct probeErr; unfold log, emit;
      rewrite !after_after; simpl; by rewrite ?app_nil_r. }
  rewrite Hlog. unfold bind at 1.
  destruct (tryUnseal p deal pieceCid _) as [exit w'].
  destruct exit; reflexivity.
Qed.

Lemma tryUnseal_write_fails deal piece w e :
  let size := int64 (StorageProposal.PieceSize (MinerDeal.Proposal deal)) in
  PieceStorageManager.FindStorageForWrite
    (RetrievalDealHandler.pieceStorageMgr p) size = inr e ->
  tryUnseal p deal piece w =
  (LoopReturn
     (Some (fmt_Errorf
              ("failed to find storage to write " +:+
               StorageProposal.PieceCID (MinerDeal.Proposal deal) +:+ ": ") e)),
   after w [EvFindStorageForWrite size]).
Proof.
  intros size Hwrite. unfold tryUnseal. fold size.
  unfold bind at 1, calling at 1, bind at 1, emit, ret. rewrite Hwrite.
  reflexivity.
Qed.

Lemma tryUnseal_transfer_fails deal piece w wps e :
  let size := int64 (StorageProposal.PieceSize (MinerDeal.Proposal deal)) in
  PieceStorageManager.FindStorageForWrite
    (RetrievalDealHandler.pieceStorageMgr p) size = inl wps ->
  IPieceStorage.GetPieceTransfer wps piece = inr e ->
  tryUnseal p deal piece w =
  (LoopReturn
     (Some (fmt_Errorf ("get piece transfer for " +:+ piece +:+ ": ") e)),
   after w [EvFindStorageForWrite size; EvGetPieceTransfer piece]).
Proof.
  intros size Hwrite Htransfer. unfold tryUnseal. fold size.
  unfold bind at 1, calling at 1, bind at 1, emit, ret. rewrite Hwrite.
  unfold bind at 1, calling at 1, bind at 1, emit, ret. rewrite Htransfer.
  unfold ret. by rewrite after_after.
Qed.

(** What the unsealing block consumes and records, whichever way it is
    left. *)
Lemma tryUnseal_consumes deal piece w :
  exists exit w' used evs,
    tryUnseal p deal piece w = (exit, w') /\
    unsealReplies w = used ++ unsealReplies w' /\
    trace w' = trace w ++ evs /\
    saveDealReplies w' = saveDealReplies w /\
    unsealCalls evs = length used /\
    savedStatuses evs = [] /\
    (failedCalls used <= 6)%nat.
Proof.
  destruct (PieceStorageManager.FindStorageForWrite
              (RetrievalDealHandler.pieceStorageMgr p)
              (int64 (StorageProposal.PieceSize (MinerDeal.Proposal deal))))
    as [wps | e] eqn:Hwrite.
  2: { rewrite (tryUnseal_write_fails deal piece w e Hwrite).
       eexists _, _, [], _. split; [reflexivity |].
       cbn [after unsealReplies trace saveDealReplies app].
       split_and!; try reflexivity. unfold failedCalls. cbn. lia. }
  destruct (IPieceStorage.GetPieceTransfer wps piece) as [transfer | e]
    eqn:Htransfer.
  2: { rewrite (tryUnseal_transfer_fails deal piece w wps e Hwrite Htransfer).
       eexists _, _, [], _. split; [reflexivity |].
       cbn [after unsealReplies trace saveDealReplies app].
       split_and!; try reflexivity. unfold failedCalls. cbn. lia. }
  unfold tryUnseal.
  unfold bind at 1, calling at 1, bind at 1, emit, ret. rewrite Hwrite.
  unfold bind at 1, calling at 1, bind at 1, emit, ret. rewrite Htransfer.
  unfold bind at 1, log, emit. unfold bind at 1.
  rewrite !after_after. cbn [app].
  match goal with
  | |- context [CheckLoop ?d ?c ?t ?r 0 ?w0] =>
      destruct (CheckLoop_consumes d c t r 0 w0)
        as (exit & w' & used & evs & Heq & Hused & Htr & Hsv & Hcalls & Hsaved & Hbound);
        [unfold errRetry; lia |]; rewrite Heq
  end.
  cbn [unsealReplies trace saveDealReplies after] in Hused, Htr, Hsv.
  unfold errRetry in Hbound.
  destruct exit; unfold bind, ret, emit; eexists _, _, used, _;
    (split; [reflexivity |]);
    cbn [after unsealReplies trace saveDealReplies];
    rewrite Htr, Hsv, <- ?app_assoc;
    (split_and!; [exact Hused | reflexivity | reflexivity | | | lia]);
    try (count_calls; rewrite Hcalls; lia);
    rewrite ?savedStatuses_app, Hsaved; reflexivity.
Qed.

(** What the steps from the preparation of the blockstore on record: they
    never call the unseal service, and they change the status of the deal
    and nothing else. *)
Lemma finishUnseal_shape deal providerDeal w :
  exists out status w' evs,
    finishUnseal p deal providerDeal w =
    (out, ProviderDealState.set_Status status providerDeal, w') /\
    (status = DealStatusUnsealed \/ status = DealStatusErrored \/
     status = DealStatusCancelled) /\
    unsealReplies w' = unsealReplies w /\
    trace w' = trace w ++ evs /\
    unsealCalls evs = 0%nat.
Proof.
  destruct (ProviderDealEnvironment.PrepareBlockstore (RetrievalDealHandler.env p)
              (ProviderDealState.ID providerDeal)
              (StorageProposal.PieceCID (MinerDeal.Proposal deal)))
    as [e |] eqn:Hprep.
  - rewrite (finishUnseal_prepare_fails p deal providerDeal w e Hprep).
    rewrite CancelDeal_result. cbv zeta.
    eexists _, _, _, _. split; [reflexivity |].
    cbn [unsealReplies trace afterSave after]. rewrite <- !app_assoc.
    split_and!; try reflexivity.
    + destruct (teardownFails p providerDeal); tauto.
    + count_calls. rewrite unsealCalls_teardownEvents. reflexivity.
  - unfold finishUnseal, calling, log, SaveDeal, bind, emit, ret.
    rewrite Hprep. cbn beta iota.
    destruct (nextSaveReply _) as [e |].
    { eexists _, DealStatusUnsealed, _, _. split; [reflexivity |].
      cbn [unsealReplies trace afterSave after]. rewrite <- !app_assoc.
      split_and!; try reflexivity. tauto. }
    change (ProviderDealState.ChannelID
              (ProviderDealState.set_Status DealStatusUnsealed providerDeal))
      with (ProviderDealState.ChannelID providerDeal).
    destruct (ProviderDealState.ChannelID providerDeal) as [channel |].
    + destruct (ProviderDealEnvironment.ResumeDataTransfer _ channel).
      * eexists _, DealStatusErrored, _, _. split; [reflexivity |].
        cbn [unsealReplies trace afterSave after]. rewrite <- !app_assoc.
        split_and!; try reflexivity. tauto.
      * eexists _, DealStatusUnsealed, _, _. split; [reflexivity |].
        cbn [unsealReplies trace afterSave after]. rewrite <- !app_assoc.
        split_and!; try reflexivity. tauto.
    + eexists _, DealStatusUnsealed, _, _. split; [reflexivity |].
      cbn [unsealReplies trace afterSave after]. rewrite <- !app_assoc.
      split_and!; try reflexivity. tauto.
Qed.

(** Every run of [UnsealData] at once: it begins with the save of the deal
    as Unsealing, changes nothing in the deal but its status, and calls
    the unseal service once per reply it consumes, with at most six failed
    calls among them. *)
Lemma UnsealData_shape providerDeal w :
  exists out status w' used evs,
    UnsealData p providerDeal w =
    (out, ProviderDealState.set_Status status providerDeal, w') /\
    unsealDataStatus status /\
    unsealReplies w = used ++ unsealReplies w' /\
    trace w' =
    trace w ++
    EvSaveDeal (ProviderDealState.set_Status DealStatusUnsealing providerDeal)
      (nextSaveReply w) :: evs /\
    unsealCalls evs = length used /\
    (failedCalls used <= 6)%nat.
Proof.
  set (unsealing := ProviderDealState.set_Status DealStatusUnsealing providerDeal).
  destruct (nextSaveReply w) as [e |] eqn:Hsave.
  { rewrite (UnsealData_save_fails providerDeal w e Hsave). cbv zeta.
    fold unsealing. eexists _, DealStatusUnsealing, _, [], [].
    split; [reflexivity |]. unfold unsealDataStatus.
    cbn [afterSave unsealReplies trace app]. rewrite Hsave.
    split_and!; try reflexivity; [tauto | unfold failedCalls; cbn; lia]. }
  destruct (StorageDealRepo.GetDeal (RetrievalDealHandler.storageDealRepo p)
              (ProviderDealState.SelStorageProposalCid providerDeal))
    as [deal | e] eqn:Hdeal.
  2: { rewrite (UnsealData_GetDeal_fails providerDeal w e Hsave Hdeal). cbv zeta.
       fold unsealing. eexists _, DealStatusUnsealing, _, [], _.
       split; [reflexivity |]. unfold unsealDataStatus.
       cbn [after afterSave unsealReplies trace app]. rewrite Hsave, <- app_assoc.
       split_and!; try reflexivity; [tauto | unfold failedCalls; cbn; lia]. }
  destruct (PieceStorageManager.FindStorageForRead
              (RetrievalDealHandler.pieceStorageMgr p)
              (StorageProposal.PieceCID (MinerDeal.Proposal deal)))
    as [st probeErr] eqn:Hread.
  assert (Hprobe : unsealCalls
            (probeEvents providerDeal
               (StorageProposal.PieceCID (MinerDeal.Proposal deal)) probeErr) = 0%nat).
  { unfold probeEvents. by destruct probeErr. }
  destruct st as [st |].
  - rewrite (UnsealData_fast_path p providerDeal w deal st probeErr Hsave Hdeal Hread).
    cbv zeta. fold unsealing.
    match goal with
    | |- context [finishUnseal p deal unsealing ?w0] =>
        destruct (finishUnseal_shape deal unsealing w0)
          as (out & status & w' & evs & Heq & Hstatus & Hrep & Htr & Hcalls)
    end.
    rewrite Heq. subst unsealing. rewrite set_Status_twice.
    eexists out, status, w', [], _. split; [reflexivity |].
    rewrite Hrep, Htr. cbn [after afterSave unsealReplies trace app].
    rewrite Hsave, <- !app_assoc. cbn [app].
    split_and!; try reflexivity.
    + unfold unsealDataStatus. tauto.
    + count_calls. rewrite Hprobe, Hcalls. reflexivity.
    + unfold failedCalls. cbn. lia.
  - rewrite (UnsealData_absent providerDeal w deal probeErr Hsave Hdeal Hread).
    cbv zeta. fold unsealing.
    match goal with
    | |- context [tryUnseal p deal ?c ?w0] =>
        destruct (tryUnseal_consumes deal c w0)
          as (exit & w1 & used & evs & Heq & Hused & Htr & Hsv & Hcalls & _ & Hbound)
    end.
    rewrite Heq.
    cbn [after afterSave unsealReplies trace saveDealReplies] in Hused, Htr.
    rewrite Hsave, <- !app_assoc in Htr. cbn [app] in Htr.
    destruct exit.
    + destruct (finishUnseal_shape deal unsealing w1)
        as (out & status & w' & evs' & Heq' & Hstatus & Hrep & Htr' & Hcalls').
      rewrite Heq'. subst unsealing. rewrite set_Status_twice.
      eexists out, status, w', used, _. split; [reflexivity |].
      rewrite Hrep, Htr', Htr, <- !app_assoc. cbn [app].
      split_and!; try reflexivity; try done.
      * unfold unsealDataStatus. tauto.
      * count_calls. rewrite Hprobe, Hcalls, Hcalls'. lia.
    + eexists _, DealStatusUnsealing, w1, used, _. split; [reflexivity |].
      rewrite Htr. split_and!; try reflexivity; try done.
      * unfold unsealDataStatus. tauto.
      * count_calls. rewrite Hprobe, Hcalls. lia.
    + eexists _, DealStatusUnsealing, w1, used, _. split; [reflexivity |].
      rewrite Htr. split_and!; try reflexivity; try done.
      * unfold unsealDataStatus. tauto.
      * count_calls. rewrite Hprobe, Hcalls. lia.
Qed.

(** X1. On every input, [UnsealData] calls the unseal service once for
    each reply it consumes, and at most six of the calls it makes fail:
    failed calls are counted over the whole polling, with successful
    rounds in between or not. *)
Theorem UnsealData_failed_calls_bounded providerDeal w :
  exists used evs,
    unsealReplies w = used ++ unsealReplies (UnsealData p providerDeal w).2 /\
    trace (UnsealData p providerDeal w).2 = trace w ++ evs /\
    unsealCalls evs = length used /\
    (failedCalls used <= 6)%nat.
Proof.
  destruct (UnsealData_shape providerDeal w)
    as (out & status & w' & used & evs & Heq & _ & Hused & Htr & Hcalls & Hbound).
  rewrite Heq. cbn [snd]. exists used. eexists.
  split; [exact Hused |]. split; [exact Htr |]. split; [| exact Hbound].
  count_calls. exact Hcalls.
Qed.

(** X2. On every input, [UnsealData] leaves the deal record as it was but
    for the status, which is Unsealing, Unsealed, Errored or Cancelled;
    in particular no failure is written to the message of the deal. *)
Theorem UnsealData_changes_status_only providerDeal w :
  exists status,
    (UnsealData p providerDeal w).1.2 =
    ProviderDealState.set_Status status providerDeal /\
    unsealDataStatus status.
Proof.
  destruct (UnsealData_shape providerDeal w)
    as (out & status & w' & used & evs & Heq & Hstatus & _).
  rewrite Heq. by exists status.
Qed.

(** X3. On every input, the first call [UnsealData] makes is the save of
    the deal with the status Unsealing; no collaborator is called before
    it. *)
Theorem UnsealData_saves_unsealing_first providerDeal w :
  exists evs,
    trace (UnsealData p providerDeal w).2 =
    trace w ++
    EvSaveDeal (ProviderDealState.set_Status DealStatusUnsealing providerDeal)
      (nextSaveReply w) :: evs.
Proof.
  destruct (UnsealData_shape providerDeal w)
    as (out & status & w' & used & evs & Heq & _ & _ & Htr & _).
  rewrite Heq. by exists evs.
Qed.

(** X4. A failure of a repository ends [UnsealData] at once with the
    repository's own error: when the first save fails nothing else is
    called, and when the storage deal cannot be found the lookup is the
    only call after the save. *)
Theorem UnsealData_repository_failure providerDeal w :
  let unsealing :=
    ProviderDealState.set_Status DealStatusUnsealing providerDeal in
  (forall e,
      nextSaveReply w = Some e ->
      UnsealData p providerDeal w =
      (Returned (Some e), unsealing, afterSave w unsealing)) /\
  (forall e,
      nextSaveReply w = None ->
      StorageDealRepo.GetDeal (RetrievalDealHandler.storageDealRepo p)
        (ProviderDealState.SelStorageProposalCid providerDeal) = inr e ->
      UnsealData p providerDeal w =
      (Returned (Some e), unsealing,
       after (afterSave w unsealing)
         [EvGetDeal (ProviderDealState.SelStorageProposalCid providerDeal)])).
Proof.
  cbv zeta. split.
  - intros e Hsave. by apply UnsealData_save_fails.
  - intros e Hsave Hdeal. by apply UnsealData_GetDeal_fails.
Qed.

Lemma errors_Is_same e : errors_Is e e = true.
Proof. destruct e; cbn; by rewrite bool_decide_eq_true_2. Qed.

Lemma errors_Is_wrapped prefix e target :
  errors_Is e target = true -> errors_Is (fmt_Errorf prefix e) target = true.
Proof. intros He. cbn. rewrite He. by destruct (bool_decide _). Qed.

(** X5. With the piece absent, a failure to choose a backend to write to,
    or to get the transfer endpoint of the chosen backend, ends
    [UnsealData] with an error that wraps the failure.  The unseal service
    is not called, and the deal, saved once as Unsealing, is not saved
    again. *)
Theorem UnsealData_storage_failure providerDeal w deal probeErr e :
  let unsealing :=
    ProviderDealState.set_Status DealStatusUnsealing providerDeal in
  let pieceCid := StorageProposal.PieceCID (MinerDeal.Proposal deal) in
  let size := int64 (StorageProposal.PieceSize (MinerDeal.Proposal deal)) in
  let mgr := RetrievalDealHandler.pieceStorageMgr p in
  nextSaveReply w = None ->
  StorageDealRepo.GetDeal (RetrievalDealHandler.storageDealRepo p)
    (ProviderDealState.SelStorageProposalCid providerDeal) = inl deal ->
  PieceStorageManager.FindStorageForRead mgr pieceCid = (None, probeErr) ->
  PieceStorageManager.FindStorageForWrite mgr size = inr e \/
  (exists wps,
      PieceStorageManager.FindStorageForWrite mgr size = inl wps /\
      IPieceStorage.GetPieceTransfer wps pieceCid = inr e) ->
  exists err evs,
    (UnsealData p providerDeal w).1 = (Returned (Some err), unsealing) /\
    errors_Is err e = true /\
    trace (UnsealData p providerDeal w).2 = trace w ++ evs /\
    unsealCalls evs = 0%nat /\
    savedStatuses evs = [DealStatusUnsealing] /\
    unsealReplies (UnsealData p providerDeal w).2 = unsealReplies w.
Proof.
  intros unsealing pieceCid size mgr Hsave Hdeal Hread Hfail.
  rewrite (UnsealData_absent providerDeal w deal probeErr Hsave Hdeal Hread).
  cbv zeta. fold unsealing pieceCid.
  assert (Hprobe :
    unsealCalls (probeEvents providerDeal pieceCid probeErr) = 0%nat /\
    savedStatuses (probeEvents providerDeal pieceCid probeErr) = []).
  { unfold probeEvents. by destruct probeErr. }
  destruct Hprobe as [Hcalls Hsaved].
  destruct Hfail as [Hwrite | (wps & Hwrite & Htransfer)].
  - rewrite (tryUnseal_write_fails deal pieceCid _ e Hwrite).
    eexists _, _. split; [reflexivity |].
    split; [apply errors_Is_wrapped, errors_Is_same |].
    cbn [snd trace unsealReplies after afterSave]. rewrite <- !app_assoc.
    split; [reflexivity |]. split.
    + count_calls. rewrite Hcalls. reflexivity.
    + split; [| reflexivity]. cbn [app].
      change (EvSaveDeal unsealing (nextSaveReply w) :: ?l)
        with ([EvSaveDeal unsealing (nextSaveReply w)] ++ l).
      rewrite !savedStatuses_app, Hsaved. reflexivity.
  - rewrite (tryUnseal_transfer_fails deal pieceCid _ wps e Hwrite Htransfer).
    eexists _, _. split; [reflexivity |].
    split; [apply errors_Is_wrapped, errors_Is_same |].
    cbn [snd trace unsealReplies after afterSave]. rewrite <- !app_assoc.
    split; [reflexivity |]. split.
    + count_calls. rewrite Hcalls. reflexivity.
    + split; [| reflexivity]. cbn [app].
      change (EvSaveDeal unsealing (nextSaveReply w) :: ?l)
        with ([EvSaveDeal unsealing (nextSaveReply w)] ++ l).
      rewrite !savedStatuses_app, Hsaved. reflexivity.
Qed.

(** A first round whose reply carries a terminal state ends the loop
    without a wait: Failed returns an error, Finished breaks. *)
Lemma CheckLoop_terminal_round deal piece transfer rounds w err rest :
  let wrapped :=
    match err with
    | Some e => Some (fmt_Errorf ("unseal piece " +:+ piece +:+ ": ") e)
    | None => None
    end in
  let w' :=
    mkWorld (saveDealReplies w) rest (selectOutcomes w)
      (trace w ++
       EvSectorsUnsealPiece
         (StorageProposal.Provider (MinerDeal.Proposal deal)) piece
         (MinerDeal.SectorNumber deal) (Unpadded (MinerDeal.Offset deal))
         (Unpadded (StorageProposal.PieceSize (MinerDeal.Proposal deal)))
         transfer ::
       match err with
       | Some _ => [EvLog Warn "unseal piece %s fail, retry (%d/%d): %w"]
       | None => []
       end ++ [EvLog Debug "unseal piece %s: %s"]) in
  (unsealReplies w = (UnsealStateFailed, err) :: rest ->
   CheckLoop deal piece transfer (S rounds) 0 w =
   (LoopReturn (Some (Errorf ("unseal piece " +:+ piece +:+ " fail: ") wrapped)),
    w')) /\
  (unsealReplies w = (UnsealStateFinished, err) :: rest ->
   CheckLoop deal piece transfer (S rounds) 0 w = (LoopBreak, w')).
Proof.
  cbv zeta. split; intros Hr; cbn [CheckLoop]; unfold bind at 1;
    (erewrite SectorsUnsealPiece_reply by exact Hr);
    destruct err; unfold bind, log, emit, ret, after, errRetry; cbn;
    rewrite ?(eq_refl : (0 + 1 >? 5) = false); cbn;
    rewrite <- ?app_assoc; reflexivity.
Qed.

(** X6. When the first reply of the unseal service carries a terminal
    state, the polling ends without waiting, whether or not the call
    also returned an error.  The state Failed makes [UnsealData] return an
    error (one that wraps the error of the call when there is one) and
    leaves the deal Unsealing; the state Finished takes [UnsealData] on to
    the preparation of the blockstore, the error of the call, if any,
    being dropped. *)
Theorem UnsealData_terminal_state providerDeal w deal wps pieceTransfer probeErr
    err rest :
  let unsealing :=
    ProviderDealState.set_Status DealStatusUnsealing providerDeal in
  let pieceCid := StorageProposal.PieceCID (MinerDeal.Proposal deal) in
  let size := int64 (StorageProposal.PieceSize (MinerDeal.Proposal deal)) in
  let mgr := RetrievalDealHandler.pieceStorageMgr p in
  nextSaveReply w = None ->
  StorageDealRepo.GetDeal (RetrievalDealHandler.storageDealRepo p)
    (ProviderDealState.SelStorageProposalCid providerDeal) = inl deal ->
  PieceStorageManager.FindStorageForRead mgr pieceCid = (None, probeErr) ->
  PieceStorageManager.FindStorageForWrite mgr size = inl wps ->
  IPieceStorage.GetPieceTransfer wps pieceCid = inl pieceTransfer ->
  (unsealReplies w = (UnsealStateFailed, err) :: rest ->
   exists failure w1,
     UnsealData p providerDeal w = (Returned (Some failure), unsealing, w1) /\
     (forall e, err = Some e -> errors_Is failure e = true) /\
     unsealReplies w1 = rest /\ selectOutcomes w1 = selectOutcomes w) /\
  (unsealReplies w = (UnsealStateFinished, err) :: rest ->
   exists w1,
     UnsealData p providerDeal w = finishUnseal p deal unsealing w1 /\
     unsealReplies w1 = rest /\ selectOutcomes w1 = selectOutcomes w).
Proof.
  intros unsealing pieceCid size mgr Hsave Hdeal Hread Hwrite Htransfer.
  pose proof (UnsealData_enters_loop p providerDeal w deal wps pieceTransfer
                probeErr Hsave Hdeal Hread Hwrite Htransfer) as Hloop.
  cbv zeta in Hloop. fold unsealing pieceCid size in Hloop.
  split; intros Hr; rewrite Hr in Hloop; cbn [length] in Hloop.
  - erewrite (proj1 (CheckLoop_terminal_round deal pieceCid pieceTransfer
                       (length rest) _ err rest)) in Hloop by exact Hr.
    eexists _, _. split; [exact Hloop |]. split; [| split; reflexivity].
    intros e ->. cbn [Errorf]. apply errors_Is_wrapped, errors_Is_wrapped,
      errors_Is_same.
  - erewrite (proj2 (CheckLoop_terminal_round deal pieceCid pieceTransfer
                       (length rest) _ err rest)) in Hloop by exact Hr.
    eexists. split; [exact Hloop |]. split; reflexivity.
Qed.

(** X7. When the piece is present, the blockstore is prepared and the
    saves succeed but resuming the transfer of the deal's channel fails,
    the deal is saved as Unsealing, as Unsealed and then as Errored, and
    [UnsealData] returns nil: the error of the resume is not returned. *)
Theorem UnsealData_resume_failure providerDeal w deal st probeErr channel e :
  let pieceCid := StorageProposal.PieceCID (MinerDeal.Proposal deal) in
  let env := RetrievalDealHandler.env p in
  savesSucceed w ->
  StorageDealRepo.GetDeal (RetrievalDealHandler.storageDealRepo p)
    (ProviderDealState.SelStorageProposalCid providerDeal) = inl deal ->
  PieceStorageManager.FindStorageForRead
    (RetrievalDealHandler.pieceStorageMgr p) pieceCid = (Some st, probeErr) ->
  ProviderDealEnvironment.PrepareBlockstore env
    (ProviderDealState.ID providerDeal) pieceCid = None ->
  ProviderDealState.ChannelID providerDeal = Some channel ->
  ProviderDealEnvironment.ResumeDataTransfer env channel = Some e ->
  (UnsealData p providerDeal w).1 =
  (Returned None,
   ProviderDealState.set_Status DealStatusErrored providerDeal) /\
  exists evs,
    trace (UnsealData p providerDeal w).2 = trace w ++ evs /\
    savedStatuses evs =
    [DealStatusUnsealing; DealStatusUnsealed; DealStatusErrored].
Proof.
  intros pieceCid env Hsaves Hdeal Hread Hprep Hchannel Hresume.
  rewrite (UnsealData_fast_path p providerDeal w deal st probeErr
             (savesSucceed_next w Hsaves) Hdeal Hread).
  cbv zeta. fold pieceCid.
  assert (Hprobe : savedStatuses (probeEvents providerDeal pieceCid probeErr) = []).
  { unfold probeEvents. by destruct probeErr. }
  unfold finishUnseal, calling, log, SaveDeal, bind, emit, ret.
  change (ProviderDealState.ID
            (ProviderDealState.set_Status DealStatusUnsealing providerDeal))
    with (ProviderDealState.ID providerDeal).
  fold env pieceCid. rewrite Hprep. cbn beta iota.
  rewrite savesSucceed_next
    by auto using savesSucceed_after, savesSucceed_afterSave.
  change (ProviderDealState.ChannelID
            (ProviderDealState.set_Status DealStatusUnsealed
               (ProviderDealState.set_Status DealStatusUnsealing providerDeal)))
    with (ProviderDealState.ChannelID providerDeal).
  rewrite Hchannel. cbn beta iota. rewrite Hresume. cbn beta iota.
  rewrite savesSucceed_next
    by auto 10 using savesSucceed_after, savesSucceed_afterSave.
  split; [reflexivity |].
  eexists. cbn [snd trace after afterSave]. rewrite <- !app_assoc.
  split; [reflexivity |].
  rewrite !savedStatuses_app, Hprobe. reflexivity.
Qed.

(** X8. Teardown never reports its own failure.  [CancelDeal] and
    [CleanupDeal] end, on every input, with exactly one save of the deal
    and return the reply of that save; the deal is changed in its status
    only (Errored when teardown fails, otherwise Cancelled or Completed),
    so the error of a failed teardown is neither returned nor written to
    the message.  [CleanupDeal] does not close the transfer channel. *)
Theorem teardown_outcome deal w :
  let id := ProviderDealState.ID deal in
  let cancelled :=
    ProviderDealState.set_Status
      (if teardownFails p deal then DealStatusErrored else DealStatusCancelled)
      deal in
  let completed :=
    ProviderDealState.set_Status
      (match ProviderDealEnvironment.DeleteStore (RetrievalDealHandler.env p) id with
       | Some _ => DealStatusErrored
       | None => DealStatusCompleted
       end) deal in
  CancelDeal p deal w =
  (nextSaveReply w, cancelled,
   afterSave (after w (teardownEvents p deal)) cancelled) /\
  CleanupDeal p deal w =
  (nextSaveReply w, completed,
   afterSave (after w [EvDeleteStore id]) completed) /\
  ProviderDealState.Message cancelled = ProviderDealState.Message deal /\
  ProviderDealState.Message completed = ProviderDealState.Message deal.
Proof.
  cbv zeta. split; [apply CancelDeal_result |]. split; [| split; reflexivity].
  unfold CleanupDeal, Error, calling, bind, emit, ret, SaveDeal.
  destruct (ProviderDealEnvironment.DeleteStore _ _); reflexivity.
Qed.

End HandlerInvariants.

(** *** The handler's failure paths on sample worlds *)
Section HandlerFailureSamples.
Import retrievalprovider.

Lemma UnsealData_repository_failure_witness :
  UnsealData (sampleHandler quietEnv absent) (sampleProviderDeal None)
    (mkWorld [Some timeout] [] [] []) =
  (Returned (Some timeout),
   ProviderDealState.set_Status DealStatusUnsealing (sampleProviderDeal None),
   afterSave (mkWorld [Some timeout] [] [] [])
     (ProviderDealState.set_Status DealStatusUnsealing (sampleProviderDeal None))).
Proof.
  apply (proj1 (UnsealData_repository_failure (sampleHandler quietEnv absent)
                  (sampleProviderDeal None) (mkWorld [Some timeout] [] [] []))
           timeout).
  reflexivity.
Defined.

Lemma UnsealData_storage_failure_witness :
  (exists err evs,
      (UnsealData (sampleHandlerWriting quietEnv absent (inr noRoom))
         (sampleProviderDeal None) (sampleWorld [] [])).1 =
      (Returned (Some err),
       ProviderDealState.set_Status DealStatusUnsealing (sampleProviderDeal None)) /\
      errors_Is err noRoom = true /\
      trace (UnsealData (sampleHandlerWriting quietEnv absent (inr noRoom))
               (sampleProviderDeal None) (sampleWorld [] [])).2 = [] ++ evs /\
      unsealCalls evs = 0%nat /\
      savedStatuses evs = [DealStatusUnsealing] /\
      unsealReplies
        (UnsealData (sampleHandlerWriting quietEnv absent (inr noRoom))
           (sampleProviderDeal None) (sampleWorld [] [])).2 = []) /\
  (exists err evs,
      (UnsealData (sampleHandlerWriting quietEnv absent (inl brokenStorage))
         (sampleProviderDeal None) (sampleWorld [] [])).1 =
      (Returned (Some err),
       ProviderDealState.set_Status DealStatusUnsealing (sampleProviderDeal None)) /\
      errors_Is err timeout = true /\
      trace (UnsealData (sampleHandlerWriting quietEnv absent (inl brokenStorage))
               (sampleProviderDeal None) (sampleWorld [] [])).2 = [] ++ evs /\
      unsealCalls evs = 0%nat /\
      savedStatuses evs = [DealStatusUnsealing] /\
      unsealReplies
        (UnsealData (sampleHandlerWriting quietEnv absent (inl brokenStorage))
           (sampleProviderDeal None) (sampleWorld [] [])).2 = []).
Proof.
  split.
  - apply (UnsealData_storage_failure
             (sampleHandlerWriting quietEnv absent (inr noRoom))
             (sampleProviderDeal None) (sampleWorld [] []) sampleMinerDeal
             (Some (errors_New "unable to find piece in storage")) noRoom
             eq_refl eq_refl eq_refl).
    left. reflexivity.
  - apply (UnsealData_storage_failure
             (sampleHandlerWriting quietEnv absent (inl brokenStorage))
             (sampleProviderDeal None) (sampleWorld [] []) sampleMinerDeal
             (Some (errors_New "unable to find piece in storage")) timeout
             eq_refl eq_refl eq_refl).
    right. exists brokenStorage. split; reflexivity.
Defined.

Lemma UnsealData_terminal_state_witness :
  (exists failure w1,
      UnsealData (sampleHandler quietEnv absent) (sampleProviderDeal None)
        (sampleWorld [(UnsealStateFailed, None); (UnsealStateFinished, None)]
           [TickerFired]) =
      (Returned (Some failure),
       ProviderDealState.set_Status DealStatusUnsealing (sampleProviderDeal None),
       w1) /\
      (forall e, @None error = Some e -> errors_Is failure e = true) /\
      unsealReplies w1 = [(UnsealStateFinished, None)] /\
      selectOutcomes w1 = [TickerFired]) /\
  (exists w1,
      UnsealData (sampleHandler quietEnv absent) (sampleProviderDeal None)
        (sampleWorld [(UnsealStateFinished, Some timeout)] [TickerFired]) =
      finishUnseal (sampleHandler quietEnv absent) sampleMinerDeal
        (ProviderDealState.set_Status DealStatusUnsealing (sampleProviderDeal None))
        w1 /\
      unsealReplies w1 = [] /\ selectOutcomes w1 = [TickerFired]).
Proof.
  split.
  - apply (proj1 (UnsealData_terminal_state (sampleHandler quietEnv absent)
                    (sampleProviderDeal None)
                    (sampleWorld
                       [(UnsealStateFailed, None); (UnsealStateFinished, None)]
                       [TickerFired])
                    sampleMinerDeal sampleStorage "http://fs0/bafk-piece"
                    (Some (errors_New "unable to find piece in storage"))
                    None [(UnsealStateFinished, None)]
                    eq_refl eq_refl eq_refl eq_refl eq_refl)).
    reflexivity.
  - apply (proj2 (UnsealData_terminal_state (sampleHandler quietEnv absent)
                    (sampleProviderDeal None)
                    (sampleWorld [(UnsealStateFinished, Some timeout)]
                       [TickerFired])
                    sampleMinerDeal sampleStorage "http://fs0/bafk-piece"
                    (Some (errors_New "unable to find piece in storage"))
                    (Some timeout) []
                    eq_refl eq_refl eq_refl eq_refl eq_refl)).
    reflexivity.
Defined.

Lemma UnsealData_resume_failure_witness :
  let h := sampleHandler (sampleEnv None None (Some timeout) None) present in
  let d := sampleProviderDeal (Some sampleChannel) in
  (UnsealData h d (sampleWorld [] [])).1 =
  (Returned None, ProviderDealState.set_Status DealStatusErrored d) /\
  exists evs,
    trace (UnsealData h d (sampleWorld [] [])).2 = [] ++ evs /\
    savedStatuses evs =
    [DealStatusUnsealing; DealStatusUnsealed; DealStatusErrored].
Proof.
  cbv zeta.
  apply (UnsealData_resume_failure
           (sampleHandler (sampleEnv None None (Some timeout) None) present)
           (sampleProviderDeal (Some sampleChannel)) (sampleWorld [] [])
           sampleMinerDeal sampleStorage None sampleChannel timeout);
    (reflexivity || constructor).
Defined.

End HandlerFailureSamples.

(** ** The request validator on every request *)
Section ValidatorInvariants.
Import retrievalprovider.
Context `{Imports}.
Variable rv : ProviderRequestValidator.

(** The loop over the candidates fetches asks of configured providers
    only and does not consult the deal filter. *)
Lemma rangeMinerDeals_asks minerDeals :
  forall deal ask w,
    exists ask' deal' evs,
      rangeMinerDeals rv minerDeals deal ask w = (ask', deal', after w evs) /\
      asksConfiguredOnly rv evs /\ filterNotConsulted evs.
Proof.
  unfold asksConfiguredOnly, filterNotConsulted.
  induction minerDeals as [| minerDeal rest IH]; intros deal ask w.
  { exists ask, deal, []. cbn [rangeMinerDeals]. unfold ret.
    rewrite after_nil. split_and!; [reflexivity | constructor | constructor]. }
  cbn [rangeMinerDeals]. unfold bind at 1, calling at 1, bind at 1, emit, ret.
  set (provider := StorageProposal.Provider (MinerDeal.Proposal minerDeal)).
  destruct (MarketConfig.MinerProviderConfig _ provider true)
    as [minerCfg | e] eqn:Hcfg.
  2: { destruct (IH deal ask (after w [EvMinerProviderConfig provider]))
         as (ask' & deal' & evs & Heq & Hasks & Hfilter).
       eexists ask', deal', _. rewrite Heq, after_after.
       split; [reflexivity |]. split; by constructor. }
  destruct (Address_Empty _) eqn:Hempty.
  { destruct (IH deal ask (after w [EvMinerProviderConfig provider]))
      as (ask' & deal' & evs & Heq & Hasks & Hfilter).
    eexists ask', deal', _. rewrite Heq, after_after.
    split; [reflexivity |]. split; by constructor. }
  assert (Hconf : configured rv provider = true).
  { unfold configured. by rewrite Hcfg, Hempty. }
  unfold bind at 1, calling at 1, bind at 1, emit, ret.
  destruct (IRetrievalAskRepo.GetAsk _ _) as [ask1 err].
  destruct err as [e |].
  - unfold bind at 1, log, emit.
    match goal with
    | |- context [rangeMinerDeals rv rest ?d ?a ?w0] =>
        destruct (IH d a w0) as (ask' & deal' & evs & Heq & Hasks & Hfilter)
    end.
    eexists ask', deal', _. rewrite Heq, !after_after.
    split; [reflexivity |]. cbn [app].
    split; repeat (constructor; [done |]); done.
  - eexists ask1, _, _. rewrite after_after. split; [reflexivity |].
    cbn [app]. split; repeat (constructor; [done |]); constructor.
Qed.

(** X9. Whatever the request, [acceptDeal] fetches the ask of a provider
    only after it has found a configuration with a payment address for
    that provider; candidates without one are passed over. *)
Theorem acceptDeal_asks_configured_only deal w :
  exists evs,
    (acceptDeal rv deal w).2 = after w evs /\ asksConfiguredOnly rv evs.
Proof.
  unfold acceptDeal. unfold bind at 1, calling at 1, bind at 1, emit, ret.
  destruct (PieceInfo.GetPieceInfoFromCid _ _ _) as [minerDeals | e].
  2: { destruct (errors_Is e ErrNotFound); eexists; (split; [reflexivity |]);
         by repeat constructor. }
  unfold bind at 1.
  match goal with
  | |- context [rangeMinerDeals rv minerDeals ?d ?a ?w0] =>
      destruct (rangeMinerDeals_asks minerDeals d a w0)
        as (ask & deal' & evs & Heq & Hasks & _)
  end.
  rewrite Heq, after_after.
  assert (Hall : asksConfiguredOnly rv
            ([EvGetPieceInfoFromCid (ProviderDealState.PayloadCID deal)
                (Params.PieceCID (ProviderDealState.Params deal))] ++ evs)).
  { by constructor. }
  destruct ask as [ask |]; [| by eexists].
  destruct (CheckDealParams _ _ _ _ _); [by eexists |].
  unfold runDealDecisionLogic.
  destruct (ProviderRequestValidator.rdf rv) as [filter |].
  - unfold bind at 1, calling at 1, bind at 1, emit, ret.
    destruct (filter deal') as [[accepted reason] err].
    rewrite after_after.
    assert (Hall' : asksConfiguredOnly rv
              (([EvGetPieceInfoFromCid (ProviderDealState.PayloadCID deal)
                   (Params.PieceCID (ProviderDealState.Params deal))] ++ evs) ++
               [EvDealDecision deal'])).
    { apply Forall_app. split; [exact Hall | by repeat constructor]. }
    destruct err; [by eexists |].
    destruct accepted; cbn [negb]; [| by eexists].
    destruct (ProviderDealState.UnsealPrice deal' >? 0); by eexists.
  - unfold bind at 1, ret. cbn [negb].
    destruct (ProviderDealState.UnsealPrice deal' >? 0); by eexists.
Qed.



(** When no candidate can give an ask, the loop ends without one. *)
Lemma rangeMinerDeals_no_ask minerDeals :
  forall deal w,
    Forall (yieldsNoAsk rv) minerDeals ->
    exists c evs,
      rangeMinerDeals rv minerDeals deal None w =
      (None, ProviderDealState.set_SelStorageProposalCid c deal, after w evs) /\
      savedStatuses evs = [].
Proof.
  induction minerDeals as [| minerDeal rest IH]; intros deal w Hall.
  { exists (ProviderDealState.SelStorageProposalCid deal), [].
    cbn [rangeMinerDeals]. unfold ret.
    by rewrite set_SelStorageProposalCid_same, after_nil. }
  apply Forall_cons in Hall as [Hd Hall].
  cbn [rangeMinerDeals]. unfold bind at 1, calling at 1, bind at 1, emit, ret.
  set (provider := StorageProposal.Provider (MinerDeal.Proposal minerDeal)).
  unfold yieldsNoAsk, configured in Hd. cbv zeta in Hd. fold provider in Hd.
  destruct (MarketConfig.MinerProviderConfig _ provider true) as [minerCfg | e].
  2: { destruct (IH deal (after w [EvMinerProviderConfig provider]) Hall)
         as (c & evs & Heq & Hsaved).
       exists c. eexists. rewrite Heq, after_after. split; [reflexivity |].
       by rewrite savedStatuses_app, Hsaved. }
  destruct (Address_Empty _).
  { destruct (IH deal (after w [EvMinerProviderConfig provider]) Hall)
      as (c & evs & Heq & Hsaved).
    exists c. eexists. rewrite Heq, after_after. split; [reflexivity |].
    by rewrite savedStatuses_app, Hsaved. }
  destruct Hd as [Hd | [e Hask]]; [done |].
  unfold bind at 1, calling at 1, bind at 1, emit, ret. rewrite Hask.
  unfold bind at 1, log, emit.
  match goal with
  | |- context [rangeMinerDeals rv rest ?d None ?w0] =>
      destruct (IH d w0 Hall) as (c & evs & Heq & Hsaved)
  end.
  exists c. eexists. rewrite Heq, !after_after. split; [by destruct deal |].
  by rewrite !savedStatuses_app, Hsaved.
Qed.

Lemma acceptDeal_no_ask deal w minerDeals :
  PieceInfo.GetPieceInfoFromCid (ProviderRequestValidator.pieceInfo rv)
    (ProviderDealState.PayloadCID deal)
    (Params.PieceCID (ProviderDealState.Params deal)) = inl minerDeals ->
  Forall (yieldsNoAsk rv) minerDeals ->
  exists c evs,
    acceptDeal rv deal w =
    (DealStatusErrored, None,
     ProviderDealState.set_SelStorageProposalCid c deal, after w evs) /\
    savedStatuses evs = [].
Proof.
  intros Hpiece Hnone. unfold acceptDeal.
  unfold bind at 1, calling at 1, bind at 1, emit, ret. rewrite Hpiece.
  unfold bind at 1.
  destruct (rangeMinerDeals_no_ask minerDeals deal
              (after w [EvGetPieceInfoFromCid (ProviderDealState.PayloadCID deal)
                          (Params.PieceCID (ProviderDealState.Params deal))])
              Hnone) as (c & evs & Heq & Hsaved).
  rewrite Heq, after_after. exists c. eexists. split; [reflexivity |].
  by rewrite savedStatuses_app, Hsaved.
Qed.

(** X11. When the piece is known but none of its candidates can give an
    ask (none is configured, or the ask repository fails for each that
    is), [acceptDeal] returns the status Errored together with a nil
    error.  A new request that passes the CID and selector checks is then
    answered with the status Errored and an empty message, and, the save
    succeeding, the deal record is saved and the transfer paused. *)
Theorem validatePull_no_ask receiver proposal legacy baseCid selector w minerDeals :
  let run := validatePull rv false receiver proposal legacy baseCid selector w in
  let price := Params.UnsealPrice (DealProposal.Params proposal) in
  requestMatches proposal baseCid selector ->
  PieceInfo.GetPieceInfoFromCid (ProviderRequestValidator.pieceInfo rv)
    (DealProposal.PayloadCID proposal)
    (Params.PieceCID (DealProposal.Params proposal)) = inl minerDeals ->
  Forall (yieldsNoAsk rv) minerDeals ->
  savesSucceed w ->
  (acceptDeal rv (newProviderDealState proposal receiver legacy) w).1.1 =
  (DealStatusErrored, None) /\
  run.1 =
  (Some (DealResponse.mk DealStatusErrored (DealProposal.ID proposal) None ""),
   Some ErrPause) /\
  exists evs,
    trace run.2 = trace w ++ evs /\
    savedStatuses evs =
    [if price >? 0 then DealStatusFundsNeededUnseal else DealStatusNew].
Proof.
  intros run price Hmatch Hpiece Hnone Hsaves. subst run.
  rewrite (validatePull_new_request rv _ _ _ _ _ _ Hmatch).
  destruct (acceptDeal_no_ask (newProviderDealState proposal receiver legacy)
              w minerDeals Hpiece Hnone) as (c & evs & Heq & Hsaved).
  rewrite Heq. split; [reflexivity |]. cbv zeta.
  rewrite savesSucceed_next by by apply savesSucceed_after.
  rewrite bool_decide_eq_false_2 by discriminate.
  split; [reflexivity |].
  eexists. cbn [snd trace afterSave after]. rewrite <- !app_assoc.
  split; [reflexivity |].
  rewrite !savedStatuses_app, Hsaved. cbn.
  unfold recordToSave.
  change (ProviderDealState.UnsealPrice
            (ProviderDealState.set_SelStorageProposalCid c
               (newProviderDealState proposal receiver legacy)))
    with price.
  by destruct (price >? 0).
Qed.

(** X12. A new request for a piece that cannot be looked up is refused
    without looking at any candidate: the response carries the status
    DealNotFound when the error of the lookup is, or wraps, the
    repository's not-found error and the status Errored otherwise; its
    message is the text of the error, no payment is owed, the error is
    returned, and nothing is saved. *)
Theorem validatePull_piece_lookup_fails receiver proposal legacy baseCid selector
    w e :
  let status :=
    if errors_Is e ErrNotFound then DealStatusDealNotFound
    else DealStatusErrored in
  requestMatches proposal baseCid selector ->
  PieceInfo.GetPieceInfoFromCid (ProviderRequestValidator.pieceInfo rv)
    (DealProposal.PayloadCID proposal)
    (Params.PieceCID (DealProposal.Params proposal)) = inr e ->
  validatePull rv false receiver proposal legacy baseCid selector w =
  (Some (DealResponse.mk status (DealProposal.ID proposal) None (Error_text e)),
   Some e,
   after w [EvGetPieceInfoFromCid (DealProposal.PayloadCID proposal)
              (Params.PieceCID (DealProposal.Params proposal))]).
Proof.
  intros status Hmatch Hpiece.
  rewrite (validatePull_new_request rv _ _ _ _ _ _ Hmatch).
  unfold acceptDeal. unfold bind at 1, calling at 1, bind at 1, emit, ret.
  change (ProviderDealState.PayloadCID
            (newProviderDealState proposal receiver legacy))
    with (DealProposal.PayloadCID proposal).
  change (ProviderDealState.Params
            (newProviderDealState proposal receiver legacy))
    with (DealProposal.Params proposal).
  rewrite Hpiece. subst status.
  destruct (errors_Is e ErrNotFound); reflexivity.
Qed.

(** X13. A new request that passes the CID and selector checks always
    gets a response and a non-nil error.  The response carries the ID of
    the proposal and the status that [acceptDeal] returned; a payment is
    owed exactly when that status is FundsNeededUnseal, and it is the
    unseal price of the proposal; the error is that of [acceptDeal], else
    that of the save, else the pause instruction; the message is the text
    of the error, and empty when the transfer is paused. *)
Theorem validatePull_response receiver proposal legacy baseCid selector w :
  let run := validatePull rv false receiver proposal legacy baseCid selector w in
  let accepted := acceptDeal rv (newProviderDealState proposal receiver legacy) w in
  let status := accepted.1.1.1 in
  let failure :=
    match accepted.1.1.2 with
    | Some e => Some e
    | None => nextSaveReply accepted.2
    end in
  requestMatches proposal baseCid selector ->
  run.1 =
  (Some (DealResponse.mk status (DealProposal.ID proposal)
           (if bool_decide (status = DealStatusFundsNeededUnseal)
            then Some (Params.UnsealPrice (DealProposal.Params proposal))
            else None)
           (match failure with Some e => Error_text e | None => "" end)),
   Some (match failure with Some e => e | None => ErrPause end)).
Proof.
  intros run accepted status failure Hmatch.
  subst run status failure accepted.
  rewrite (validatePull_new_request rv _ _ _ _ _ _ Hmatch).
  destruct (acceptDeal_result rv (newProviderDealState proposal receiver legacy) w)
    as (status & err & c & evs & Heq & _).
  rewrite Heq. cbn [fst snd].
  change (ProviderDealState.UnsealPrice
            (ProviderDealState.set_SelStorageProposalCid c
               (newProviderDealState proposal receiver legacy)))
    with (Params.UnsealPrice (DealProposal.Params proposal)).
  destruct err as [e |]; [reflexivity |].
  destruct (nextSaveReply _); reflexivity.
Qed.

(** X14. The parameters of the deal are checked against the ask before
    the deal filter is asked.  Once the loop over the candidates has
    chosen an ask: if [CheckDealParams] refuses, [acceptDeal] returns
    Rejected with the error of the check and the filter is not consulted;
    if it passes and a filter is configured, the filter is consulted
    once, with the deal record that carries the chosen proposal CID, and
    a filter that answers "not accepted" makes the deal Rejected with its
    reason as the error. *)
Theorem acceptDeal_check_before_filter deal w minerDeals ask deal' w1 :
  let params := ProviderDealState.Params deal' in
  let check :=
    CheckDealParams ask (Params.PricePerByte params)
      (Params.PaymentInterval params) (Params.PaymentIntervalIncrease params)
      (Params.UnsealPrice params) in
  PieceInfo.GetPieceInfoFromCid (ProviderRequestValidator.pieceInfo rv)
    (ProviderDealState.PayloadCID deal)
    (Params.PieceCID (ProviderDealState.Params deal)) = inl minerDeals ->
  rangeMinerDeals rv minerDeals deal None
    (after w [EvGetPieceInfoFromCid (ProviderDealState.PayloadCID deal)
                (Params.PieceCID (ProviderDealState.Params deal))]) =
  (Some ask, deal', w1) ->
  (forall e,
      check = Some e ->
      acceptDeal rv deal w = (DealStatusRejected, Some e, deal', w1)) /\
  (forall filter reason,
      check = None ->
      ProviderRequestValidator.rdf rv = Some filter ->
      filter deal' = (false, reason, None) ->
      acceptDeal rv deal w =
      (DealStatusRejected, Some (errors_New reason), deal',
       after w1 [EvDealDecision deal'])).
Proof.
  intros params check Hpiece Hrange. subst check params.
  split.
  - intros e Hcheck. unfold acceptDeal.
    unfold bind at 1, calling at 1, bind at 1, emit, ret. rewrite Hpiece.
    unfold bind at 1. rewrite Hrange, Hcheck. reflexivity.
  - intros filter reason Hcheck Hrdf Hfilter. unfold acceptDeal.
    unfold bind at 1, calling at 1, bind at 1, emit, ret. rewrite Hpiece.
    unfold bind at 1. rewrite Hrange, Hcheck.
    unfold runDealDecisionLogic. rewrite Hrdf.
    unfold bind at 1, calling at 1, bind at 1, emit, ret. rewrite Hfilter.
    reflexivity.
Qed.

End ValidatorInvariants.

(** *** The validator's paths on sample requests *)
Section ValidatorPathSamples.
Import retrievalprovider.


Lemma validatePull_no_ask_witness :
  let rv :=
    tableValidator (inl [sampleMinerDeal; secondMinerDeal]) secondOnly
      (fun _ => (None, Some timeout)) None in
  let run :=
    @validatePull sampleImports rv false "client" (sampleProposal 0) false
      "bafy-payload" allSelector (sampleWorld [] []) in
  (@acceptDeal sampleImports rv
     (@newProviderDealState (sampleProposal 0) "client" false)
     (sampleWorld [] [])).1.1 = (DealStatusErrored, None) /\
  run.1 = (Some (DealResponse.mk DealStatusErrored 11%N None ""), Some ErrPause) /\
  exists evs, trace run.2 = [] ++ evs /\ savedStatuses evs = [DealStatusNew].
Proof.
  cbv zeta.
  apply (@validatePull_no_ask sampleImports
           (tableValidator (inl [sampleMinerDeal; secondMinerDeal]) secondOnly
              (fun _ => (None, Some timeout)) None)
           "client" (sampleProposal 0) false "bafy-payload" allSelector
           (sampleWorld [] []) [sampleMinerDeal; secondMinerDeal]).
  - repeat split.
  - reflexivity.
  - constructor; [by left |]. constructor; [| constructor].
    right. by exists timeout.
  - constructor.
Defined.

Lemma validatePull_piece_lookup_fails_witness :
  @validatePull sampleImports
    (tableValidator (inr (fmt_Errorf "piece bafk-piece: " ErrNotFound))
       secondOnly (fun _ => (Some (sampleAsk 1), None)) None)
    false "client" (sampleProposal 2) false "bafy-payload" allSelector
    (sampleWorld [] []) =
  (Some (DealResponse.mk DealStatusDealNotFound 11%N None
           "piece bafk-piece: record not found"),
   Some (fmt_Errorf "piece bafk-piece: " ErrNotFound),
   after (sampleWorld [] []) [EvGetPieceInfoFromCid "bafy-payload" None]).
Proof.
  apply (@validatePull_piece_lookup_fails sampleImports
           (tableValidator (inr (fmt_Errorf "piece bafk-piece: " ErrNotFound))
              secondOnly (fun _ => (Some (sampleAsk 1), None)) None)
           "client" (sampleProposal 2) false "bafy-payload" allSelector
           (sampleWorld [] []) (fmt_Errorf "piece bafk-piece: " ErrNotFound)).
  - repeat split.
  - reflexivity.
Defined.

Lemma validatePull_response_witness :
  (newRequest 1 2).1 =
  (Some (DealResponse.mk DealStatusFundsNeededUnseal 11%N (Some 2) ""),
   Some ErrPause) /\
  (newRequest 3 2).1 =
  (Some (DealResponse.mk DealStatusRejected 11%N None "unseal price too small"),
   Some (errors_New "unseal price too small")).
Proof.
  split.
  - apply (@validatePull_response sampleImports (sampleValidator 1) "client"
             (sampleProposal 2) false "bafy-payload" allSelector
             (sampleWorld [] [])).
    repeat split.
  - apply (@validatePull_response sampleImports (sampleValidator 3) "client"
             (sampleProposal 2) false "bafy-payload" allSelector
             (sampleWorld [] [])).
    repeat split.
Defined.

Lemma acceptDeal_check_before_filter_witness :
  let deal := @newProviderDealState (sampleProposal 2) "client" false in
  let chosen :=
    ProviderDealState.set_SelStorageProposalCid "bafy-second-proposal" deal in
  let w1 :=
    after (sampleWorld [] [])
      [EvGetPieceInfoFromCid "bafy-payload" None;
       EvMinerProviderConfig "f01000"; EvMinerProviderConfig "f02000";
       EvGetAsk "f02000"] in
  @acceptDeal sampleImports
    (tableValidator (inl [sampleMinerDeal; secondMinerDeal]) secondOnly
       (fun _ => (Some (sampleAsk 3), None)) (Some refuseAll))
    deal (sampleWorld [] []) =
  (DealStatusRejected, Some (errors_New "unseal price too small"), chosen, w1) /\
  @acceptDeal sampleImports
    (tableValidator (inl [sampleMinerDeal; secondMinerDeal]) secondOnly
       (fun _ => (Some (sampleAsk 1), None)) (Some refuseAll))
    deal (sampleWorld [] []) =
  (DealStatusRejected, Some (errors_New "provider is in maintenance"), chosen,
   after w1 [EvDealDecision chosen]).
Proof.
  cbv zeta. split.
  - apply (proj1 (@acceptDeal_check_before_filter sampleImports
                    (tableValidator (inl [sampleMinerDeal; secondMinerDeal])
                       secondOnly (fun _ => (Some (sampleAsk 3), None))
                       (Some refuseAll))
                    (@newProviderDealState (sampleProposal 2) "client" false)
                    (sampleWorld [] []) [sampleMinerDeal; secondMinerDeal]
                    (sampleAsk 3) _ _ eq_refl eq_refl)).
    reflexivity.
  - apply (proj2 (@acceptDeal_check_before_filter sampleImports
                    (tableValidator (inl [sampleMinerDeal; secondMinerDeal])
                       secondOnly (fun _ => (Some (sampleAsk 1), None))
                       (Some refuseAll))
                    (@newProviderDealState (sampleProposal 2) "client" false)
                    (sampleWorld [] []) [sampleMinerDeal; secondMinerDeal]
                    (sampleAsk 1) _ _ eq_refl eq_refl)
             refuseAll "provider is in maintenance");
      reflexivity.
Defined.

End ValidatorPathSamples.

(** ** Voucher selector: the order of the list *)
Section BestSpendableOrder.
Import paychmgr.
Context {API : Type} `{BestSpendableAPI API}.
Variables api api' : API.
Variable ch : Address.

Lemma spendableOfLane_same_checks lane vs :
  (forall v, PaychVoucherCheckSpendable api ch v =
             PaychVoucherCheckSpendable api' ch v) ->
  spendableOfLane api ch lane vs = spendableOfLane api' ch lane vs.
Proof.
  intros Hsame. unfold spendableOfLane. apply List.filter_ext. intros v.
  unfold checkedSpendable. by rewrite Hsame.
Qed.

Lemma spendableOfLane_Permutation lane vs vs' :
  vs ≡ₚ vs' -> spendableOfLane api ch lane vs ≡ₚ spendableOfLane api ch lane vs'.
Proof.
  intros Hp. unfold spendableOfLane.
  induction Hp as [| x l l' _ IH | x y l | l l' l'' _ IH1 _ IH2]; simpl.
  - done.
  - by destruct ((Lane x =? lane)%N && checkedSpendable api ch x); [constructor |].
  - destruct ((Lane x =? lane)%N && checkedSpendable api ch x),
             ((Lane y =? lane)%N && checkedSpendable api ch y);
      try done. apply perm_swap.
  - by etransitivity.
Qed.

Lemma firstMaximum_amount l l' v v' :
  l ≡ₚ l' -> firstMaximum l v -> firstMaximum l' v' -> Amount v = Amount v'.
Proof.
  intros Hp Hv Hv'.
  pose proof (firstMaximum_elem _ _ Hv) as Hin.
  pose proof (firstMaximum_elem _ _ Hv') as Hin'.
  rewrite Hp in Hin. rewrite <- Hp in Hin'.
  pose proof (firstMaximum_le _ _ _ Hv Hin').
  pose proof (firstMaximum_le _ _ _ Hv' Hin). lia.
Qed.

(** X15. The order in which the channel lists its vouchers decides only
    between vouchers of equal amount: when two APIs answer every
    spendability check alike and list the same vouchers in different
    orders, [BestSpendableByLane] succeeds on both or on neither, fills the
    same lanes, and holds a voucher of the same amount in each lane. *)
Theorem BestSpendableByLane_order_irrelevant vs vs' m :
  PaychVoucherList api ch = inl vs ->
  PaychVoucherList api' ch = inl vs' ->
  (forall v, PaychVoucherCheckSpendable api ch v =
             PaychVoucherCheckSpendable api' ch v) ->
  vs ≡ₚ vs' ->
  BestSpendableByLane api ch = inl m ->
  exists m',
    BestSpendableByLane api' ch = inl m' /\
    forall lane, Amount <$> (m !! lane) = Amount <$> (m' !! lane).
Proof.
  intros Hvs Hvs' Hsame Hp Hm.
  unfold BestSpendableByLane in *. rewrite Hvs in Hm. rewrite Hvs'.
  assert (Hempty : forall a : API, forall lane, laneEntryOK a ch [] ∅ lane).
  { intros a lane. unfold laneEntryOK. by rewrite lookup_empty. }
  pose proof (rangeVouchers_inv api ch vs [] ∅ (List.Forall_nil _)
                (Hempty api)) as Hinv.
  pose proof (rangeVouchers_inv api' ch vs' [] ∅ (List.Forall_nil _)
                (Hempty api')) as Hinv'.
  rewrite Hm in Hinv. simpl in Hinv, Hinv'. destruct Hinv as [Hall Hlanes].
  destruct (rangeVouchers api' ch vs' ∅) as [m' | e].
  - exists m'. split; [done |]. intros lane.
    destruct Hinv' as [_ Hlanes'].
    specialize (Hlanes lane). specialize (Hlanes' lane).
    unfold laneEntryOK in *.
    rewrite <- (spendableOfLane_same_checks lane vs' Hsame) in Hlanes'.
    pose proof (spendableOfLane_Permutation lane vs vs' Hp) as Hperm.
    destruct (m !! lane) as [v |], (m' !! lane) as [v' |]; simpl.
    + f_equal. by eapply firstMaximum_amount.
    + rewrite Hlanes' in Hperm. apply Permutation_nil_r in Hperm.
      apply firstMaximum_elem in Hlanes. rewrite Hperm in Hlanes.
      by apply elem_of_nil in Hlanes.
    + rewrite Hlanes in Hperm. symmetry in Hperm.
      apply Permutation_nil_r in Hperm.
      apply firstMaximum_elem in Hlanes'. rewrite Hperm in Hlanes'.
      by apply elem_of_nil in Hlanes'.
    + done.
  - destruct Hinv' as (before & v & after & Heq & Hfail & _).
    exfalso. rewrite Forall_forall in Hall.
    apply (Hall v).
    + rewrite Hp, Heq. set_solver.
    + exists e. by rewrite Hsame.
Qed.

End BestSpendableOrder.

Section BestSpendableOrderSamples.
Import paychmgr.

(** On the sample channel the two orders pick different vouchers of
    amount 9 in lane 1. *)
Lemma BestSpendableByLane_order_irrelevant_witness :
  exists m',
    BestSpendableByLane reversedAPI "f0channel" = inl m' /\
    forall lane,
      Amount <$>
        (({[1%N := sampleVoucher 1 2 9; 4%N := sampleVoucher 4 1 7]}
            : gmap N SignedVoucher) !! lane) =
      Amount <$> (m' !! lane).
Proof.
  apply (BestSpendableByLane_order_irrelevant sampleAPI reversedAPI
           "f0channel" sampleVouchers (reverse sampleVouchers)).
  - reflexivity.
  - reflexivity.
  - reflexivity.
  - symmetry. apply reverse_Permutation.
  - vm_compute. reflexivity.
Defined.

End BestSpendableOrderSamples.

(** ** DAG store and deal handler on the same piece storage manager *)
Section UnsealedFacts.
Import retrievalprovider dagstore.
Variable ErrorNotFoundForRead : error.
Variable m : marketAPI.
Variable p : RetrievalDealHandler.

Lemma IsUnsealed_result pieceCid w st err :
  PieceStorageManager.FindStorageForRead (marketAPI.pieceStorageMgr m) pieceCid =
  (st, err) ->
  (IsUnsealed ErrorNotFoundForRead m pieceCid w).1.1 = bool_decide (err = None).
Proof.
  intros Hread. unfold IsUnsealed, calling, log, bind, emit, ret.
  rewrite Hread. destruct err as [e |]; [| done].
  by destruct (errors_Is e ErrorNotFoundForRead).
Qed.

(** X16. [IsUnsealed] and [UnsealData] probe the same piece storage manager
    but test different halves of its reply: the one the error, the other
    the storage.  When the manager hands out a storage exactly when it
    reports no error, the two agree: if [IsUnsealed] answers true for the
    piece of the deal, [UnsealData] never calls the unseal service and
    leaves its replies untouched; if it answers false, [UnsealData] logs the
    failed probe and goes on to look for a backend to write to. *)
Theorem IsUnsealed_agrees_with_UnsealData providerDeal deal w w0 :
  let unsealing :=
    ProviderDealState.set_Status DealStatusUnsealing providerDeal in
  let pieceCid := StorageProposal.PieceCID (MinerDeal.Proposal deal) in
  let size := int64 (StorageProposal.PieceSize (MinerDeal.Proposal deal)) in
  let mgr := RetrievalDealHandler.pieceStorageMgr p in
  let found := PieceStorageManager.FindStorageForRead mgr pieceCid in
  let run := UnsealData p providerDeal w in
  marketAPI.pieceStorageMgr m = mgr ->
  (found.1 = None <-> found.2 <> None) ->
  nextSaveReply w = None ->
  StorageDealRepo.GetDeal (RetrievalDealHandler.storageDealRepo p)
    (ProviderDealState.SelStorageProposalCid providerDeal) = inl deal ->
  exists evs,
    trace run.2 = trace w ++ evs /\
    if (IsUnsealed ErrorNotFoundForRead m pieceCid w0).1.1
    then unsealCalls evs = 0%nat /\ unsealReplies run.2 = unsealReplies w
    else exists evs',
           evs =
           [EvSaveDeal unsealing None;
            EvGetDeal (ProviderDealState.SelStorageProposalCid providerDeal);
            EvFindStorageForRead pieceCid;
            EvLog Info "try to find piece  fail: %w";
            EvFindStorageForWrite size] ++ evs'.
Proof.
  intros unsealing pieceCid size mgr found run Hmgr Hcontract Hsave Hdeal.
  destruct found as [st err] eqn:Hfound. subst found. cbn [fst snd] in Hcontract.
  rewrite (IsUnsealed_result pieceCid w0 st err)
    by (rewrite Hmgr; exact Hfound).
  destruct err as [e |].
  - assert (st = None) as -> by (by apply Hcontract).
    rewrite bool_decide_eq_false_2 by done.
    subst run.
    rewrite (UnsealData_absent p providerDeal w deal (Some e) Hsave Hdeal Hfound).
    cbv zeta. fold unsealing pieceCid.
    match goal with
    | |- context [tryUnseal p deal pieceCid ?w1] =>
        destruct (tryUnseal_trace p deal pieceCid w1) as [evs Hevs];
        destruct (tryUnseal p deal pieceCid w1) as [exit w'] eqn:Htry
    end.
    cbn [snd] in Hevs. fold size in Hevs.
    cbn [trace after afterSave probeEvents] in Hevs.
    rewrite Hsave in Hevs. rewrite <- !app_assoc in Hevs. cbn [app] in Hevs.
    destruct exit as [| ret_err |].
    + destruct (finishUnseal_trace p deal unsealing w') as [evs' Hevs'].
      eexists. split; [| eexists; reflexivity].
      rewrite Hevs', Hevs, <- !app_assoc. cbn [app]. reflexivity.
    + eexists. split; [| eexists; reflexivity].
      cbn [snd]. rewrite Hevs. reflexivity.
    + eexists. split; [| eexists; reflexivity].
      cbn [snd]. rewrite Hevs. reflexivity.
  - destruct st as [st |]; [| exfalso; by apply Hcontract].
    rewrite bool_decide_eq_true_2 by done.
    subst run.
    rewrite (UnsealData_fast_path p providerDeal w deal st None Hsave Hdeal Hfound).
    cbv zeta. fold unsealing pieceCid.
    match goal with
    | |- context [finishUnseal p deal unsealing ?w1] =>
        destruct (finishUnseal_shape p deal unsealing w1)
          as (out & status & w' & evs & -> & _ & Hreplies & Htrace & Hcalls)
    end.
    cbn [snd]. eexists. split.
    + rewrite Htrace. cbn [trace after afterSave probeEvents].
      rewrite <- !app_assoc. reflexivity.
    + split; [| by rewrite Hreplies].
      rewrite !unsealCalls_app, Hcalls. reflexivity.
Qed.

End UnsealedFacts.

Section UnsealedSamples.
Import retrievalprovider dagstore.

Lemma IsUnsealed_agrees_with_UnsealData_witness :
  let p := sampleHandler quietEnv present in
  let run := UnsealData p (sampleProviderDeal None) (sampleWorld [] []) in
  exists evs,
    trace run.2 = [] ++ evs /\
    unsealCalls evs = 0%nat /\ unsealReplies run.2 = [].
Proof.
  cbv zeta.
  apply (IsUnsealed_agrees_with_UnsealData sampleNotFoundForRead
           (marketAPI.mk
              (RetrievalDealHandler.pieceStorageMgr
                 (sampleHandler quietEnv present)))
           (sampleHandler quietEnv present) (sampleProviderDeal None)
           sampleMinerDeal (sampleWorld [] []) (sampleWorld [] [])).
  - reflexivity.
  - vm_compute. split; [discriminate | congruence].
  - reflexivity.
  - reflexivity.
Defined.

End UnsealedSamples.

(** ** Piece storage server *)
Section ServerFacts.
Import rpc.
Variable ErrUnsupportRedirect : error.
Variable ParseInt : string -> Z + error.
Variable p : PieceStorageServer.

(** *** One answer per request *)











Lemma answersOnce_failure {A : Type} msg code :
  answersOnce (exec logErrorAndResonse msg code; @return_ A).
Proof. reflexivity. Qed.




(** *** Following a handler statement by statement *)

Local Ltac head_scrutinee t :=
  lazymatch t with
  | match ?x with _ => _ end => head_scrutinee x
  | _ => t
  end.

(** Unfold the handlers in the equation [Hrun : handler req = (evs, flow)]
    and decide the tests of the handler in the order of the program. *)
Local Ltac follow Hrun :=
  cbv [ServeHTTP handleGet handlePut bind calling emit ret return_ panic
       logErrorAndResonse deref] in Hrun;
  repeat (cbn [fst snd app] in Hrun;
          lazymatch type of Hrun with
          | (_, _) = (_, _) => fail
          | ?run = _ =>
              let x := head_scrutinee run in
              (is_var x; destruct x) || destruct x eqn:?
          end);
  cbn [fst snd app] in Hrun;
  injection Hrun as <- <-.

(** Split [H : e ∈ [e1; ...; en]] into the cases [e = ei], dropping those
    in which the two events differ in kind. *)
Local Ltac elems H :=
  repeat (let Heq := fresh "Heq" in
          apply elem_of_cons in H as [Heq | H];
          [try discriminate Heq |]);
  try (by apply elem_of_nil in H).

(** X18. [handleGet] reads a piece through the server only when the
    storage answered the request for a redirect with
    [ErrUnsupportRedirect] itself: a call of [Len], [GetReaderCloser],
    [io.Copy] or [Close] means the manager found a storage without error
    and the storage's [GetRedirectUrl] returned exactly that error.  The
    comparison is by identity, so an error that wraps the sentinel is
    answered with status 500 and nothing is read. *)
Theorem handleGet_streams_when_redirect_unsupported req ev :
  let resourceID := Values_Get (Query req) "resource-id" in
  ev ∈ (handleGet ErrUnsupportRedirect p req).1 ->
  streams ev = true ->
  exists st url,
    PieceStorageManager.FindStorageForRead
      (PieceStorageServer.pieceStorageMgr p) resourceID = (Some st, None) /\
    IPieceStorage.GetRedirectUrl st resourceID =
    (url, Some ErrUnsupportRedirect).
Proof.
  intros resourceID Hin Hstream. subst resourceID.
  destruct (handleGet ErrUnsupportRedirect p req) as [evs flow] eqn:Hrun.
  cbn [fst] in Hin.
  follow Hrun.
  all: elems Hin; subst ev; try discriminate Hstream.
  all: repeat match goal with
       | H : bool_decide _ = false |- _ =>
           apply bool_decide_eq_false_1 in H; apply dec_stable in H; subst
       end.
  all: eauto.
Qed.

(** X19. When [handleGet] copies anything to the client, the run is the
    whole streaming path and nothing else: the [Content-Length] header is
    what [Len] returned (the bytes of the reader are not counted), the
    reader is copied once and closed once after the copy, a failure of
    [Close] is only logged, and the handler returns normally. *)
Theorem handleGet_copies_and_closes req content :
  let resourceID := Values_Get (Query req) "resource-id" in
  EvCopy content ∈ (handleGet ErrUnsupportRedirect p req).1 ->
  exists st url flen r,
    PieceStorageManager.FindStorageForRead
      (PieceStorageServer.pieceStorageMgr p) resourceID = (Some st, None) /\
    IPieceStorage.GetRedirectUrl st resourceID =
    (url, Some ErrUnsupportRedirect) /\
    IPieceStorage.Len st resourceID = (flen, None) /\
    IPieceStorage.GetReaderCloser st resourceID = (Some r, None) /\
    ReadCloser.Content r = content /\
    handleGet ErrUnsupportRedirect p req =
    ([EvFindStorageForRead resourceID;
      EvGetRedirectUrl (IPieceStorage.GetName st) resourceID;
      EvLen (IPieceStorage.GetName st) resourceID;
      EvHeaderSet "Content-Length" (pretty flen);
      EvGetReaderCloser (IPieceStorage.GetName st) resourceID;
      EvCopy content; EvClose] ++
     match ReadCloser.Close r with
     | Some _ => [EvLogErrorf "unable to close http %v"]
     | None => []
     end,
     Next tt).
Proof.
  intros resourceID Hin. subst resourceID.
  destruct (handleGet ErrUnsupportRedirect p req) as [evs flow] eqn:Hrun.
  cbn [fst] in Hin.
  follow Hrun.
  all: elems Hin.
  all: repeat match goal with
       | H : bool_decide _ = false |- _ =>
           apply bool_decide_eq_false_1 in H; apply dec_stable in H; subst
       | H : EvCopy _ = EvCopy _ |- _ => injection H as ->
       end.
  all: eexists _, _, _, _; split_and!; try eassumption; try reflexivity.
  all: by match goal with H : ReadCloser.Close _ = _ |- _ => rewrite H end.
Qed.

(** X20. [handlePut] answers 200 only after it has saved the body: a
    [WriteHeader] in its run carries [StatusOK], is the last event, and
    comes right after the one call of [SaveTo] in the run, which was given
    the resource id and the body of the request and returned no error. *)
Theorem handlePut_ok_after_save req code :
  let resourceID := Values_Get (Query req) "resource-id" in
  EvWriteHeader code ∈ (handlePut ParseInt p req).1 ->
  code = StatusOK /\
  exists lookups st body,
    Body req = Some body /\
    IPieceStorage.SaveTo st resourceID body = None /\
    handlePut ParseInt p req =
    (lookups ++
     [EvSaveTo (IPieceStorage.GetName st) resourceID body;
      EvWriteHeader StatusOK],
     Next tt) /\
    Forall (fun e => isSaveTo e = false /\ answers e = false) lookups.
Proof.
  intros resourceID Hin. subst resourceID.
  destruct (handlePut ParseInt p req) as [evs flow] eqn:Hrun.
  cbn [fst] in Hin.
  follow Hrun.
  all: elems Hin.
  all: match goal with H : EvWriteHeader _ = EvWriteHeader _ |- _ =>
         injection H as ->
       end.
  all: split; [reflexivity |].
  all: first
    [ by (eexists [_], _, _; split_and!;
          [reflexivity | eassumption | reflexivity |];
          repeat first [apply List.Forall_nil | apply List.Forall_cons; [by split |]])
    | by (eexists [_; _], _, _; split_and!;
          [reflexivity | eassumption | reflexivity |];
          repeat first [apply List.Forall_nil | apply List.Forall_cons; [by split |]]) ].
Qed.

Lemma Values_Get_withoutSize q key :
  key <> "size" -> Values_Get (delete "size" q) key = Values_Get q key.
Proof.
  intros Hne. unfold Values_Get, Values in *. by rewrite lookup_delete_ne.
Qed.

Lemma Values_Has_withoutSize q key :
  key <> "size" -> Values_Has (delete "size" q) key = Values_Has q key.
Proof.
  intros Hne. unfold Values_Has, Values in *. by rewrite lookup_delete_ne.
Qed.

Lemma Values_Has_size_withoutSize q :
  Values_Has (delete "size" q) "size" = false.
Proof.
  unfold Values_Has, Values in *. rewrite lookup_delete_eq.
  apply bool_decide_eq_false_2. by intros [? ?].
Qed.

(** X21. A store that is named and found makes the parameter [size]
    irrelevant: when the query has [store] and the manager returns that
    store without error, [handlePut] runs as on the same request without
    [size], whatever [strconv.ParseInt] would have made of it; the size is
    neither parsed nor passed to [FindStorageForWrite]. *)
Theorem handlePut_named_store_wins req st parse :
  Values_Has (Query req) "store" = true ->
  PieceStorageManager.GetPieceStorageByName
    (PieceStorageServer.pieceStorageMgr p)
    (Values_Get (Query req) "store") = (Some st, None) ->
  handlePut ParseInt p req = handlePut parse p (withoutSize req).
Proof.
  intros Hhas Hnamed.
  unfold handlePut, withoutSize. cbn [Query Body].
  rewrite !Values_Get_withoutSize, !Values_Has_withoutSize by done.
  rewrite Values_Has_size_withoutSize, Hhas, Hnamed.
  cbv [bind calling emit ret return_ panic logErrorAndResonse deref].
  destruct (String.length (Values_Get (Query req) "resource-id") =? 0)%nat;
    [reflexivity |].
  destruct (Body req) as [body |]; [| reflexivity].
  cbn [negb andb fst snd app].
  rewrite bool_decide_eq_false_2 by done.
  reflexivity.
Qed.

(** X22. The only panics of the server are calls on nil: when the manager
    never returns a nil storage with a nil error, and no storage it finds
    returns a nil reader with a nil error, [ServeHTTP] returns on every
    request. *)
Theorem ServeHTTP_returns req :
  neverNilNil (PieceStorageServer.pieceStorageMgr p) ->
  panicked (ServeHTTP ErrUnsupportRedirect ParseInt p req) = false.
Proof.
  intros (Hread & Hnamed & Hwrite & Hreader).
  destruct (ServeHTTP ErrUnsupportRedirect ParseInt p req) as [evs flow] eqn:Hrun.
  follow Hrun; try reflexivity; exfalso.
  all: repeat match goal with
       | H : bool_decide _ = true |- _ => apply bool_decide_eq_true_1 in H
       | H : _ && _ = false |- _ => apply andb_false_iff in H as [H | H]
       | H : bool_decide _ = false |- _ => apply bool_decide_eq_false_1 in H
       | H : negb _ = false |- _ => apply negb_false_iff in H
       end.
  all: try congruence.
  all: first [ eapply Hread; eassumption
             | eapply Hreader; eassumption
             | eapply Hwrite; eassumption
             | eapply Hnamed; eassumption ].
Qed.

End ServerFacts.

Section ServerSamples.
Import rpc.

Lemma handleGet_streams_when_redirect_unsupported_witness :
  exists st url,
    PieceStorageManager.FindStorageForRead (sampleMgr sampleDisk)
      (Values_Get (Query getPiece) "resource-id") = (Some st, None) /\
    IPieceStorage.GetRedirectUrl st (Values_Get (Query getPiece) "resource-id") =
    (url, Some sampleUnsupported).
Proof.
  apply (handleGet_streams_when_redirect_unsupported sampleUnsupported
           (sampleServer sampleDisk) getPiece (EvLen "disk" "bafk-piece")).
  - apply list_elem_of_In. vm_compute. tauto.
  - reflexivity.
Defined.

(** A storage whose redirect fails with an error that wraps the sentinel
    is answered with status 500: nothing is read. *)
Example handleGet_wrapped_sentinel :
  handleGet sampleUnsupported
    (sampleServer
       (diskStorage (Some (fmt_Errorf "disk: " sampleUnsupported)) None))
    getPiece =
  ([EvFindStorageForRead "bafk-piece"; EvGetRedirectUrl "disk" "bafk-piece";
    EvResourceLogErrorf 500
      "fail to get redirect url of piece  bafk-piece: disk: this storage has no redirect url";
    EvHttpError
      "fail to get redirect url of piece  bafk-piece: disk: this storage has no redirect url"
      500],
   Return).
Proof. vm_compute. reflexivity. Qed.

Lemma handleGet_copies_and_closes_witness :
  exists st url flen r,
    PieceStorageManager.FindStorageForRead
      (sampleMgr (diskStorage (Some sampleUnsupported) (Some Canceled)))
      (Values_Get (Query getPiece) "resource-id") = (Some st, None) /\
    IPieceStorage.GetRedirectUrl st (Values_Get (Query getPiece) "resource-id") =
    (url, Some sampleUnsupported) /\
    IPieceStorage.Len st (Values_Get (Query getPiece) "resource-id") =
    (flen, None) /\
    IPieceStorage.GetReaderCloser st
      (Values_Get (Query getPiece) "resource-id") = (Some r, None) /\
    ReadCloser.Content r = samplePiece /\
    handleGet sampleUnsupported
      (sampleServer (diskStorage (Some sampleUnsupported) (Some Canceled)))
      getPiece =
    ([EvFindStorageForRead (Values_Get (Query getPiece) "resource-id");
      EvGetRedirectUrl (IPieceStorage.GetName st)
        (Values_Get (Query getPiece) "resource-id");
      EvLen (IPieceStorage.GetName st)
        (Values_Get (Query getPiece) "resource-id");
      EvHeaderSet "Content-Length" (pretty flen);
      EvGetReaderCloser (IPieceStorage.GetName st)
        (Values_Get (Query getPiece) "resource-id");
      EvCopy samplePiece; EvClose] ++
     match ReadCloser.Close r with
     | Some _ => [EvLogErrorf "unable to close http %v"]
     | None => []
     end,
     Next tt).
Proof.
  apply (handleGet_copies_and_closes sampleUnsupported
           (sampleServer (diskStorage (Some sampleUnsupported) (Some Canceled)))
           getPiece samplePiece).
  apply list_elem_of_In. vm_compute. tauto.
Defined.

Lemma handlePut_ok_after_save_witness :
  200 = StatusOK /\
  exists lookups st body,
    Body putPiece = Some body /\
    IPieceStorage.SaveTo st (Values_Get (Query putPiece) "resource-id") body =
    None /\
    handlePut sampleParseInt (sampleServer sampleDisk) putPiece =
    (lookups ++
     [EvSaveTo (IPieceStorage.GetName st)
        (Values_Get (Query putPiece) "resource-id") body;
      EvWriteHeader StatusOK],
     Next tt) /\
    Forall (fun e => isSaveTo e = false /\ answers e = false) lookups.
Proof.
  apply (handlePut_ok_after_save sampleParseInt (sampleServer sampleDisk)
           putPiece 200).
  apply list_elem_of_In. vm_compute. tauto.
Defined.

Lemma handlePut_named_store_wins_witness :
  handlePut sampleParseInt (sampleServer sampleDisk) putPiece =
  handlePut (fun _ => inl 0) (sampleServer sampleDisk) (withoutSize putPiece).
Proof.
  apply (handlePut_named_store_wins sampleParseInt (sampleServer sampleDisk)
           putPiece sampleDisk (fun _ => inl 0)).
  - vm_compute. reflexivity.
  - vm_compute. reflexivity.
Defined.

Lemma sampleMgr_neverNilNil : neverNilNil (sampleMgr sampleDisk).
Proof.
  unfold neverNilNil, sampleMgr. cbn [PieceStorageManager.FindStorageForRead
    PieceStorageManager.GetPieceStorageByName
    PieceStorageManager.FindStorageForWrite].
  split_and!.
  - intros resourceID. by case_bool_decide.
  - intros storeName. by repeat case_bool_decide.
  - done.
  - intros resourceID st err Hfound piece.
    case_bool_decide; [| discriminate]. injection Hfound as <- <-.
    unfold sampleDisk, diskStorage. cbn [IPieceStorage.GetReaderCloser].
    by case_bool_decide.
Defined.

Lemma ServeHTTP_returns_witness :
  panicked
    (ServeHTTP sampleUnsupported sampleParseInt (sampleServer sampleDisk)
       getPiece) = false /\
  panicked
    (ServeHTTP sampleUnsupported sampleParseInt (sampleServer sampleDisk)
       putPiece) = false.
Proof.
  split;
    apply (ServeHTTP_returns sampleUnsupported sampleParseInt
             (sampleServer sampleDisk));
    exact sampleMgr_neverNilNil.
Defined.

(** A manager that returns nil and no error makes both handlers panic
    before anything is answered. *)
Example ServeHTTP_panics_on_nil_storage :
  ServeHTTP sampleUnsupported sampleParseInt (PieceStorageServer.mk nilMgr)
    getPiece = ([EvFindStorageForRead "bafk-piece"], Panic) /\
  ServeHTTP sampleUnsupported sampleParseInt (PieceStorageServer.mk nilMgr)
    (withoutSize putPiece) = ([EvGetPieceStorageByName "disk"], Panic).
Proof. split; vm_compute; reflexivity. Qed.

End ServerSamples.
